(** * Unified inbox: the message service and the Telegram webhook

    A shallow embedding of [services/messageService.js] (the in-memory
    message and conversation store), of the [/telegram] webhook handler
    and of the send-message route of [routes/messages.js], followed by
    the properties of the ingestion path.

    Conventions of the embedding.
    - A JavaScript property that may be absent is an [option]; [None] is
      [undefined].  A string is falsy when it is absent or empty.
    - A [Date] is its number of milliseconds ([Z]); [InvalidDate] is the
      date built from [NaN].
    - A [Map] is an association list in insertion order: [Map.set] on a
      present key replaces the value in place, on a fresh key appends.
    - The wall clock ([new Date()]) and the answer of the categorizer
      ([aiService.categorizeMessage]) are inputs of the operations.
    - A thrown exception is the [Throw] case of [result].
    - An operation runs from its call to its return with no other
      operation in between; a sequence of operations is a list.
    - A request body is well typed: what the handlers index or iterate is
      an array, and its elements are objects whose properties may be
      absent. *)

From Stdlib Require Import ZArith List String Bool Lia QArith.
From Stdlib Require Import Sorting.Sorted Sorting.Permutation.
From Stdlib Require Import DecimalString DecimalNat DecimalZ.
Import ListNotations.
Close Scope Q_scope.
Open Scope string_scope.

(** ** JavaScript values *)

Inductive result (A : Type) : Type :=
| Ok (a : A)
| Throw (msg : string).
Arguments Ok {A} a.
Arguments Throw {A} msg.

Inductive JsDate : Type :=
| DateMs (ms : Z)
| InvalidDate.

(** [Boolean(s)] for a string-valued property. *)
Definition truthy (s : option string) : bool :=
  match s with
  | Some t => negb (String.eqb t "")
  | None => false
  end.

(** [a || b] where [b] is a string literal. *)
Definition or_str (a : option string) (b : string) : string :=
  match a with
  | Some t => if String.eqb t "" then b else t
  | None => b
  end.

(** [a || b] between two string-valued properties. *)
Definition or_opt (a b : option string) : option string :=
  if truthy a then a else b.

(** [a === b] on string-valued properties. *)
Definition opt_eqb (a b : option string) : bool :=
  match a, b with
  | Some x, Some y => String.eqb x y
  | None, None => true
  | _, _ => false
  end.

(** [n.toString()] for a counter and for an integer identifier. *)
Definition string_of_nat (n : nat) : string :=
  NilEmpty.string_of_uint (Nat.to_uint n).

Definition string_of_Z (z : Z) : string :=
  NilZero.string_of_int (Z.to_int z).

(** ** [Map] in insertion order *)

Section JsMap.
Context {V : Type}.

Definition jsmap : Type := list (string * V).

Fixpoint map_get (k : string) (m : jsmap) : option V :=
  match m with
  | [] => None
  | (k', v) :: r => if String.eqb k k' then Some v else map_get k r
  end.

Fixpoint map_set (k : string) (v : V) (m : jsmap) : jsmap :=
  match m with
  | [] => [(k, v)]
  | (k', v') :: r =>
      if String.eqb k k' then (k', v) :: r else (k', v') :: map_set k v r
  end.

(** A write through a reference held elsewhere: the object stored under
    [k], when there is one, is modified in place. *)
Fixpoint map_adjust (k : string) (f : V -> V) (m : jsmap) : jsmap :=
  match m with
  | [] => []
  | (k', v) :: r =>
      if String.eqb k k' then (k', f v) :: r else (k', v) :: map_adjust k f r
  end.

Definition map_keys (m : jsmap) : list string := map fst m.
Definition map_values (m : jsmap) : list V := map snd m.
End JsMap.
Arguments jsmap V : clear implicits.

(** ** Data model *)

Record Attachment : Type := {
  att_type : option string;
  att_url : option string;
  att_filename : option string;
  att_platform : option string
}.

Inductive MetaValue : Type :=
| MStr (s : option string)
| MBool (b : bool).

Definition Metadata : Type := list (string * MetaValue).

(** The object handed to [createMessage]. *)
Record MessageData : Type := {
  md_platform : option string;
  md_sender : option string;
  md_senderId : option string;
  md_recipient : option string;
  md_recipientId : option string;
  md_text : option string;
  md_subject : option string;
  md_timestamp : option JsDate;
  md_status : option string;
  md_type : option string;
  md_attachments : option (list Attachment);
  md_metadata : option Metadata;
  md_threadId : option string;
  md_conversationId : option string;
  md_platformMessageId : option string;
  md_isIncoming : option bool
}.

(** The verdict of one of the classifiers of [aiService]. *)
Record Verdict : Type := {
  v_category : string;
  v_confidence : Q;
  v_matchedTerms : list string
}.

Record OpenAiVerdict : Type := {
  oa_category : string;
  oa_confidence : Q;
  oa_reasoning : string
}.

(** What ends up under [aiInsights]: the empty object [{}], the object
    [{ error }] of the fallback answer, or the object of a completed
    categorization, which carries [Date.now()] as [processingTime]. *)
Inductive AiInsights : Type :=
| InsightsNone
| InsightsError (message : string)
| InsightsFull (ruleBased tfidf : Verdict) (openai : option OpenAiVerdict)
               (processingTime : Z).

Record AiAnalysis : Type := {
  ai_category : string;
  ai_confidence : Q;
  ai_priority : string;
  ai_sentiment : string;
  ai_keywords : list string;
  ai_suggestedReplies : list string;
  ai_aiInsights : AiInsights
}.

Inductive AiOutcome : Type :=
| AiReturned (a : AiAnalysis)
| AiThrew.

(** [aiService.categorizeMessage] as seen by one call: from the text and
    the platform to what the call produced.  Its classifiers rest on
    external libraries and on an optional remote model, and keep state
    between calls, so the embedding takes the answer as given. *)
Definition Categorizer : Type := string -> option string -> AiOutcome.

(** The record built by [createMessage]; [msg_readAt] is the property
    added later by the mark-as-read operations. *)
Record Message : Type := {
  msg_id : string;
  msg_platform : option string;
  msg_sender : option string;
  msg_senderId : option string;
  msg_recipient : option string;
  msg_recipientId : option string;
  msg_text : option string;
  msg_subject : option string;
  msg_timestamp : Z;
  msg_status : string;
  msg_type : string;
  msg_attachments : list Attachment;
  msg_metadata : Metadata;
  msg_threadId : option string;
  msg_conversationId : option string;
  msg_platformMessageId : option string;
  msg_isIncoming : bool;
  msg_priority : string;
  msg_aiCategory : string;
  msg_aiConfidence : Q;
  msg_aiSentiment : string;
  msg_aiKeywords : list string;
  msg_aiSuggestedReplies : list string;
  msg_aiInsights : AiInsights;
  msg_readAt : option Z
}.

Record Conversation : Type := {
  conv_id : string;
  conv_title : string;
  conv_participants : list string;
  conv_platforms : list (option string);
  conv_messageCount : nat;
  conv_lastMessage : option string;
  conv_lastMessageTime : Z;
  conv_createdAt : Z;
  conv_updatedAt : Z;
  conv_primaryPlatform : option string;
  conv_hasAttachments : bool
}.

(** The fields of the [MessageService] instance. *)
Record State : Type := {
  messages : jsmap Message;
  conversations : jsmap Conversation;
  messageCounter : nat;
  conversationCounter : nat
}.

Definition initial_state : State :=
  {| messages := []; conversations := [];
     messageCounter := 0; conversationCounter := 0 |}.

(** ** [normalizeMessageData] *)

Definition isIncoming_not_false (d : MessageData) : option bool :=
  match md_isIncoming d with
  | Some false => Some false
  | _ => Some true
  end.

Definition with_type_incoming (ty : string) (d : MessageData) : MessageData :=
  {| md_platform := md_platform d; md_sender := md_sender d;
     md_senderId := md_senderId d; md_recipient := md_recipient d;
     md_recipientId := md_recipientId d; md_text := md_text d;
     md_subject := md_subject d; md_timestamp := md_timestamp d;
     md_status := md_status d; md_type := Some ty;
     md_attachments := md_attachments d; md_metadata := md_metadata d;
     md_threadId := md_threadId d; md_conversationId := md_conversationId d;
     md_platformMessageId := md_platformMessageId d;
     md_isIncoming := isIncoming_not_false d |}.

Definition with_subject (sb : option string) (d : MessageData) : MessageData :=
  {| md_platform := md_platform d; md_sender := md_sender d;
     md_senderId := md_senderId d; md_recipient := md_recipient d;
     md_recipientId := md_recipientId d; md_text := md_text d;
     md_subject := sb; md_timestamp := md_timestamp d;
     md_status := md_status d; md_type := md_type d;
     md_attachments := md_attachments d; md_metadata := md_metadata d;
     md_threadId := md_threadId d; md_conversationId := md_conversationId d;
     md_platformMessageId := md_platformMessageId d;
     md_isIncoming := md_isIncoming d |}.

(** The [switch] on [messageData.platform]. *)
Definition platform_specific (d : MessageData) : MessageData :=
  match md_platform d with
  | Some "gmail" =>
      with_subject (Some (or_str (md_subject d) "No Subject"))
                   (with_type_incoming "email" d)
  | Some "telegram" => with_type_incoming "chat" d
  | Some "whatsapp" => with_type_incoming "chat" d
  | Some "instagram" => with_type_incoming "direct_message" d
  | Some "twitter" => with_type_incoming "direct_message" d
  | _ => d
  end.

(** The three defaults set after the [switch]. *)
Definition set_defaults (d : MessageData) : MessageData :=
  {| md_platform := md_platform d; md_sender := md_sender d;
     md_senderId := md_senderId d; md_recipient := md_recipient d;
     md_recipientId := md_recipientId d;
     md_text := Some (or_str (md_text d) "");
     md_subject := md_subject d; md_timestamp := md_timestamp d;
     md_status := md_status d; md_type := md_type d;
     md_attachments :=
       Some (match md_attachments d with Some l => l | None => [] end);
     md_metadata :=
       Some (match md_metadata d with Some m => m | None => [] end);
     md_threadId := md_threadId d; md_conversationId := md_conversationId d;
     md_platformMessageId := md_platformMessageId d;
     md_isIncoming := md_isIncoming d |}.

Definition normalizeMessageData (messageData : MessageData) : MessageData :=
  set_defaults (platform_specific messageData).

(** ** [createConversation] and [updateConversation] *)

Definition set_conversationId (cid : string) (m : Message) : Message :=
  {| msg_id := msg_id m; msg_platform := msg_platform m;
     msg_sender := msg_sender m; msg_senderId := msg_senderId m;
     msg_recipient := msg_recipient m; msg_recipientId := msg_recipientId m;
     msg_text := msg_text m; msg_subject := msg_subject m;
     msg_timestamp := msg_timestamp m; msg_status := msg_status m;
     msg_type := msg_type m; msg_attachments := msg_attachments m;
     msg_metadata := msg_metadata m; msg_threadId := msg_threadId m;
     msg_conversationId := Some cid;
     msg_platformMessageId := msg_platformMessageId m;
     msg_isIncoming := msg_isIncoming m; msg_priority := msg_priority m;
     msg_aiCategory := msg_aiCategory m;
     msg_aiConfidence := msg_aiConfidence m;
     msg_aiSentiment := msg_aiSentiment m;
     msg_aiKeywords := msg_aiKeywords m;
     msg_aiSuggestedReplies := msg_aiSuggestedReplies m;
     msg_aiInsights := msg_aiInsights m; msg_readAt := msg_readAt m |}.

(** [[a, b].filter(Boolean)] *)
Definition filter_Boolean (l : list (option string)) : list string :=
  flat_map (fun o => if truthy o then [or_str o ""] else []) l.

Definition includes (x : string) (l : list string) : bool :=
  existsb (String.eqb x) l.

(** [Set.prototype.add] *)
Definition set_add (p : option string) (l : list (option string))
  : list (option string) :=
  if existsb (opt_eqb p) l then l else l ++ [p].

Definition conv_id_of (n : nat) : string := "conv_" ++ string_of_nat n.
Definition msg_id_of (n : nat) : string := "msg_" ++ string_of_nat n.

Definition createConversation (message : Message) (s : State)
  : string * State :=
  let counter := S (conversationCounter s) in
  let conversationId := conv_id_of counter in
  let conversation :=
    {| conv_id := conversationId;
       conv_title :=
         or_str (or_opt (msg_subject message) (msg_sender message))
                "New Conversation";
       conv_participants :=
         filter_Boolean [msg_senderId message; msg_recipientId message];
       conv_platforms := [msg_platform message];
       conv_messageCount := 1;
       conv_lastMessage := msg_text message;
       conv_lastMessageTime := msg_timestamp message;
       conv_createdAt := msg_timestamp message;
       conv_updatedAt := msg_timestamp message;
       conv_primaryPlatform := msg_platform message;
       conv_hasAttachments := Nat.ltb 0 (List.length (msg_attachments message)) |} in
  (conversationId,
   {| messages := messages s;
      conversations := map_set conversationId conversation (conversations s);
      messageCounter := messageCounter s;
      conversationCounter := counter |}).

(** [participants.push(id)] guarded by [id && !participants.includes(id)]. *)
Definition push_participant (id : option string) (l : list string)
  : list string :=
  if truthy id && negb (includes (or_str id "") l)
  then l ++ [or_str id ""] else l.

(** The body of [if (conversation) { ... }]. *)
Definition touch_conversation (message : Message) (c : Conversation)
  : Conversation :=
  {| conv_id := conv_id c; conv_title := conv_title c;
     conv_participants :=
       push_participant (msg_recipientId message)
         (push_participant (msg_senderId message) (conv_participants c));
     conv_platforms := set_add (msg_platform message) (conv_platforms c);
     conv_messageCount := S (conv_messageCount c);
     conv_lastMessage := msg_text message;
     conv_lastMessageTime := msg_timestamp message;
     conv_createdAt := conv_createdAt c; conv_updatedAt := conv_updatedAt c;
     conv_primaryPlatform := conv_primaryPlatform c;
     conv_hasAttachments := conv_hasAttachments c |}.

Definition with_conversations (cs : jsmap Conversation) (s : State) : State :=
  {| messages := messages s; conversations := cs;
     messageCounter := messageCounter s;
     conversationCounter := conversationCounter s |}.

Definition with_messages (ms : jsmap Message) (s : State) : State :=
  {| messages := ms; conversations := conversations s;
     messageCounter := messageCounter s;
     conversationCounter := conversationCounter s |}.

(** [updateConversation(message)].  The argument is the object that
    [createMessage] has just stored under [message.id]: the assignment
    [message.conversationId = conversationId] is therefore also visible
    in the store, which [map_adjust] writes out.  The result carries the
    conversation id, the message as the caller sees it afterwards, and
    the new state. *)
Definition updateConversation (message : Message) (s : State)
  : string * Message * State :=
  let '(conversationId, message1, s1) :=
    if truthy (msg_conversationId message)
    then (or_str (msg_conversationId message) "", message, s)
    else
      let '(cid, s') := createConversation message s in
      (cid, set_conversationId cid message,
       with_messages
         (map_adjust (msg_id message) (set_conversationId cid) (messages s'))
         s') in
  match map_get conversationId (conversations s1) with
  | Some conversation =>
      (conversationId, message1,
       with_conversations
         (map_set conversationId (touch_conversation message1 conversation)
                  (conversations s1))
         s1)
  | None => (conversationId, message1, s1)
  end.

(** ** [createMessage] *)

(** Lines 37-45: the categorizer runs only on a non-empty text, and a
    failure of it leaves [aiAnalysis] null. *)
Definition analysis_of (ai : Categorizer) (normalizedMessage : MessageData)
  : option AiAnalysis :=
  if truthy (md_text normalizedMessage) then
    match ai (or_str (md_text normalizedMessage) "")
             (md_platform normalizedMessage) with
    | AiReturned a => Some a
    | AiThrew => None
    end
  else None.

(** [x || 0] on a number. *)
Definition or_zero (q : Q) : Q := if Qeq_bool q 0 then 0%Q else q.

(** The object literal of lines 47-73. *)
Definition build_message (messageId : string) (timestamp : Z)
    (normalizedMessage : MessageData) (aiAnalysis : option AiAnalysis)
  : Message :=
  {| msg_id := messageId;
     msg_platform := md_platform normalizedMessage;
     msg_sender := md_sender normalizedMessage;
     msg_senderId := md_senderId normalizedMessage;
     msg_recipient := md_recipient normalizedMessage;
     msg_recipientId := md_recipientId normalizedMessage;
     msg_text := md_text normalizedMessage;
     msg_subject := md_subject normalizedMessage;
     msg_timestamp := timestamp;
     msg_status := "unread";
     msg_type := or_str (md_type normalizedMessage) "message";
     msg_attachments :=
       match md_attachments normalizedMessage with
       | Some l => l | None => []
       end;
     msg_metadata :=
       match md_metadata normalizedMessage with
       | Some m => m | None => []
       end;
     msg_threadId := md_threadId normalizedMessage;
     msg_conversationId := md_conversationId normalizedMessage;
     msg_platformMessageId := md_platformMessageId normalizedMessage;
     msg_isIncoming :=
       match md_isIncoming normalizedMessage with
       | Some b => b | None => false
       end;
     msg_priority := or_str (option_map ai_priority aiAnalysis) "normal";
     msg_aiCategory := or_str (option_map ai_category aiAnalysis) "general";
     msg_aiConfidence :=
       match aiAnalysis with
       | Some a => or_zero (ai_confidence a) | None => 0%Q
       end;
     msg_aiSentiment := or_str (option_map ai_sentiment aiAnalysis) "neutral";
     msg_aiKeywords :=
       match aiAnalysis with Some a => ai_keywords a | None => [] end;
     msg_aiSuggestedReplies :=
       match aiAnalysis with
       | Some a => ai_suggestedReplies a | None => []
       end;
     msg_aiInsights :=
       match aiAnalysis with
       | Some a => ai_aiInsights a | None => InsightsNone
       end;
     msg_readAt := None |}.

(** [createMessage(messageData)]; [now] is the value of [new Date()] and
    [ai] the categorizer at this call.  Returns the message object as the
    caller receives it and the state of the service afterwards. *)
Definition createMessage (messageData : MessageData) (now : Z)
    (ai : Categorizer) (s : State) : Message * State :=
  let counter := S (messageCounter s) in
  let messageId := msg_id_of counter in
  let timestamp := now in
  let normalizedMessage := normalizeMessageData messageData in
  let aiAnalysis := analysis_of ai normalizedMessage in
  let message := build_message messageId timestamp normalizedMessage aiAnalysis in
  let s1 :=
    {| messages := map_set messageId message (messages s);
       conversations := conversations s;
       messageCounter := counter;
       conversationCounter := conversationCounter s |} in
  let '(_, message', s2) := updateConversation message s1 in
  (message', s2).

(** ** [getConversationMessages] *)

(** [Array.prototype.sort] with the comparator
    [new Date(a.timestamp) - new Date(b.timestamp)]: the sort is stable,
    so the result is the one of a stable insertion by timestamp. *)
Fixpoint insert_by_timestamp (m : Message) (l : list Message) : list Message :=
  match l with
  | [] => [m]
  | x :: r =>
      if (msg_timestamp m <=? msg_timestamp x)%Z then m :: x :: r
      else x :: insert_by_timestamp m r
  end.

Fixpoint sort_by_timestamp (l : list Message) : list Message :=
  match l with
  | [] => []
  | m :: r => insert_by_timestamp m (sort_by_timestamp r)
  end.

(** [arr.slice(start)] with a relative start. *)
Definition slice {A : Type} (start : Z) (l : list A) : list A :=
  let len := Z.of_nat (List.length l) in
  let from := if (start <? 0)%Z then Z.max (len + start) 0
              else Z.min start len in
  skipn (Z.to_nat from) l.

Definition in_conversation (conversationId : string) (m : Message) : bool :=
  opt_eqb (msg_conversationId m) (Some conversationId).

Definition getConversationMessages (conversationId : string) (limit : Z)
    (s : State) : result (list Message) :=
  match map_get conversationId (conversations s) with
  | None => Throw "Conversation not found"
  | Some _ =>
      Ok (slice (- limit)
            (sort_by_timestamp
               (filter (in_conversation conversationId)
                       (map_values (messages s)))))
  end.

(** ** [markConversationAsRead] *)

Definition mark_read (readAt : Z) (m : Message) : Message :=
  {| msg_id := msg_id m; msg_platform := msg_platform m;
     msg_sender := msg_sender m; msg_senderId := msg_senderId m;
     msg_recipient := msg_recipient m; msg_recipientId := msg_recipientId m;
     msg_text := msg_text m; msg_subject := msg_subject m;
     msg_timestamp := msg_timestamp m; msg_status := "read";
     msg_type := msg_type m; msg_attachments := msg_attachments m;
     msg_metadata := msg_metadata m; msg_threadId := msg_threadId m;
     msg_conversationId := msg_conversationId m;
     msg_platformMessageId := msg_platformMessageId m;
     msg_isIncoming := msg_isIncoming m; msg_priority := msg_priority m;
     msg_aiCategory := msg_aiCategory m;
     msg_aiConfidence := msg_aiConfidence m;
     msg_aiSentiment := msg_aiSentiment m;
     msg_aiKeywords := msg_aiKeywords m;
     msg_aiSuggestedReplies := msg_aiSuggestedReplies m;
     msg_aiInsights := msg_aiInsights m; msg_readAt := Some readAt |}.

(** The test of the loop body. *)
Definition unread_in (conversationId : string) (m : Message) : bool :=
  in_conversation conversationId m && String.eqb (msg_status m) "unread".

(** The [for ... of this.messages] loop.  [clock k] is the value of the
    [new Date()] evaluated when [k] messages have been updated so far.
    Every [set] is on a key already present, so the entries being
    iterated keep their number and order. *)
Fixpoint mark_loop (conversationId : string) (clock : nat -> Z)
    (entries : list (string * Message)) (store : jsmap Message)
    (updatedCount : nat) : jsmap Message * nat :=
  match entries with
  | [] => (store, updatedCount)
  | (messageId, message) :: rest =>
      if unread_in conversationId message
      then mark_loop conversationId clock rest
             (map_set messageId (mark_read (clock updatedCount) message) store)
             (S updatedCount)
      else mark_loop conversationId clock rest store updatedCount
  end.

Definition markConversationAsRead (conversationId : string)
    (clock : nat -> Z) (s : State) : result (nat * State) :=
  match map_get conversationId (conversations s) with
  | None => Throw "Conversation not found"
  | Some _ =>
      let '(store, updatedCount) :=
        mark_loop conversationId clock (messages s) (messages s) 0 in
      Ok (updatedCount, with_messages store s)
  end.

(** ** The [/telegram] webhook handler *)

Record TgUser : Type := {
  user_username : option string;
  user_first_name : option string;
  user_id : option Z
}.

Record TgChat : Type := {
  chat_username : option string;
  chat_title : option string;
  chat_id : option Z;
  chat_type : option string
}.

Record TgFile : Type := {
  file_id : option string;
  file_name : option string
}.

Record TgMessage : Type := {
  tg_from : option TgUser;
  tg_chat : option TgChat;
  tg_text : option string;
  tg_caption : option string;
  tg_date : option Z;
  tg_message_id : option Z;
  tg_photo : option (list TgFile);
  tg_video : option TgFile;
  tg_document : option TgFile;
  tg_audio : option TgFile;
  tg_voice : option TgFile
}.

(** [req.body] *)
Record TgUpdate : Type := {
  upd_message : option TgMessage;
  upd_edited_message : option TgMessage;
  upd_channel_post : option TgMessage;
  upd_edited_channel_post : option TgMessage
}.

Definition bind {A B : Type} (r : result A) (k : A -> result B) : result B :=
  match r with
  | Ok a => k a
  | Throw e => Throw e
  end.

Notation "x <- r ;; k" := (bind r (fun x => k))
  (at level 61, r at next level, right associativity).

(** Reading a property of [undefined] throws a [TypeError]. *)
Definition deref {A : Type} (o : option A) : result A :=
  match o with
  | Some a => Ok a
  | None => Throw "TypeError"
  end.

Definition first_of {A : Type} (a b : option A) : option A :=
  match a with Some _ => a | None => b end.

Definition present {A : Type} (o : option A) : bool :=
  match o with Some _ => true | None => false end.

(** [message || edited_message || channel_post || edited_channel_post] *)
Definition update_msg (body : TgUpdate) : option TgMessage :=
  first_of (upd_message body)
    (first_of (upd_edited_message body)
       (first_of (upd_channel_post body) (upd_edited_channel_post body))).

Definition has_media (msg : TgMessage) : bool :=
  present (tg_photo msg) || present (tg_video msg)
  || present (tg_document msg) || present (tg_audio msg)
  || present (tg_voice msg).

Definition telegram_attachment (ty : string) (url filename : option string)
  : Attachment :=
  {| att_type := Some ty; att_url := url; att_filename := filename;
     att_platform := Some "telegram" |}.

(** The block "Handle media attachments". *)
Definition telegram_attachments (msg : TgMessage)
  : result (option (list Attachment)) :=
  if has_media msg then
    a1 <- match tg_photo msg with
          | Some photo =>
              biggest <- deref (last (map Some photo) None) ;;
              Ok [telegram_attachment "image" (file_id biggest) None]
          | None => Ok []
          end ;;
    let a2 := match tg_video msg with
              | Some video => [telegram_attachment "video" (file_id video) None]
              | None => []
              end in
    let a3 := match tg_document msg with
              | Some document =>
                  [telegram_attachment "document" (file_id document)
                                       (file_name document)]
              | None => []
              end in
    Ok (Some (a1 ++ a2 ++ a3)%list)
  else Ok None.

(** "Create unified message format" followed by the attachment block. *)
Definition telegram_unified (body : TgUpdate) (msg : TgMessage)
  : result MessageData :=
  from <- deref (tg_from msg) ;;
  from_id <- deref (user_id from) ;;
  chat <- deref (tg_chat msg) ;;
  chat_id' <- deref (chat_id chat) ;;
  message_id <- deref (tg_message_id msg) ;;
  attachments <- telegram_attachments msg ;;
  Ok {| md_platform := Some "telegram";
        md_sender :=
          Some (or_str (or_opt (user_username from) (user_first_name from))
                       "Unknown");
        md_senderId := Some (string_of_Z from_id);
        md_recipient :=
          Some (or_str (or_opt (chat_username chat) (chat_title chat))
                       "Unknown");
        md_recipientId := Some (string_of_Z chat_id');
        md_text := Some (or_str (or_opt (tg_text msg) (tg_caption msg)) "");
        md_subject := None;
        md_timestamp :=
          Some (match tg_date msg with
                | Some date => DateMs (date * 1000)
                | None => InvalidDate
                end);
        md_status := None;
        md_type := Some "message";
        md_attachments := attachments;
        md_metadata :=
          Some [("chatType", MStr (chat_type chat));
                ("isEdited",
                 MBool (present (upd_edited_message body)
                        || present (upd_edited_channel_post body)));
                ("hasMedia", MBool (has_media msg))];
        md_threadId := None;
        md_conversationId := None;
        md_platformMessageId := Some (string_of_Z message_id);
        md_isIncoming := None |}.

(** The socket server found under the application setting ['io']:
    [emit room event payload] either returns or throws. *)
Definition Emitter : Type := string -> string -> Message -> result unit.

(** [req.app.get('io').to(room).emit('message:new', savedMessage)];
    [None] is an application on which ['io'] was never set. *)
Definition fan_out (io : option Emitter) (room : string) (m : Message)
  : result unit :=
  server <- deref io ;;
  server room "message:new" m.

Inductive Response : Type :=
| NoMessageContent                 (* 200 { ok: true, message: ... } *)
| Processed (messageId : string)   (* 200 { ok: true, messageId } *)
| InternalServerError.             (* 500 { ok: false, error: ... } *)

Definition status_code (r : Response) : nat :=
  match r with
  | NoMessageContent => 200
  | Processed _ => 200
  | InternalServerError => 500
  end.

(** [router.post('/telegram', ...)]: one [try] block around the whole
    body, whose [catch] answers 500. *)
Definition telegram_webhook (body : TgUpdate) (now : Z) (ai : Categorizer)
    (io : option Emitter) (s : State) : Response * State :=
  match update_msg body with
  | None => (NoMessageContent, s)
  | Some msg =>
      match telegram_unified body msg with
      | Throw _ => (InternalServerError, s)
      | Ok unifiedMessage =>
          let '(savedMessage, s') := createMessage unifiedMessage now ai s in
          match fan_out io "platform:telegram" savedMessage with
          | Throw _ => (InternalServerError, s')
          | Ok _ => (Processed (msg_id savedMessage), s')
          end
      end
  end.

(** ** The send-message route of [routes/messages.js] *)

Record RouteMessage : Type := {
  rm_id : string;
  rm_platform : option string;
  rm_sender : string;
  rm_senderName : string;
  rm_recipient : option string;
  rm_subject : option string;
  rm_text : option string;
  rm_timestamp : Z;
  rm_status : string;
  rm_type : string;
  rm_attachments : list Attachment;
  rm_threadId : string;
  rm_chatId : string;
  rm_conversationId : string
}.

Record SendBody : Type := {
  sb_platform : option string;
  sb_recipient : option string;
  sb_text : option string;
  sb_subject : option string;
  sb_type : option string;
  sb_attachments : option (list Attachment)
}.

Inductive SendResponse : Type :=
| MissingRequiredFields            (* 400 *)
| Sent (messageId : string).       (* 201 *)

(** [router.post('/', ...)]; [clock k] is the [k]-th reading of the clock
    made while the object literal is evaluated. *)
Definition send_message_route (body : SendBody) (clock : nat -> Z)
    (db : list RouteMessage) : SendResponse * list RouteMessage :=
  if negb (truthy (sb_platform body)) || negb (truthy (sb_recipient body))
     || negb (truthy (sb_text body))
  then (MissingRequiredFields, db)
  else
    let newMessage :=
      {| rm_id := string_of_Z (clock 0);
         rm_platform := sb_platform body;
         rm_sender := "user@example.com";
         rm_senderName := "You";
         rm_recipient := sb_recipient body;
         rm_subject := sb_subject body;
         rm_text := sb_text body;
         rm_timestamp := clock 1;
         rm_status := "sent";
         rm_type := or_str (sb_type body) "message";
         rm_attachments :=
           match sb_attachments body with Some l => l | None => [] end;
         rm_threadId := "thread_" ++ string_of_Z (clock 2);
         rm_chatId := "chat_" ++ string_of_Z (clock 3);
         rm_conversationId := "conv_" ++ string_of_Z (clock 4) |} in
    (Sent (rm_id newMessage), newMessage :: db).

(** ** Runs of the service *)

(** One call of [createMessage]: its argument, the clock and the
    categorizer at that call. *)
Record Ingest : Type := {
  in_data : MessageData;
  in_now : Z;
  in_ai : Categorizer
}.

Definition ingest (e : Ingest) (s : State) : Message * State :=
  createMessage (in_data e) (in_now e) (in_ai e) s.

(** The calls of [evs], in order, from state [s]: each call runs to its
    end before the next one starts. *)
Fixpoint run (evs : list Ingest) (s : State) : State :=
  match evs with
  | [] => s
  | e :: r => run r (snd (ingest e s))
  end.

(** ** Observations on messages *)

(** The idempotency key of the specification. *)
Definition idempotency_key (m : Message) : option string * option string :=
  (msg_platform m, msg_platformMessageId m).

(** The properties of a message that are copied from the normalized
    payload (lines 49-64 without [timestamp] and [conversationId]). *)
Definition content_fields (m : Message) :=
  (msg_platform m, msg_sender m, msg_senderId m, msg_recipient m,
   msg_recipientId m, msg_text m, msg_subject m, msg_status m, msg_type m,
   msg_attachments m, msg_metadata m, msg_threadId m,
   msg_platformMessageId m, msg_isIncoming m).

(** The properties of a message that come from the categorizer. *)
Definition ai_fields (m : Message) :=
  (msg_priority m, msg_aiCategory m, msg_aiConfidence m, msg_aiSentiment m,
   msg_aiKeywords m, msg_aiSuggestedReplies m, msg_aiInsights m).

(** Every property except those that come from the categorizer. *)
Definition non_ai_fields (m : Message) :=
  (msg_id m, msg_timestamp m, msg_conversationId m, msg_readAt m,
   content_fields m).

(** Every property except [status] and [readAt]. *)
Definition fields_but_status_readAt (m : Message) :=
  (msg_id m, msg_platform m, msg_sender m, msg_senderId m, msg_recipient m,
   msg_recipientId m, msg_text m, msg_subject m, msg_timestamp m,
   msg_type m, msg_attachments m, msg_metadata m, msg_threadId m,
   msg_conversationId m, msg_platformMessageId m, msg_isIncoming m,
   ai_fields m).

Definition timestamp_le (a b : Message) : Prop :=
  (msg_timestamp a <= msg_timestamp b)%Z.

Definition at_timestamp (t : Z) (m : Message) : bool :=
  (msg_timestamp m =? t)%Z.

(** The payload with its [timestamp] property replaced. *)
Definition with_timestamp (t : option JsDate) (d : MessageData) : MessageData :=
  {| md_platform := md_platform d; md_sender := md_sender d;
     md_senderId := md_senderId d; md_recipient := md_recipient d;
     md_recipientId := md_recipientId d; md_text := md_text d;
     md_subject := md_subject d; md_timestamp := t;
     md_status := md_status d; md_type := md_type d;
     md_attachments := md_attachments d; md_metadata := md_metadata d;
     md_threadId := md_threadId d; md_conversationId := md_conversationId d;
     md_platformMessageId := md_platformMessageId d;
     md_isIncoming := md_isIncoming d |}.

(** The store of a service that only ever ran [createMessage]: the keys,
    and the [id] properties of the values, are msg_1 ... msg_n in
    insertion order, [n] being the message counter. *)
Definition ids_in_order (s : State) : Prop :=
  map_keys (messages s) = map msg_id_of (seq 1 (messageCounter s))
  /\ map msg_id (map_values (messages s)) =
     map msg_id_of (seq 1 (messageCounter s)).

(** The [case] taken by the [switch] of [normalizeMessageData]: the
    [type] it sets, and whether it also defaults the subject. *)
Definition platform_rule (platform : option string) : option (string * bool) :=
  match platform with
  | Some "gmail" => Some ("email", true)
  | Some "telegram" => Some ("chat", false)
  | Some "whatsapp" => Some ("chat", false)
  | Some "instagram" => Some ("direct_message", false)
  | Some "twitter" => Some ("direct_message", false)
  | _ => None
  end.

(** The categorizer properties of a message built without an analysis,
    and of one built from the analysis [a] (lines 65-72). *)
Definition ai_defaults :=
  ("normal", "general", 0%Q, "neutral", @nil string, @nil string,
   InsightsNone).

Definition ai_copied (a : AiAnalysis) :=
  (or_str (Some (ai_priority a)) "normal",
   or_str (Some (ai_category a)) "general",
   or_zero (ai_confidence a),
   or_str (Some (ai_sentiment a)) "neutral",
   ai_keywords a, ai_suggestedReplies a, ai_aiInsights a).

(** ** Observations on Telegram updates *)

(** The sender identity of a Telegram message: [msg.from.id]. *)
Definition sender_identity (msg : TgMessage) : option Z :=
  match tg_from msg with
  | Some from => user_id from
  | None => None
  end.

(** The message without its [date] property. *)
Definition without_date (msg : TgMessage) : TgMessage :=
  {| tg_from := tg_from msg; tg_chat := tg_chat msg; tg_text := tg_text msg;
     tg_caption := tg_caption msg; tg_date := None;
     tg_message_id := tg_message_id msg; tg_photo := tg_photo msg;
     tg_video := tg_video msg; tg_document := tg_document msg;
     tg_audio := tg_audio msg; tg_voice := tg_voice msg |}.

(** The update with [f] applied to the message it carries. *)
Definition map_update (f : TgMessage -> TgMessage) (body : TgUpdate)
  : TgUpdate :=
  {| upd_message := option_map f (upd_message body);
     upd_edited_message := option_map f (upd_edited_message body);
     upd_channel_post := option_map f (upd_channel_post body);
     upd_edited_channel_post := option_map f (upd_edited_channel_post body) |}.

(** The entries of the store after the mark-as-read loop has gone over
    [entries], [n] messages having been updated before. *)
Fixpoint marked_entries (conversationId : string) (clock : nat -> Z)
    (entries : list (string * Message)) (n : nat) : list (string * Message) :=
  match entries with
  | [] => []
  | (k, m) :: rest =>
      if unread_in conversationId m
      then (k, mark_read (clock n) m)
             :: marked_entries conversationId clock rest (S n)
      else (k, m) :: marked_entries conversationId clock rest n
  end.

(** ** The other operations of the message service *)

(** [Map.prototype.delete] *)
Fixpoint map_delete {V : Type} (k : string) (m : jsmap V) : jsmap V :=
  match m with
  | [] => []
  | (k', v) :: r =>
      if String.eqb k k' then r else (k', v) :: map_delete k r
  end.

Definition getMessageById (messageId : string) (s : State) : result Message :=
  match map_get messageId (messages s) with
  | Some message => Ok message
  | None => Throw "Message not found"
  end.

Definition getConversationById (conversationId : string) (s : State)
  : result Conversation :=
  match map_get conversationId (conversations s) with
  | Some conversation => Ok conversation
  | None => Throw "Conversation not found"
  end.

(** [markMessageAsRead(messageId)]; [now] is the value of [new Date()]. *)
Definition markMessageAsRead (messageId : string) (now : Z) (s : State)
  : result (Message * State) :=
  match map_get messageId (messages s) with
  | None => Throw "Message not found"
  | Some message =>
      let message' := mark_read now message in
      Ok (message',
          with_messages (map_set messageId message' (messages s)) s)
  end.

(** [conversation.messageCount = Math.max(0, conversation.messageCount - 1)] *)
Definition uncount_message (c : Conversation) : Conversation :=
  {| conv_id := conv_id c; conv_title := conv_title c;
     conv_participants := conv_participants c;
     conv_platforms := conv_platforms c;
     conv_messageCount := Nat.max 0 (conv_messageCount c - 1);
     conv_lastMessage := conv_lastMessage c;
     conv_lastMessageTime := conv_lastMessageTime c;
     conv_createdAt := conv_createdAt c; conv_updatedAt := conv_updatedAt c;
     conv_primaryPlatform := conv_primaryPlatform c;
     conv_hasAttachments := conv_hasAttachments c |}.

(** [deleteMessage(messageId)]; the value returned on success is the
    constant [{ success: true }]. *)
Definition deleteMessage (messageId : string) (s : State) : result State :=
  match map_get messageId (messages s) with
  | None => Throw "Message not found"
  | Some message =>
      let s1 := with_messages (map_delete messageId (messages s)) s in
      if truthy (msg_conversationId message) then
        let conversationId := or_str (msg_conversationId message) "" in
        match map_get conversationId (conversations s1) with
        | Some conversation =>
            Ok (with_conversations
                  (map_set conversationId (uncount_message conversation)
                           (conversations s1))
                  s1)
        | None => Ok s1
        end
      else Ok s1
  end.

(** [Array.prototype.sort] with the comparator
    [new Date(b.timestamp) - new Date(a.timestamp)], newest first; the
    sort is stable. *)
Fixpoint insert_newest_first (m : Message) (l : list Message) : list Message :=
  match l with
  | [] => [m]
  | x :: r =>
      if (msg_timestamp x <=? msg_timestamp m)%Z then m :: x :: r
      else x :: insert_newest_first m r
  end.

Fixpoint sort_newest_first (l : list Message) : list Message :=
  match l with
  | [] => []
  | m :: r => insert_newest_first m (sort_newest_first r)
  end.

(** The index that [slice] makes of a relative position. *)
Definition relative_index (len : nat) (i : Z) : nat :=
  Z.to_nat (if (i <? 0)%Z then Z.max (Z.of_nat len + i) 0
            else Z.min i (Z.of_nat len)).

(** [arr.slice(start, end)] *)
Definition slice_range {A : Type} (start stop : Z) (l : list A) : list A :=
  let from := relative_index (List.length l) start in
  let to := relative_index (List.length l) stop in
  firstn (to - from) (skipn from l).

(** [getMessagesByCategory(category, limit = 50)] *)
Definition getMessagesByCategory (category : string) (limit : Z) (s : State)
  : list Message :=
  slice_range 0 limit
    (sort_newest_first
       (filter (fun msg => String.eqb (msg_aiCategory msg) category)
               (map_values (messages s)))).

(** [getUrgentMessages(limit = 20)] *)
Definition getUrgentMessages (limit : Z) (s : State) : list Message :=
  getMessagesByCategory "urgent" limit s.

(** *** [getMessages] *)

(** [filters]: a date filter holds the date that [new Date] makes of a
    truthy [dateFrom] or [dateTo]. *)
Record Filters : Type := {
  f_platform : option string;
  f_status : option string;
  f_search : option string;
  f_conversationId : option string;
  f_dateFrom : option JsDate;
  f_dateTo : option JsDate;
  f_type : option string;
  f_isIncoming : option bool
}.

Record PageRequest : Type := {
  pr_page : option Z;
  pr_limit : option Z
}.

Record Pagination : Type := {
  pg_page : Z;
  pg_limit : Z;
  pg_total : Z;
  pg_totalPages : Z;
  pg_hasNext : bool;
  pg_hasPrev : bool
}.

(** [x || d] on a number. *)
Definition or_num (x : option Z) (d : Z) : Z :=
  match x with
  | Some v => if (v =? 0)%Z then d else v
  | None => d
  end.

(** [Math.ceil(a / b)] for integers [a] and [b], [b] not zero. *)
Definition ceil_div (a b : Z) : Z := (- ((- a) / b))%Z.

(** [s.includes(term)] *)
Fixpoint str_includes (term s : string) : bool :=
  String.prefix term s
  || match s with
     | EmptyString => false
     | String _ r => str_includes term r
     end.

(** [msg.timestamp >= date] and [msg.timestamp <= date]; a comparison
    with an invalid date is false. *)
Definition not_before (d : JsDate) (t : Z) : bool :=
  match d with DateMs ms => (ms <=? t)%Z | InvalidDate => false end.

Definition not_after (d : JsDate) (t : Z) : bool :=
  match d with DateMs ms => (t <=? ms)%Z | InvalidDate => false end.

Section Search.

(** [String.prototype.toLowerCase] *)
Variable toLowerCase : string -> string.

(** [prop?.toLowerCase().includes(searchTerm)] *)
Definition mentions (searchTerm : string) (prop : option string) : bool :=
  match prop with
  | Some t => str_includes searchTerm (toLowerCase t)
  | None => false
  end.

(** The conjunction of the filters that [getMessages] applies one after
    the other. *)
Definition message_passes (filters : Filters) (msg : Message) : bool :=
  (if truthy (f_platform filters)
      && negb (opt_eqb (f_platform filters) (Some "all"))
   then opt_eqb (msg_platform msg) (f_platform filters) else true)
  && (if truthy (f_status filters)
      then opt_eqb (Some (msg_status msg)) (f_status filters) else true)
  && (if truthy (f_search filters)
      then let searchTerm := toLowerCase (or_str (f_search filters) "") in
           mentions searchTerm (msg_text msg)
           || mentions searchTerm (msg_subject msg)
           || mentions searchTerm (msg_sender msg)
      else true)
  && (if truthy (f_conversationId filters)
      then opt_eqb (msg_conversationId msg) (f_conversationId filters)
      else true)
  && (match f_dateFrom filters with
      | Some dateFrom => not_before dateFrom (msg_timestamp msg)
      | None => true
      end)
  && (match f_dateTo filters with
      | Some dateTo => not_after dateTo (msg_timestamp msg)
      | None => true
      end)
  && (if truthy (f_type filters)
      then opt_eqb (Some (msg_type msg)) (f_type filters) else true)
  && (match f_isIncoming filters with
      | Some b => Bool.eqb (msg_isIncoming msg) b
      | None => true
      end).

(** [getMessages(filters, pagination)] *)
Definition getMessages (filters : Filters) (pagination : PageRequest)
    (s : State) : list Message * Pagination :=
  let filteredMessages :=
    sort_newest_first
      (filter (message_passes filters) (map_values (messages s))) in
  let page := or_num (pr_page pagination) 1 in
  let limit := or_num (pr_limit pagination) 20 in
  let startIndex := ((page - 1) * limit)%Z in
  let endIndex := (startIndex + limit)%Z in
  let total := Z.of_nat (List.length filteredMessages) in
  (slice_range startIndex endIndex filteredMessages,
   {| pg_page := page;
      pg_limit := limit;
      pg_total := total;
      pg_totalPages := ceil_div total limit;
      pg_hasNext := (endIndex <? total)%Z;
      pg_hasPrev := (1 <? page)%Z |}).

End Search.

(** *** [sendMessage] *)

(** What the platform answered to a send. *)
Record PlatformResult : Type := {
  res_id : option string;
  res_message_id : option string;
  res_messageId : option string
}.

(** The platform as [sendMessage] finds it at one call: whether
    [platformService.getPlatform] yields a configured instance, and what
    its send method does. *)
Record PlatformPort : Type := {
  port_configured : bool;
  port_send : result PlatformResult
}.

Definition supported_platform (platform : string) : bool :=
  match platform with
  | "telegram" => true
  | "gmail" => true
  | "whatsapp" => true
  | "instagram" => true
  | "twitter" => true
  | _ => false
  end.

(** The argument of the [createMessage] call of [sendMessage]. *)
Definition outgoing_data (platform : string) (timestamp : Z)
    (platformResult : PlatformResult) (messageData : MessageData)
  : MessageData :=
  {| md_platform := Some platform; md_sender := md_sender messageData;
     md_senderId := md_senderId messageData;
     md_recipient := md_recipient messageData;
     md_recipientId := md_recipientId messageData;
     md_text := md_text messageData; md_subject := md_subject messageData;
     md_timestamp := Some (DateMs timestamp);
     md_status := Some "sent"; md_type := md_type messageData;
     md_attachments := md_attachments messageData;
     md_metadata := md_metadata messageData;
     md_threadId := md_threadId messageData;
     md_conversationId := md_conversationId messageData;
     md_platformMessageId :=
       or_opt (res_id platformResult)
         (or_opt (res_message_id platformResult)
                 (res_messageId platformResult));
     md_isIncoming := Some false |}.

(** [sendMessage(platform, messageData)]; [clock 0] is the [new Date()]
    of [sendMessage] and [clock 1] the one of [createMessage]. *)
Definition sendMessage (platform : string) (messageData : MessageData)
    (port : PlatformPort) (clock : nat -> Z) (ai : Categorizer) (s : State)
  : result (Message * PlatformResult * State) :=
  if negb (port_configured port)
  then Throw ("Platform " ++ platform ++ " not configured")
  else if negb (supported_platform platform)
  then Throw ("Unsupported platform: " ++ platform)
  else
    platformResult <- port_send port ;;
    let '(outgoingMessage, s') :=
      createMessage (outgoing_data platform (clock 0) platformResult
                                   messageData)
                    (clock 1) ai s in
    Ok (outgoingMessage, platformResult, s').

(** *** Sequences of operations *)

Inductive Operation : Type :=
| DoCreate (e : Ingest)
| DoMarkRead (messageId : string) (now : Z)
| DoMarkConversation (conversationId : string) (clock : nat -> Z)
| DoDelete (messageId : string).

(** The state after one operation; an operation that throws leaves the
    state as it was. *)
Definition perform (op : Operation) (s : State) : State :=
  match op with
  | DoCreate e => snd (ingest e s)
  | DoMarkRead messageId now =>
      match markMessageAsRead messageId now s with
      | Ok (_, s') => s'
      | Throw _ => s
      end
  | DoMarkConversation conversationId clock =>
      match markConversationAsRead conversationId clock s with
      | Ok (_, s') => s'
      | Throw _ => s
      end
  | DoDelete messageId =>
      match deleteMessage messageId s with
      | Ok s' => s'
      | Throw _ => s
      end
  end.

Fixpoint perform_all (ops : list Operation) (s : State) : State :=
  match ops with
  | [] => s
  | op :: r => perform_all r (perform op s)
  end.

(** The store of a service in use: no key twice, every message stored
    under its own id, every id one that the counter has handed out. *)
Definition store_ok (s : State) : Prop :=
  NoDup (map_keys (messages s))
  /\ Forall (fun e => msg_id (snd e) = fst e
                      /\ exists n, 1 <= n <= messageCounter s
                                   /\ fst e = msg_id_of n)
            (messages s).

(** ** The [/whatsapp] webhook handler *)

Record WaText : Type := {
  wt_body : option string
}.

Record WaMedia : Type := {
  wm_id : option string;
  wm_filename : option string
}.

(** One message of a change; [wa_timestamp] is what [parseInt] makes of
    the [timestamp] property, [None] when that is not a number. *)
Record WaMessage : Type := {
  wa_from : option string;
  wa_id : option string;
  wa_timestamp : option Z;
  wa_type : option string;
  wa_text : option WaText;
  wa_image : option WaMedia;
  wa_video : option WaMedia;
  wa_document : option WaMedia;
  wa_audio : option WaMedia
}.

Record WaMetadata : Type := {
  phone_number_id : option string
}.

Record WaValue : Type := {
  wv_messages : option (list WaMessage);
  wv_metadata : option WaMetadata
}.

Record WaChange : Type := {
  wc_value : option WaValue
}.

Record WaEntry : Type := {
  we_changes : option (list WaChange)
}.

(** [req.body] *)
Record WaBody : Type := {
  wb_object : option string;
  wb_entry : option (list WaEntry)
}.

Definition whatsapp_attachment (ty : string) (url filename : option string)
  : Attachment :=
  {| att_type := Some ty; att_url := url; att_filename := filename;
     att_platform := Some "whatsapp" |}.

(** The block "Handle media attachments" of the WhatsApp handler. *)
Definition whatsapp_attachments (message : WaMessage)
  : option (list Attachment) :=
  if present (wa_image message) || present (wa_video message)
     || present (wa_document message) || present (wa_audio message)
  then
    Some ((match wa_image message with
           | Some image => [whatsapp_attachment "image" (wm_id image) None]
           | None => []
           end)
          ++ (match wa_video message with
              | Some video => [whatsapp_attachment "video" (wm_id video) None]
              | None => []
              end)
          ++ (match wa_document message with
              | Some document =>
                  [whatsapp_attachment "document" (wm_id document)
                                       (wm_filename document)]
              | None => []
              end))%list
  else None.

(** "Create unified message format" of the WhatsApp handler. *)
Definition whatsapp_unified (value : WaValue) (message : WaMessage)
  : result MessageData :=
  metadata <- deref (wv_metadata value) ;;
  Ok {| md_platform := Some "whatsapp";
        md_sender := wa_from message;
        md_senderId := wa_from message;
        md_recipient := phone_number_id metadata;
        md_recipientId := phone_number_id metadata;
        md_text :=
          Some (or_str (match wa_text message with
                        | Some t => wt_body t
                        | None => None
                        end) "");
        md_subject := None;
        md_timestamp :=
          Some (match wa_timestamp message with
                | Some t => DateMs (t * 1000)
                | None => InvalidDate
                end);
        md_status := None;
        md_type := Some "message";
        md_attachments := whatsapp_attachments message;
        md_metadata :=
          Some [("messageType", MStr (wa_type message));
                ("phoneNumberId", MStr (phone_number_id metadata))];
        md_threadId := None;
        md_conversationId := None;
        md_platformMessageId := wa_id message;
        md_isIncoming := None |}.

(** The progress of the nested loops: the state of the service, how many
    messages have been handed to [createMessage], and whether an
    exception ended the run. *)
Record Progress : Type := {
  pr_state : State;
  pr_count : nat;
  pr_thrown : bool
}.

(** The body of the innermost loop.  [clock k] and [ai k] are the clock
    and the categorizer at the [createMessage] call number [k] of the
    request. *)
Definition whatsapp_message (clock : nat -> Z) (ai : nat -> Categorizer)
    (io : option Emitter) (value : WaValue) (message : WaMessage)
    (p : Progress) : Progress :=
  match whatsapp_unified value message with
  | Throw _ =>
      {| pr_state := pr_state p; pr_count := pr_count p; pr_thrown := true |}
  | Ok unifiedMessage =>
      let '(savedMessage, s') :=
        createMessage unifiedMessage (clock (pr_count p)) (ai (pr_count p))
                      (pr_state p) in
      {| pr_state := s'; pr_count := S (pr_count p);
         pr_thrown :=
           match fan_out io "platform:whatsapp" savedMessage with
           | Ok _ => false
           | Throw _ => true
           end |}
  end.

(** A [for ... of] loop that an exception ends. *)
Fixpoint for_of {A : Type} (body : A -> Progress -> Progress) (l : list A)
    (p : Progress) : Progress :=
  match l with
  | [] => p
  | x :: r =>
      let p' := body x p in
      if pr_thrown p' then p' else for_of body r p'
  end.

Definition thrown (p : Progress) : Progress :=
  {| pr_state := pr_state p; pr_count := pr_count p; pr_thrown := true |}.

Definition whatsapp_change (clock : nat -> Z) (ai : nat -> Categorizer)
    (io : option Emitter) (change : WaChange) (p : Progress) : Progress :=
  match wc_value change with
  | Some value =>
      match wv_messages value with
      | Some msgs => for_of (whatsapp_message clock ai io value) msgs p
      | None => p
      end
  | None => p
  end.

Definition whatsapp_entry (clock : nat -> Z) (ai : nat -> Categorizer)
    (io : option Emitter) (entryItem : WaEntry) (p : Progress) : Progress :=
  match we_changes entryItem with
  | Some changes => for_of (whatsapp_change clock ai io) changes p
  | None => thrown p
  end.

Inductive WaResponse : Type :=
| NotWhatsApp        (* 200 { ok: true, message: 'Not a WhatsApp message' } *)
| WaOk               (* 200 { ok: true } *)
| WaError.           (* 500 { ok: false, error: ... } *)

(** [router.post('/whatsapp', ...)] *)
Definition whatsapp_webhook (body : WaBody) (clock : nat -> Z)
    (ai : nat -> Categorizer) (io : option Emitter) (s : State)
  : WaResponse * State :=
  if negb (opt_eqb (wb_object body) (Some "whatsapp_business_account"))
  then (NotWhatsApp, s)
  else
    match wb_entry body with
    | None => (WaError, s)
    | Some entry =>
        let p := for_of (whatsapp_entry clock ai io) entry
                   {| pr_state := s; pr_count := 0; pr_thrown := false |} in
        (if pr_thrown p then WaError else WaOk, pr_state p)
    end.

(** The messages of a body in the order in which the loops meet them,
    each with the [value] it belongs to; [None] when the structure of
    the body itself cannot be walked. *)
Definition change_messages (change : WaChange) : list (WaValue * WaMessage) :=
  match wc_value change with
  | Some value =>
      match wv_messages value with
      | Some msgs => map (fun m => (value, m)) msgs
      | None => []
      end
  | None => []
  end.

Fixpoint entry_messages (entry : list WaEntry)
  : option (list (WaValue * WaMessage)) :=
  match entry with
  | [] => Some []
  | e :: r =>
      match we_changes e, entry_messages r with
      | Some changes, Some rest =>
          Some (flat_map change_messages changes ++ rest)%list
      | _, _ => None
      end
  end.

(** The [createMessage] calls of one request for the payloads [ds], the
    first of them being call number [k] of the request. *)
Fixpoint ingests (clock : nat -> Z) (ai : nat -> Categorizer) (k : nat)
    (ds : list MessageData) : list Ingest :=
  match ds with
  | [] => []
  | d :: r =>
      {| in_data := d; in_now := clock k; in_ai := ai k |}
      :: ingests clock ai (S k) r
  end.

(** What the stored message [m] has of the WhatsApp message [message]
    of the change [value]. *)
Definition whatsapp_record (value : WaValue) (message : WaMessage)
    (m : Message) : Prop :=
  msg_platform m = Some "whatsapp"
  /\ msg_platformMessageId m = wa_id message
  /\ msg_sender m = wa_from message
  /\ msg_senderId m = wa_from message
  /\ msg_recipientId m = match wv_metadata value with
                         | Some metadata => phone_number_id metadata
                         | None => None
                         end
  /\ msg_text m = Some (or_str (match wa_text message with
                                | Some t => wt_body t
                                | None => None
                                end) "")
  /\ msg_attachments m = match whatsapp_attachments message with
                         | Some l => l
                         | None => []
                         end
  /\ msg_isIncoming m = true
  /\ msg_status m = "unread".

(** ** The other routes of [routes/messages.js] *)

(** [router.get('/:id', ...)]: [None] is the answer 404. *)
Definition get_message_route (id : string) (db : list RouteMessage)
  : option RouteMessage :=
  find (fun msg => String.eqb (rm_id msg) id) db.

(** [messages.splice(messageIndex, 1)] at the first message with the id. *)
Fixpoint remove_first (id : string) (db : list RouteMessage)
  : option (list RouteMessage) :=
  match db with
  | [] => None
  | msg :: r =>
      if String.eqb (rm_id msg) id then Some r
      else option_map (cons msg) (remove_first id r)
  end.

(** [router.delete('/:id', ...)]: [None] is the answer 404, which leaves
    the array as it is. *)
Definition delete_message_route (id : string) (db : list RouteMessage)
  : option (list RouteMessage) :=
  remove_first id db.

(** ** Sample inputs *)

Module Sample.

(** The answer [categorizeMessage] gives when a classifier raised
    (lines 179-187 of [aiService.js]). *)
Definition fallback_analysis : AiAnalysis :=
  {| ai_category := "general";
     ai_confidence := 0%Q;
     ai_priority := "normal";
     ai_sentiment := "neutral";
     ai_keywords := [];
     ai_suggestedReplies :=
       ["Thank you for your message. I'll get back to you shortly.";
        "Thanks for reaching out! How can I assist you today?";
        "I appreciate your message. Let me know if you need anything specific."];
     ai_aiInsights := InsightsError "classifier unavailable" |}.

Definition fallback_ai : Categorizer :=
  fun _ _ => AiReturned fallback_analysis.

(** An answer "urgent", completed at time [t]. *)
Definition urgent_analysis (t : Z) : AiAnalysis :=
  {| ai_category := "urgent";
     ai_confidence := (9 # 25)%Q;
     ai_priority := "high";
     ai_sentiment := "neutral";
     ai_keywords := ["server"];
     ai_suggestedReplies :=
       ["I understand this is urgent. I'm escalating this to our priority support team immediately.";
        "This has been marked as urgent. Our team will respond within the next 30 minutes.";
        "Urgent request received. I'm connecting you with our emergency response team now."];
     ai_aiInsights :=
       InsightsFull
         {| v_category := "urgent"; v_confidence := (9 # 10)%Q;
            v_matchedTerms := ["urgent"] |}
         {| v_category := "general"; v_confidence := 0%Q;
            v_matchedTerms := ["URGENT"; "Server"; "is"; "down"] |}
         None t |}.

Definition urgent_ai (t : Z) : Categorizer :=
  fun _ _ => AiReturned (urgent_analysis t).

Definition emit_ok : Emitter := fun _ _ _ => Ok tt.

Definition emit_fails : Emitter := fun _ _ _ => Throw "transport closed".

Definition alice : TgUser :=
  {| user_username := Some "alice"; user_first_name := Some "Alice";
     user_id := Some 42%Z |}.

Definition team_chat : TgChat :=
  {| chat_username := None; chat_title := Some "Team";
     chat_id := Some (-7)%Z; chat_type := Some "group" |}.

(** The Telegram message with native id 555. *)
Definition tg555 : TgMessage :=
  {| tg_from := Some alice; tg_chat := Some team_chat;
     tg_text := Some "URGENT: Server is down!"; tg_caption := None;
     tg_date := Some 1700000000%Z; tg_message_id := Some 555%Z;
     tg_photo := None; tg_video := None; tg_document := None;
     tg_audio := None; tg_voice := None |}.

Definition update555 : TgUpdate :=
  {| upd_message := Some tg555; upd_edited_message := None;
     upd_channel_post := None; upd_edited_channel_post := None |}.

(** The payload the webhook builds from [update555]. *)
Definition unified555 : MessageData :=
  {| md_platform := Some "telegram"; md_sender := Some "alice";
     md_senderId := Some "42"; md_recipient := Some "Team";
     md_recipientId := Some "-7";
     md_text := Some "URGENT: Server is down!"; md_subject := None;
     md_timestamp := Some (DateMs 1700000000000);
     md_status := None; md_type := Some "message";
     md_attachments := None;
     md_metadata :=
       Some [("chatType", MStr (Some "group")); ("isEdited", MBool false);
             ("hasMedia", MBool false)];
     md_threadId := None; md_conversationId := None;
     md_platformMessageId := Some "555"; md_isIncoming := None |}.

(** The same update without [from], and without [date]. *)
Definition update_no_from : TgUpdate :=
  {| upd_message :=
       Some {| tg_from := None; tg_chat := Some team_chat;
               tg_text := Some "URGENT: Server is down!"; tg_caption := None;
               tg_date := Some 1700000000%Z; tg_message_id := Some 555%Z;
               tg_photo := None; tg_video := None; tg_document := None;
               tg_audio := None; tg_voice := None |};
     upd_edited_message := None;
     upd_channel_post := None; upd_edited_channel_post := None |}.

Definition update_no_date : TgUpdate :=
  {| upd_message :=
       Some {| tg_from := Some alice; tg_chat := Some team_chat;
               tg_text := Some "URGENT: Server is down!"; tg_caption := None;
               tg_date := None; tg_message_id := Some 555%Z;
               tg_photo := None; tg_video := None; tg_document := None;
               tg_audio := None; tg_voice := None |};
     upd_edited_message := None;
     upd_channel_post := None; upd_edited_channel_post := None |}.

(** A payload that has a platform and a text and nothing else: no
    sender identity, no native message id, no timestamp. *)
Definition bare (text : string) : MessageData :=
  {| md_platform := Some "whatsapp"; md_sender := None;
     md_senderId := None; md_recipient := None; md_recipientId := None;
     md_text := Some text; md_subject := None; md_timestamp := None;
     md_status := None; md_type := None; md_attachments := None;
     md_metadata := None; md_threadId := None; md_conversationId := None;
     md_platformMessageId := None; md_isIncoming := None |}.

(** A payload sent at platform time [sent] with native id [nid], for
    the conversation [conv] when one is named. *)
Definition chat_message (nid : string) (sent : Z) (conv : option string)
  : MessageData :=
  {| md_platform := Some "whatsapp"; md_sender := Some "Mom";
     md_senderId := Some "+1234567890"; md_recipient := Some "me";
     md_recipientId := Some "+0987654321";
     md_text := Some "Dinner at 8?"; md_subject := None;
     md_timestamp := Some (DateMs sent);
     md_status := None; md_type := Some "message";
     md_attachments := None; md_metadata := None; md_threadId := None;
     md_conversationId := conv;
     md_platformMessageId := Some nid; md_isIncoming := None |}.

(** The service after one accepted WhatsApp message at time 10. *)
Definition one_message : State :=
  snd (createMessage (chat_message "wamid.1" 5 None) 10 fallback_ai
                     initial_state).

(** No filter at all. *)
Definition no_filters : Filters :=
  {| f_platform := None; f_status := None; f_search := None;
     f_conversationId := None; f_dateFrom := None; f_dateTo := None;
     f_type := None; f_isIncoming := None |}.

(** The service after three accepted messages, at times 10, 20 and 30,
    the third for the conversation of the first. *)
Definition three_messages : State :=
  run [ {| in_data := chat_message "a" 5 None; in_now := 10;
           in_ai := urgent_ai 10 |};
        {| in_data := chat_message "b" 6 None; in_now := 20;
           in_ai := fallback_ai |};
        {| in_data := chat_message "c" 7 (Some "conv_1"); in_now := 30;
           in_ai := urgent_ai 30 |} ]
      initial_state.

(** A platform that accepts a send and answers with a message id. *)
Definition accepting_port : PlatformPort :=
  {| port_configured := true;
     port_send := Ok {| res_id := None; res_message_id := Some "9001";
                        res_messageId := None |} |}.

(** A WhatsApp body with one change of two text messages. *)
Definition wa_text_message (id body : string) : WaMessage :=
  {| wa_from := Some "+1234567890"; wa_id := Some id;
     wa_timestamp := Some 1700000000%Z; wa_type := Some "text";
     wa_text := Some {| wt_body := Some body |};
     wa_image := None; wa_video := None; wa_document := None;
     wa_audio := None |}.

Definition wa_value : WaValue :=
  {| wv_messages := Some [wa_text_message "wamid.A" "first";
                          wa_text_message "wamid.B" "second"];
     wv_metadata := Some {| phone_number_id := Some "15550001111" |} |}.

Definition wa_body : WaBody :=
  {| wb_object := Some "whatsapp_business_account";
     wb_entry := Some [ {| we_changes :=
                             Some [ {| wc_value := Some wa_value |} ] |} ] |}.

Definition route_message (id : string) : RouteMessage :=
  {| rm_id := id; rm_platform := Some "gmail";
     rm_sender := "alice@gmail.com"; rm_senderName := "Alice Johnson";
     rm_recipient := Some "user@example.com";
     rm_subject := Some "Your order has been shipped!";
     rm_text := Some "Hi!"; rm_timestamp := 1705314600000;
     rm_status := "read"; rm_type := "email"; rm_attachments := [];
     rm_threadId := "thread_1"; rm_chatId := ""; rm_conversationId := "" |}.

(** A Telegram update whose message carries a voice note only. *)
Definition update_voice : TgUpdate :=
  {| upd_message :=
       Some {| tg_from := Some alice; tg_chat := Some team_chat;
               tg_text := None; tg_caption := None;
               tg_date := Some 1700000000%Z; tg_message_id := Some 556%Z;
               tg_photo := None; tg_video := None; tg_document := None;
               tg_audio := None;
               tg_voice := Some {| file_id := Some "voice-1";
                                   file_name := None |} |};
     upd_edited_message := None;
     upd_channel_post := None; upd_edited_channel_post := None |}.

(** A Telegram update whose message has an empty [photo] array. *)
Definition update_empty_photo : TgUpdate :=
  {| upd_message :=
       Some {| tg_from := Some alice; tg_chat := Some team_chat;
               tg_text := None; tg_caption := Some "look";
               tg_date := Some 1700000000%Z; tg_message_id := Some 557%Z;
               tg_photo := Some []; tg_video := None; tg_document := None;
               tg_audio := None; tg_voice := None |};
     upd_edited_message := None;
     upd_channel_post := None; upd_edited_channel_post := None |}.

(** The service after four accepted messages, the first, third and
    fourth for one conversation, while the clock of the host was set
    back: they were accepted at the times 40, 20, 10 and 30. *)
Definition clock_steps_back : State :=
  run [ {| in_data := chat_message "a" 5 None; in_now := 40;
           in_ai := fallback_ai |};
        {| in_data := chat_message "b" 6 None; in_now := 20;
           in_ai := fallback_ai |};
        {| in_data := chat_message "c" 7 (Some "conv_1"); in_now := 10;
           in_ai := fallback_ai |};
        {| in_data := chat_message "d" 8 (Some "conv_1"); in_now := 30;
           in_ai := fallback_ai |} ]
      initial_state.

End Sample.

(** * Properties *)

(** ** Identifiers *)

Lemma string_of_nat_inj (a b : nat) :
  string_of_nat a = string_of_nat b -> a = b.
Proof.
  unfold string_of_nat. intro H.
  apply Unsigned.to_uint_inj.
  apply (f_equal NilEmpty.uint_of_string) in H.
  rewrite !NilEmpty.usu in H. now injection H.
Qed.

Lemma msg_id_of_inj (a b : nat) : msg_id_of a = msg_id_of b -> a = b.
Proof.
  unfold msg_id_of. cbn [append]. intro H. injection H as H.
  now apply string_of_nat_inj.
Qed.

Lemma msg_id_of_fresh (n : nat) (ks : list nat) :
  Forall (fun k => k <= n) ks -> ~ In (msg_id_of (S n)) (map msg_id_of ks).
Proof.
  intros Hle Hin. apply in_map_iff in Hin as [k [Hk Hin]].
  apply msg_id_of_inj in Hk. subst k.
  rewrite Forall_forall in Hle. specialize (Hle _ Hin). lia.
Qed.

(** ** The insertion-ordered map *)

Section JsMapFacts.
Context {V : Type}.
Implicit Types (m : jsmap V) (k : string) (v : V).

Lemma map_get_set_same k v m : map_get k (map_set k v m) = Some v.
Proof.
  induction m as [|[k' v'] r IH]; cbn.
  - now rewrite String.eqb_refl.
  - destruct (String.eqb k k') eqn:E; cbn; rewrite E; auto.
Qed.

Lemma map_get_set_other k k' v m :
  k <> k' -> map_get k (map_set k' v m) = map_get k m.
Proof.
  intro Hne. induction m as [|[k0 v0] r IH]; cbn.
  - apply String.eqb_neq in Hne. now rewrite Hne.
  - destruct (String.eqb_spec k' k0) as [->|Hne']; cbn.
    + apply String.eqb_neq in Hne. now rewrite Hne.
    + now rewrite IH.
Qed.

Lemma map_adjust_set k (f : V -> V) v m :
  map_adjust k f (map_set k v m) = map_set k (f v) m.
Proof.
  induction m as [|[k' v'] r IH]; cbn.
  - now rewrite String.eqb_refl.
  - destruct (String.eqb k k') eqn:E; cbn; rewrite E; [reflexivity|].
    now rewrite IH.
Qed.

Lemma map_set_fresh k v m :
  ~ In k (map_keys m) -> map_set k v m = (m ++ [(k, v)])%list.
Proof.
  induction m as [|[k' v'] r IH]; cbn; intro Hnin; [reflexivity|].
  destruct (String.eqb_spec k k') as [->|Hne].
  - exfalso. apply Hnin. now left.
  - rewrite IH; [reflexivity|]. intro Hin. apply Hnin. now right.
Qed.

End JsMapFacts.

(** ** What one call of [createMessage] does *)

Lemma platform_specific_rule (d : MessageData) :
  platform_specific d =
  match platform_rule (md_platform d) with
  | Some (ty, true) =>
      with_subject (Some (or_str (md_subject d) "No Subject"))
                   (with_type_incoming ty d)
  | Some (ty, false) => with_type_incoming ty d
  | None => d
  end.
Proof.
  unfold platform_specific, platform_rule.
  destruct (md_platform d) as [p|]; [|reflexivity].
  repeat (match goal with
          | |- context [match ?x with _ => _ end] => destruct x
          end; try reflexivity).
Qed.

Lemma normalize_conversationId (d : MessageData) :
  md_conversationId (normalizeMessageData d) = md_conversationId d.
Proof.
  unfold normalizeMessageData. rewrite platform_specific_rule.
  destruct (platform_rule (md_platform d)) as [[ty [|]]|]; reflexivity.
Qed.

(** The message is stored under the next id, which is also its [id]
    property, and the stored object is the returned one. *)
Lemma createMessage_store (d : MessageData) (now : Z) (ai : Categorizer)
    (s : State) :
  let r := createMessage d now ai s in
  msg_id (fst r) = msg_id_of (S (messageCounter s))
  /\ messageCounter (snd r) = S (messageCounter s)
  /\ messages (snd r) =
       map_set (msg_id_of (S (messageCounter s))) (fst r) (messages s).
Proof.
  cbv zeta. unfold createMessage, updateConversation, createConversation.
  cbn [msg_id build_message msg_conversationId].
  destruct (truthy (md_conversationId (normalizeMessageData d))).
  - cbn [conversations messages].
    destruct (map_get _ (conversations s)); cbn; auto.
  - cbn [conversations messages with_messages].
    rewrite map_get_set_same. cbn.
    rewrite map_adjust_set. auto.
Qed.

Lemma createMessage_get (d : MessageData) (now : Z) (ai : Categorizer)
    (s : State) :
  let r := createMessage d now ai s in
  map_get (msg_id (fst r)) (messages (snd r)) = Some (fst r).
Proof.
  cbv zeta. destruct (createMessage_store d now ai s) as (Hid & _ & Hm).
  rewrite Hm, Hid. apply map_get_set_same.
Qed.

Lemma createMessage_keeps (d : MessageData) (now : Z) (ai : Categorizer)
    (s : State) (k : string) :
  k <> msg_id_of (S (messageCounter s)) ->
  map_get k (messages (snd (createMessage d now ai s))) = map_get k (messages s).
Proof.
  intro Hne. destruct (createMessage_store d now ai s) as (_ & _ & Hm).
  rewrite Hm. now apply map_get_set_other.
Qed.

(** The object returned by [createMessage]: the literal, with the id of
    a new conversation when the payload names none. *)
Lemma createMessage_returns (d : MessageData) (now : Z) (ai : Categorizer)
    (s : State) :
  fst (createMessage d now ai s) =
  let m0 := build_message (msg_id_of (S (messageCounter s))) now
              (normalizeMessageData d)
              (analysis_of ai (normalizeMessageData d)) in
  if truthy (md_conversationId d) then m0
  else set_conversationId (conv_id_of (S (conversationCounter s))) m0.
Proof.
  cbv zeta. unfold createMessage, updateConversation, createConversation.
  cbn [msg_id build_message msg_conversationId].
  rewrite normalize_conversationId.
  destruct (truthy (md_conversationId d)).
  - cbn [conversations messages].
    destruct (map_get _ (conversations s)); reflexivity.
  - cbn [conversations messages with_messages conversationCounter].
    rewrite map_get_set_same. reflexivity.
Qed.

Lemma createMessage_content (d : MessageData) (now : Z) (ai : Categorizer)
    (s : State) :
  content_fields (fst (createMessage d now ai s)) =
  content_fields (build_message "" 0 (normalizeMessageData d) None).
Proof.
  rewrite createMessage_returns. cbv zeta.
  destruct (truthy (md_conversationId d)); reflexivity.
Qed.

Lemma createMessage_key (d : MessageData) (now : Z) (ai : Categorizer)
    (s : State) :
  idempotency_key (fst (createMessage d now ai s)) =
  (md_platform (normalizeMessageData d),
   md_platformMessageId (normalizeMessageData d)).
Proof.
  rewrite createMessage_returns. cbv zeta.
  destruct (truthy (md_conversationId d)); reflexivity.
Qed.

(** ** The webhook on a readable update *)

Lemma telegram_webhook_readable (body : TgUpdate) (msg : TgMessage)
    (d : MessageData) (now : Z) (ai : Categorizer) (io : option Emitter)
    (s : State) :
  update_msg body = Some msg ->
  telegram_unified body msg = Ok d ->
  snd (telegram_webhook body now ai io s) = snd (createMessage d now ai s)
  /\ fst (telegram_webhook body now ai io s) =
     match fan_out io "platform:telegram" (fst (createMessage d now ai s)) with
     | Ok _ => Processed (msg_id (fst (createMessage d now ai s)))
     | Throw _ => InternalServerError
     end.
Proof.
  intros Hmsg Hd. unfold telegram_webhook. rewrite Hmsg, Hd.
  destruct (createMessage d now ai s) as [saved s']. cbn [fst snd].
  destruct (fan_out io "platform:telegram" saved); split; reflexivity.
Qed.

Lemma telegram_unified_platform (body : TgUpdate) (msg : TgMessage)
    (d : MessageData) :
  telegram_unified body msg = Ok d ->
  md_platform d = Some "telegram" /\ md_conversationId d = None
  /\ exists n, tg_message_id msg = Some n
               /\ md_platformMessageId d = Some (string_of_Z n).
Proof.
  unfold telegram_unified, bind, deref. intro H.
  destruct (tg_from msg) as [from|]; [|discriminate].
  destruct (user_id from); [|discriminate].
  destruct (tg_chat msg) as [chat|]; [|discriminate].
  destruct (chat_id chat); [|discriminate].
  destruct (tg_message_id msg) as [n|]; [|discriminate].
  destruct (telegram_attachments msg); [|discriminate].
  injection H as <-. cbn. eauto.
Qed.

(** ** C1: redelivered payloads *)

(** C1 as stated fails.  The Telegram update with native id 555 is
    delivered twice to a fresh service with a working socket server:
    both deliveries are answered 200 with a message id of their own, and
    the store then holds two messages with the key (telegram, 555). *)
Lemma redelivery_stores_second_record :
  let r1 := telegram_webhook Sample.update555 10 Sample.fallback_ai
              (Some Sample.emit_ok) initial_state in
  let r2 := telegram_webhook Sample.update555 20 Sample.fallback_ai
              (Some Sample.emit_ok) (snd r1) in
  fst r1 = Processed "msg_1" /\ fst r2 = Processed "msg_2"
  /\ map (fun e => (fst e, idempotency_key (snd e))) (messages (snd r2)) =
     [("msg_1", (Some "telegram", Some "555"));
      ("msg_2", (Some "telegram", Some "555"))]
  /\ ~ NoDup (map idempotency_key (map_values (messages (snd r2)))).
Proof.
  vm_compute. repeat split.
  intro H. inversion H as [|x l Hnot Hnd]; subst.
  apply Hnot. now left.
Qed.

(** C1, amended: there is no duplicate detection.  Two deliveries of one
    readable Telegram update, with a socket server that accepts the
    emits, are both answered 200, each with the id of a record of its
    own; the two ids differ, both records are in the store afterwards,
    and they carry the same (platform, platformMessageId). *)
Theorem redelivery_is_processed_again (body : TgUpdate) (msg : TgMessage)
    (d : MessageData) (now1 now2 : Z) (ai1 ai2 : Categorizer)
    (emit : Emitter) (s : State) :
  update_msg body = Some msg ->
  telegram_unified body msg = Ok d ->
  (forall room event m, emit room event m = Ok tt) ->
  let r1 := telegram_webhook body now1 ai1 (Some emit) s in
  let r2 := telegram_webhook body now2 ai2 (Some emit) (snd r1) in
  exists m1 m2,
    fst r1 = Processed (msg_id m1) /\ fst r2 = Processed (msg_id m2)
    /\ msg_id m1 <> msg_id m2
    /\ map_get (msg_id m1) (messages (snd r2)) = Some m1
    /\ map_get (msg_id m2) (messages (snd r2)) = Some m2
    /\ idempotency_key m1 = idempotency_key m2.
Proof.
  intros Hmsg Hd Hemit. cbv zeta.
  destruct (telegram_webhook_readable body msg d now1 ai1 (Some emit) s
              Hmsg Hd) as [Hs1 Hr1].
  rewrite Hs1.
  destruct (telegram_webhook_readable body msg d now2 ai2 (Some emit)
              (snd (createMessage d now1 ai1 s)) Hmsg Hd) as [Hs2 Hr2].
  rewrite Hs2, Hr1, Hr2. cbn [fan_out deref bind]. rewrite !Hemit.
  set (c1 := createMessage d now1 ai1 s).
  set (c2 := createMessage d now2 ai2 (snd c1)).
  destruct (createMessage_store d now1 ai1 s) as (Hid1 & Hc1 & _).
  destruct (createMessage_store d now2 ai2 (snd c1)) as (Hid2 & _ & _).
  fold c1 in Hid1, Hc1. fold c2 in Hid2.
  assert (Hne : msg_id (fst c1) <> msg_id (fst c2)).
  { rewrite Hid1, Hid2, Hc1. intro H. apply msg_id_of_inj in H. lia. }
  exists (fst c1), (fst c2). repeat split; auto.
  - unfold c2. rewrite createMessage_keeps.
    + apply createMessage_get.
    + fold c1. rewrite Hc1, Hid1. intro H. apply msg_id_of_inj in H. lia.
  - apply createMessage_get.
  - unfold c1, c2. now rewrite !createMessage_key.
Qed.

Lemma redelivery_is_processed_again_witness :
  exists m1 m2,
    fst (telegram_webhook Sample.update555 10 Sample.fallback_ai
           (Some Sample.emit_ok) initial_state) = Processed (msg_id m1)
    /\ fst (telegram_webhook Sample.update555 20 (Sample.urgent_ai 20)
              (Some Sample.emit_ok)
              (snd (telegram_webhook Sample.update555 10 Sample.fallback_ai
                      (Some Sample.emit_ok) initial_state)))
       = Processed (msg_id m2)
    /\ msg_id m1 <> msg_id m2.
Proof.
  destruct (redelivery_is_processed_again Sample.update555 Sample.tg555
              Sample.unified555
              10 20 Sample.fallback_ai (Sample.urgent_ai 20) Sample.emit_ok
              initial_state)
    as (m1 & m2 & H1 & H2 & H3 & _).
  - reflexivity.
  - reflexivity.
  - reflexivity.
  - exists m1, m2. auto.
Defined.

(** ** C2: the numbers assigned on ingestion *)

Lemma ids_in_order_initial : ids_in_order initial_state.
Proof. split; reflexivity. Qed.

Lemma ids_in_order_fresh (s : State) :
  ids_in_order s ->
  ~ In (msg_id_of (S (messageCounter s))) (map_keys (messages s)).
Proof.
  intros [Hk _]. rewrite Hk. apply msg_id_of_fresh.
  apply Forall_forall. intros k Hin. apply in_seq in Hin. lia.
Qed.

Lemma createMessage_appends (d : MessageData) (now : Z) (ai : Categorizer)
    (s : State) :
  ~ In (msg_id_of (S (messageCounter s))) (map_keys (messages s)) ->
  messages (snd (createMessage d now ai s)) =
  (messages s ++ [(msg_id_of (S (messageCounter s)),
                   fst (createMessage d now ai s))])%list.
Proof.
  intro Hfresh. destruct (createMessage_store d now ai s) as (_ & _ & Hm).
  rewrite Hm. now apply map_set_fresh.
Qed.

Lemma createMessage_ids_in_order (d : MessageData) (now : Z)
    (ai : Categorizer) (s : State) :
  ids_in_order s -> ids_in_order (snd (createMessage d now ai s)).
Proof.
  intro Hinv. pose proof (ids_in_order_fresh s Hinv) as Hfresh.
  destruct (createMessage_store d now ai s) as (Hid & Hc & _).
  destruct Hinv as [Hk Hv].
  unfold ids_in_order. rewrite Hc, seq_S, map_app.
  rewrite (createMessage_appends d now ai s Hfresh).
  unfold map_keys, map_values in *. rewrite !map_app. cbn [map fst snd].
  rewrite Hk, Hv, Hid. auto.
Qed.

Lemma run_ids_in_order (evs : list Ingest) (s : State) :
  ids_in_order s ->
  ids_in_order (run evs s)
  /\ messageCounter (run evs s) = messageCounter s + List.length evs.
Proof.
  revert s. induction evs as [|e evs IH]; intros s Hinv; cbn [run List.length].
  - split; [assumption|lia].
  - unfold ingest.
    destruct (IH _ (createMessage_ids_in_order (in_data e) (in_now e)
                      (in_ai e) s Hinv)) as [H1 H2].
    split; [assumption|].
    rewrite H2.
    destruct (createMessage_store (in_data e) (in_now e) (in_ai e) s)
      as (_ & Hc & _).
    rewrite Hc. lia.
Qed.

(** Every state reached from the fresh service by [createMessage] calls
    has a store without repeated keys in which the next id is unused. *)
Lemma run_store_wellformed (evs : list Ingest) :
  let s := run evs initial_state in
  NoDup (map_keys (messages s))
  /\ ~ In (msg_id_of (S (messageCounter s))) (map_keys (messages s)).
Proof.
  cbv zeta.
  destruct (run_ids_in_order evs initial_state ids_in_order_initial)
    as [Hinv _].
  split; [|now apply ids_in_order_fresh].
  destruct Hinv as [Hk _]. rewrite Hk.
  apply Finite.Injective_map_NoDup; [|apply seq_NoDup].
  intros a b. apply msg_id_of_inj.
Qed.

Lemma seq_strongly_sorted (a n : nat) : StronglySorted lt (seq a n).
Proof.
  revert a. induction n as [|n IH]; intro a; cbn; constructor.
  - apply IH.
  - apply Forall_forall. intros k Hin. apply in_seq in Hin. lia.
Qed.

(** Selecting messages keeps their numbers in increasing order. *)
Lemma filter_keeps_order (f : Message -> bool) (l : list Message)
    (ks : list nat) :
  map msg_id l = map msg_id_of ks -> StronglySorted lt ks ->
  exists ks', map msg_id (filter f l) = map msg_id_of ks'
              /\ incl ks' ks /\ StronglySorted lt ks'.
Proof.
  revert ks. induction l as [|m l IH]; intros ks Hmap Hsorted.
  - exists []. cbn. repeat split; [apply incl_nil_l|constructor].
  - destruct ks as [|k ks]; [discriminate|].
    cbn in Hmap. injection Hmap as Hm Hl.
    apply StronglySorted_inv in Hsorted as [Hs Hall].
    destruct (IH ks Hl Hs) as (ks' & Heq & Hincl & Hs').
    cbn [filter]. destruct (f m).
    + exists (k :: ks'). cbn. rewrite Hm, Heq. repeat split.
      * intros x [<-|Hx]; [now left|right; now apply Hincl].
      * constructor; [assumption|].
        rewrite Forall_forall in *. intros x Hx. apply Hall, Hincl, Hx.
    + exists ks'. repeat split; try assumption.
      now apply incl_tl.
Qed.

(** C2 as stated fails: messages carry no sequence number, and neither
    number that ingestion does assign is 1..n per conversation.  Three
    accepted messages, the first and third for conversation conv_1 and
    the second for conv_2: the message of conv_2 is msg_2, those of
    conv_1 are msg_1 and msg_3, and the per-conversation counters read 3
    for two messages and 2 for one. *)
Lemma numbering_is_not_per_conversation :
  let s := run [ {| in_data := Sample.chat_message "a" 5 None;
                    in_now := 10; in_ai := Sample.fallback_ai |};
                 {| in_data := Sample.chat_message "b" 6 None;
                    in_now := 20; in_ai := Sample.fallback_ai |};
                 {| in_data := Sample.chat_message "c" 7 (Some "conv_1");
                    in_now := 30; in_ai := Sample.fallback_ai |} ]
               initial_state in
  map msg_id (filter (in_conversation "conv_1") (map_values (messages s)))
    = [msg_id_of 1; msg_id_of 3]
  /\ map msg_id (filter (in_conversation "conv_2") (map_values (messages s)))
    = [msg_id_of 2]
  /\ map (fun e => (fst e, conv_messageCount (snd e))) (conversations s)
    = [("conv_1", 3); ("conv_2", 2)]
  /\ map msg_id (filter (in_conversation "conv_2") (map_values (messages s)))
    <> map msg_id_of (seq 1 1).
Proof. vm_compute. repeat split. discriminate. Qed.

(** C2, amended: a message gets no sequence number; the number it gets
    is that of its id, taken from one counter for the whole service.
    The statement is about [createMessage] calls that run one after
    another, each returning before the next one starts ([run]); calls
    that overlap at the [await] of the categorizer, between taking the id
    (line 31) and storing the message (line 76), are outside it.  After
    any such sequence of calls on a fresh service the counter equals the
    number of calls, the stored ids are msg_1 ... msg_n in order, and the
    messages of any one conversation carry strictly increasing (hence
    pairwise different) numbers between 1 and n, which need not be
    consecutive. *)
Theorem message_ids_strictly_increase (evs : list Ingest) :
  let s := run evs initial_state in
  messageCounter s = List.length evs
  /\ map_keys (messages s) = map msg_id_of (seq 1 (List.length evs))
  /\ forall conversationId,
       exists ks,
         map msg_id (filter (in_conversation conversationId)
                            (map_values (messages s))) = map msg_id_of ks
         /\ StronglySorted lt ks
         /\ Forall (fun k => 1 <= k <= List.length evs) ks.
Proof.
  cbv zeta.
  destruct (run_ids_in_order evs initial_state ids_in_order_initial)
    as [[Hk Hv] Hc].
  cbn [messageCounter initial_state] in Hc. cbn [Nat.add] in Hc.
  rewrite Hc in Hk, Hv. repeat split; try assumption.
  intro conversationId.
  destruct (filter_keeps_order (in_conversation conversationId) _ _ Hv
              (seq_strongly_sorted 1 (List.length evs)))
    as (ks & Heq & Hincl & Hs).
  exists ks. repeat split; try assumption.
  apply Forall_forall. intros k Hin. apply Hincl, in_seq in Hin. lia.
Qed.

(** ** C3: the order of a conversation's messages *)

Lemma insert_by_timestamp_sorted (m : Message) (l : list Message) :
  StronglySorted timestamp_le l ->
  StronglySorted timestamp_le (insert_by_timestamp m l).
Proof.
  induction l as [|x r IH]; intro Hs; cbn.
  - repeat constructor.
  - apply StronglySorted_inv in Hs as [Hr Hall].
    destruct (Z.leb_spec (msg_timestamp m) (msg_timestamp x)) as [Hle|Hgt].
    + constructor; [now constructor|].
      constructor; [exact Hle|].
      rewrite Forall_forall in *. intros y Hy.
      unfold timestamp_le in *. specialize (Hall y Hy). lia.
    + constructor; [now apply IH|].
      assert (Hin : forall y, In y (insert_by_timestamp m r) ->
                              y = m \/ In y r).
      { clear. induction r as [|z r IH]; cbn; intros y Hy.
        - destruct Hy as [<-|[]]. now left.
        - destruct (msg_timestamp m <=? msg_timestamp z)%Z.
          + destruct Hy as [<-|Hy]; [now left|now right].
          + destruct Hy as [<-|Hy]; [right; now left|].
            destruct (IH y Hy); [now left|right; now right]. }
      rewrite Forall_forall in *. intros y Hy.
      destruct (Hin y Hy) as [->|Hy'].
      * unfold timestamp_le. lia.
      * now apply Hall.
Qed.

Lemma sort_by_timestamp_sorted (l : list Message) :
  StronglySorted timestamp_le (sort_by_timestamp l).
Proof.
  induction l as [|m r IH]; cbn; [constructor|].
  now apply insert_by_timestamp_sorted.
Qed.

Lemma insert_by_timestamp_perm (m : Message) (l : list Message) :
  Permutation (insert_by_timestamp m l) (m :: l).
Proof.
  induction l as [|x r IH]; cbn; [reflexivity|].
  destruct (msg_timestamp m <=? msg_timestamp x)%Z; [reflexivity|].
  rewrite IH. apply perm_swap.
Qed.

Lemma sort_by_timestamp_perm (l : list Message) :
  Permutation (sort_by_timestamp l) l.
Proof.
  induction l as [|m r IH]; cbn; [reflexivity|].
  rewrite insert_by_timestamp_perm. now constructor.
Qed.

(** Stability: messages with one and the same timestamp keep the order
    they had before the sort. *)
Lemma insert_by_timestamp_stable (t : Z) (m : Message) (l : list Message) :
  filter (at_timestamp t) (insert_by_timestamp m l) =
  filter (at_timestamp t) (m :: l).
Proof.
  induction l as [|x r IH]; [reflexivity|].
  cbn [insert_by_timestamp].
  destruct (Z.leb_spec (msg_timestamp m) (msg_timestamp x)) as [Hle|Hgt];
    [reflexivity|].
  cbn [filter] in *. rewrite IH. unfold at_timestamp.
  destruct (Z.eqb_spec (msg_timestamp x) t) as [Hx|Hx];
    destruct (Z.eqb_spec (msg_timestamp m) t) as [Hm|Hm];
    try reflexivity.
  lia.
Qed.

Lemma sort_by_timestamp_stable (t : Z) (l : list Message) :
  filter (at_timestamp t) (sort_by_timestamp l) = filter (at_timestamp t) l.
Proof.
  induction l as [|m r IH]; [reflexivity|].
  cbn [sort_by_timestamp]. rewrite insert_by_timestamp_stable.
  cbn [filter]. now rewrite IH.
Qed.

Lemma skipn_strongly_sorted {A : Type} (R : A -> A -> Prop) (n : nat)
    (l : list A) :
  StronglySorted R l -> StronglySorted R (skipn n l).
Proof.
  revert l. induction n as [|n IH]; intros l Hs; [exact Hs|].
  destruct l as [|x r]; [exact Hs|].
  cbn. apply IH. now apply StronglySorted_inv in Hs.
Qed.

Lemma normalize_with_timestamp (t : option JsDate) (d : MessageData) :
  normalizeMessageData (with_timestamp t d) =
  with_timestamp t (normalizeMessageData d).
Proof.
  unfold normalizeMessageData. rewrite !platform_specific_rule.
  cbn [md_platform with_timestamp].
  destruct (platform_rule (md_platform d)) as [[ty [|]]|]; reflexivity.
Qed.

Lemma createMessage_ignores_timestamp (t : option JsDate) (d : MessageData)
    (now : Z) (ai : Categorizer) (s : State) :
  createMessage (with_timestamp t d) now ai s = createMessage d now ai s.
Proof.
  unfold createMessage. rewrite normalize_with_timestamp. reflexivity.
Qed.

(** C3 as stated fails.  The first message was sent at platform time
    2000 and accepted at wall-clock time 10, the second was sent earlier,
    at platform time 1000, and accepted later, at 20, into the same
    conversation.  The conversation lists them in the order of
    acceptance, the later-sent one first. *)
Lemma display_order_follows_acceptance :
  let s := run [ {| in_data := Sample.chat_message "sent-second" 2000 None;
                    in_now := 10; in_ai := Sample.fallback_ai |};
                 {| in_data :=
                      Sample.chat_message "sent-first" 1000 (Some "conv_1");
                    in_now := 20; in_ai := Sample.fallback_ai |} ]
               initial_state in
  match getConversationMessages "conv_1" 50 s with
  | Ok l =>
      map (fun m => (msg_platformMessageId m, msg_timestamp m)) l =
      [(Some "sent-second", 10%Z); (Some "sent-first", 20%Z)]
  | Throw _ => False
  end.
Proof. vm_compute. reflexivity. Qed.

(** The part of a list that [slice] leaves out, and the part it keeps. *)
Lemma slice_split {A : Type} (start : Z) (l : list A) :
  exists older,
    l = (older ++ slice start l)%list
    /\ ((start < 0)%Z ->
        List.length (slice start l) =
        Nat.min (Z.to_nat (- start)) (List.length l))
    /\ (start = 0%Z -> older = [])
    /\ ((0 < start)%Z ->
        List.length older = Nat.min (Z.to_nat start) (List.length l)).
Proof.
  unfold slice.
  set (from := Z.to_nat _).
  exists (firstn from l). split; [symmetry; apply firstn_skipn|].
  split; [|split].
  - intro H. rewrite length_skipn. subst from.
    destruct (Z.ltb_spec start 0); lia.
  - intro H. subst from. subst start. cbn [Z.ltb Z.compare].
    rewrite Z.min_l by lia. reflexivity.
  - intro H. rewrite length_firstn. subst from.
    destruct (Z.ltb_spec start 0); lia.
Qed.

(** C3, amended: the messages listed for a conversation are the tail of
    the conversation sorted on the one [timestamp] property that a stored
    message has.  With the messages the listing leaves out put in front,
    the listing is the whole conversation (each message once), in
    ascending order of the timestamp, messages with equal timestamps in
    the order in which they were stored; a positive limit keeps the last
    [limit] messages (all when there are fewer), the limit 0 keeps all,
    and a negative limit leaves out the first [- limit].  No sequence
    number takes part. *)
Theorem display_order_is_by_timestamp (conversationId : string) (limit : Z)
    (s : State) (l : list Message) :
  getConversationMessages conversationId limit s = Ok l ->
  let all := filter (in_conversation conversationId)
                    (map_values (messages s)) in
  exists older,
    Permutation (older ++ l) all
    /\ StronglySorted timestamp_le (older ++ l)
    /\ (forall t, filter (at_timestamp t) (older ++ l) =
                  filter (at_timestamp t) all)
    /\ ((0 < limit)%Z ->
        List.length l = Nat.min (Z.to_nat limit) (List.length all))
    /\ (limit = 0%Z -> older = [])
    /\ ((limit < 0)%Z ->
        List.length older = Nat.min (Z.to_nat (- limit)) (List.length all)).
Proof.
  intro H. cbv zeta. unfold getConversationMessages in H.
  destruct (map_get conversationId (conversations s)); [|discriminate].
  injection H as <-.
  set (all := filter (in_conversation conversationId)
                     (map_values (messages s))).
  destruct (slice_split (- limit) (sort_by_timestamp all))
    as (older & Hold & Hneg & Hzero & Hpos).
  assert (Hlen : List.length (sort_by_timestamp all) = List.length all)
    by apply Permutation_length, sort_by_timestamp_perm.
  exists older. rewrite <- Hold.
  split; [apply sort_by_timestamp_perm|].
  split; [apply sort_by_timestamp_sorted|].
  split; [intro t; apply sort_by_timestamp_stable|].
  split; [|split].
  - intro Hl. rewrite Hneg by lia. rewrite Hlen.
    replace (- - limit)%Z with limit by lia. reflexivity.
  - intro Hl. apply Hzero. lia.
  - intro Hl. rewrite Hpos by lia. now rewrite Hlen.
Qed.

Lemma display_order_is_by_timestamp_witness :
  exists l older,
    getConversationMessages "conv_1" 2 Sample.clock_steps_back = Ok l
    /\ map msg_id (map_values (messages Sample.clock_steps_back))
       = ["msg_1"; "msg_2"; "msg_3"; "msg_4"]
    /\ map (fun m => (msg_id m, msg_timestamp m)) l
       = [("msg_4", 30%Z); ("msg_1", 40%Z)]
    /\ StronglySorted timestamp_le (older ++ l)
    /\ List.length l = 2.
Proof.
  destruct (getConversationMessages "conv_1" 2 Sample.clock_steps_back)
    as [l|e] eqn:E.
  - destruct (display_order_is_by_timestamp "conv_1" 2
                Sample.clock_steps_back l E)
      as (older & _ & Hs & _ & Hlen & _).
    exists l, older. split; [reflexivity|].
    split; [reflexivity|].
    split; [vm_compute in E; injection E as <-; reflexivity|].
    split; [exact Hs|].
    rewrite Hlen by lia. reflexivity.
  - vm_compute in E. discriminate.
Defined.

(** ** Conversations created by [createMessage] *)

Lemma createMessage_new_conversation (d : MessageData) (now : Z)
    (ai : Categorizer) (s : State) :
  truthy (md_conversationId d) = false ->
  let r := createMessage d now ai s in
  conversationCounter (snd r) = S (conversationCounter s)
  /\ msg_conversationId (fst r) = Some (conv_id_of (S (conversationCounter s)))
  /\ option_map conv_messageCount
       (map_get (conv_id_of (S (conversationCounter s)))
                (conversations (snd r))) = Some 2.
Proof.
  intro Hc. cbv zeta.
  unfold createMessage, updateConversation, createConversation.
  cbn [msg_id build_message msg_conversationId].
  rewrite normalize_conversationId, Hc.
  cbn [conversations messages with_messages conversationCounter].
  rewrite map_get_set_same.
  cbn [fst snd with_conversations conversations conversationCounter
       set_conversationId msg_conversationId].
  rewrite map_get_set_same. auto.
Qed.

(** ** C8: a failing fan-out *)

(** C8 as stated fails.  The update 555 is stored as msg_1 both when the
    emit succeeds and when it throws; the answer is 200 with the message
    id in the first case and 500 in the second. *)
Lemma fan_out_failure_changes_the_answer :
  let ok := telegram_webhook Sample.update555 10 Sample.fallback_ai
              (Some Sample.emit_ok) initial_state in
  let failed := telegram_webhook Sample.update555 10 Sample.fallback_ai
                  (Some Sample.emit_fails) initial_state in
  fst ok = Processed "msg_1" /\ status_code (fst ok) = 200
  /\ fst failed = InternalServerError /\ status_code (fst failed) = 500
  /\ snd failed = snd ok
  /\ map_keys (messages (snd failed)) = ["msg_1"].
Proof. vm_compute. repeat split. Qed.

(** C8, amended: the fan-out is a step of the request and its failure is
    the failure of the request.  For a readable update the message is
    stored by [createMessage] whatever the socket server does, and the
    state of the service does not depend on it; the answer is 200 with
    the message id when the emit returns, and 500 when the socket server
    is missing or the emit throws. *)
Theorem fan_out_decides_the_answer (body : TgUpdate) (msg : TgMessage)
    (d : MessageData) (now : Z) (ai : Categorizer) (io : option Emitter)
    (s : State) :
  update_msg body = Some msg ->
  telegram_unified body msg = Ok d ->
  let saved := fst (createMessage d now ai s) in
  let r := telegram_webhook body now ai io s in
  snd r = snd (createMessage d now ai s)
  /\ map_get (msg_id saved) (messages (snd r)) = Some saved
  /\ (io = None -> fst r = InternalServerError)
  /\ (forall emit e,
         io = Some emit -> emit "platform:telegram" "message:new" saved = Throw e ->
         fst r = InternalServerError)
  /\ (forall emit u,
         io = Some emit -> emit "platform:telegram" "message:new" saved = Ok u ->
         fst r = Processed (msg_id saved)).
Proof.
  intros Hmsg Hd. cbv zeta.
  destruct (telegram_webhook_readable body msg d now ai io s Hmsg Hd)
    as [Hs Hr].
  rewrite Hs, Hr. repeat split.
  - apply createMessage_get.
  - intros ->. reflexivity.
  - intros emit e -> He. cbn. now rewrite He.
  - intros emit u -> Hu. cbn. now rewrite Hu.
Qed.

Lemma fan_out_decides_the_answer_witness :
  fst (telegram_webhook Sample.update555 10 Sample.fallback_ai
         (Some Sample.emit_fails) initial_state) = InternalServerError
  /\ fst (telegram_webhook Sample.update555 10 Sample.fallback_ai
            (Some Sample.emit_ok) initial_state) = Processed "msg_1".
Proof.
  split.
  - destruct (fan_out_decides_the_answer Sample.update555 Sample.tg555
                Sample.unified555
                10 Sample.fallback_ai (Some Sample.emit_fails) initial_state
                eq_refl eq_refl) as (_ & _ & _ & H & _).
    exact (H Sample.emit_fails "transport closed" eq_refl eq_refl).
  - destruct (fan_out_decides_the_answer Sample.update555 Sample.tg555
                Sample.unified555
                10 Sample.fallback_ai (Some Sample.emit_ok) initial_state
                eq_refl eq_refl) as (_ & _ & _ & _ & H).
    exact (H Sample.emit_ok tt eq_refl eq_refl).
Defined.

(** ** C5: payloads without the mandatory fields *)

(** What [normalizeMessageData] leaves as it found it. *)
Lemma normalize_keeps (d : MessageData) :
  let n := normalizeMessageData d in
  md_platform n = md_platform d /\ md_sender n = md_sender d
  /\ md_senderId n = md_senderId d /\ md_recipient n = md_recipient d
  /\ md_recipientId n = md_recipientId d /\ md_timestamp n = md_timestamp d
  /\ md_threadId n = md_threadId d
  /\ md_platformMessageId n = md_platformMessageId d
  /\ md_text n = Some (or_str (md_text d) "")
  /\ md_attachments n =
     Some (match md_attachments d with Some l => l | None => [] end).
Proof.
  cbv zeta. unfold normalizeMessageData. rewrite platform_specific_rule.
  destruct (platform_rule (md_platform d)) as [[ty [|]]|];
    cbn; repeat split.
Qed.

Lemma update_msg_map_update (f : TgMessage -> TgMessage) (body : TgUpdate) :
  update_msg (map_update f body) = option_map f (update_msg body).
Proof.
  unfold update_msg, map_update, first_of. cbn.
  destruct (upd_message body); [reflexivity|].
  destruct (upd_edited_message body); [reflexivity|].
  destruct (upd_channel_post body); reflexivity.
Qed.

Lemma telegram_unified_without_date (body : TgUpdate) (msg : TgMessage) :
  telegram_unified (map_update without_date body) (without_date msg) =
  match telegram_unified body msg with
  | Ok d => Ok (with_timestamp (Some InvalidDate) d)
  | Throw e => Throw e
  end.
Proof.
  unfold telegram_unified, bind, deref. cbn [tg_from tg_chat tg_message_id
    without_date].
  destruct (tg_from msg) as [from|]; [|reflexivity].
  destruct (user_id from); [|reflexivity].
  destruct (tg_chat msg) as [chat|]; [|reflexivity].
  destruct (chat_id chat); [|reflexivity].
  destruct (tg_message_id msg); [|reflexivity].
  change (telegram_attachments (without_date msg))
    with (telegram_attachments msg).
  destruct (telegram_attachments msg); [|reflexivity].
  unfold with_timestamp, map_update. cbn.
  destruct (upd_edited_message body), (upd_edited_channel_post body);
    reflexivity.
Qed.

(** C5 as stated fails.  A payload with no sender identity, no native
    message id and no timestamp is stored by [createMessage] with these
    properties left undefined; a Telegram update without [date] is
    answered 200 with a message id; one without [from] is answered 500,
    the answer of every failure. *)
Lemma payload_without_mandatory_fields_is_stored :
  let d := Sample.bare "hi" in
  let r := createMessage d 10 Sample.fallback_ai initial_state in
  (md_senderId d, md_platformMessageId d, md_timestamp d) = (None, None, None)
  /\ map_get "msg_1" (messages (snd r)) = Some (fst r)
  /\ (msg_senderId (fst r), msg_platformMessageId (fst r)) = (None, None)
  /\ fst (telegram_webhook Sample.update_no_date 10 Sample.fallback_ai
            (Some Sample.emit_ok) initial_state) = Processed "msg_1"
  /\ status_code
       (fst (telegram_webhook Sample.update_no_from 10 Sample.fallback_ai
               (Some Sample.emit_ok) initial_state)) = 500.
Proof. vm_compute. repeat split. Qed.

(** C5, amended: normalization validates nothing.  (1) [createMessage]
    stores every payload, with sender id and native message id copied as
    they are, absent when absent.  (2) The Telegram webhook answers a
    payload without [date] exactly as the same payload with it.  (3) A
    Telegram payload without sender identity or without native message
    id raises in the handler and is answered 500, with nothing stored.
    (4) The send-message route answers 400 and stores nothing exactly
    when platform, recipient or text is missing, and stores the message
    otherwise. *)
Theorem no_mandatory_field_validation :
  (forall d now ai s,
      let r := createMessage d now ai s in
      map_get (msg_id (fst r)) (messages (snd r)) = Some (fst r)
      /\ messageCounter (snd r) = S (messageCounter s)
      /\ msg_senderId (fst r) = md_senderId d
      /\ msg_platformMessageId (fst r) = md_platformMessageId d)
  /\ (forall body now ai io s,
        telegram_webhook (map_update without_date body) now ai io s =
        telegram_webhook body now ai io s)
  /\ (forall body msg now ai io s,
        update_msg body = Some msg ->
        sender_identity msg = None \/ tg_message_id msg = None ->
        telegram_webhook body now ai io s = (InternalServerError, s))
  /\ (forall body clock db,
        let r := send_message_route body clock db in
        if truthy (sb_platform body) && truthy (sb_recipient body)
           && truthy (sb_text body)
        then exists m, r = (Sent (rm_id m), m :: db)
                       /\ rm_recipient m = sb_recipient body
                       /\ rm_text m = sb_text body
        else r = (MissingRequiredFields, db)).
Proof.
  split; [|split; [|split]].
  - intros d now ai s. cbv zeta.
    split; [apply createMessage_get|].
    split; [apply createMessage_store|].
    rewrite createMessage_returns. cbv zeta.
    destruct (normalize_keeps d) as (_ & _ & Hs & _ & _ & _ & _ & Hn & _).
    destruct (truthy (md_conversationId d)); split; assumption.
  - intros body now ai io s.
    unfold telegram_webhook. rewrite update_msg_map_update.
    destruct (update_msg body) as [msg|]; [|reflexivity].
    cbn [option_map]. rewrite telegram_unified_without_date.
    destruct (telegram_unified body msg) as [d|e]; [|reflexivity].
    now rewrite createMessage_ignores_timestamp.
  - intros body msg now ai io s Hmsg Hmissing.
    unfold telegram_webhook. rewrite Hmsg.
    assert (Hthrow : exists e, telegram_unified body msg = Throw e).
    { unfold telegram_unified, bind, deref, sender_identity in *.
      destruct (tg_from msg) as [from|]; [|eauto].
      destruct (user_id from); [|eauto].
      destruct Hmissing as [Hs|Hn]; [discriminate|].
      destruct (tg_chat msg) as [chat|]; [|eauto].
      destruct (chat_id chat); [|eauto].
      rewrite Hn. eauto. }
    destruct Hthrow as [e ->]. reflexivity.
  - intros body clock db. cbv zeta. unfold send_message_route.
    destruct (truthy (sb_platform body)), (truthy (sb_recipient body)),
      (truthy (sb_text body)); cbn [negb orb andb]; try reflexivity.
    eexists. repeat split.
Qed.

Lemma no_mandatory_field_validation_witness :
  telegram_webhook Sample.update_no_from 10 Sample.fallback_ai
    (Some Sample.emit_ok) initial_state = (InternalServerError, initial_state).
Proof.
  destruct no_mandatory_field_validation as (_ & _ & H & _).
  eapply H.
  - reflexivity.
  - left. reflexivity.
Defined.

(** ** C6: ingest, then list the conversation *)

Lemma insert_by_timestamp_last (a m : Message) (l : list Message) :
  (msg_timestamp a <= msg_timestamp m)%Z ->
  insert_by_timestamp a (l ++ [m]) = (insert_by_timestamp a l ++ [m])%list.
Proof.
  intro Hle. induction l as [|x r IH]; cbn.
  - apply Z.leb_le in Hle. now rewrite Hle.
  - destruct (msg_timestamp a <=? msg_timestamp x)%Z; [reflexivity|].
    now rewrite IH.
Qed.

(** A newest message at the end of the list stays at the end. *)
Lemma sort_by_timestamp_last (m : Message) (l : list Message) :
  Forall (fun x => (msg_timestamp x <= msg_timestamp m)%Z) l ->
  sort_by_timestamp (l ++ [m]) = (sort_by_timestamp l ++ [m])%list.
Proof.
  induction l as [|a r IH]; intro Hall; [reflexivity|].
  inversion Hall as [|? ? Ha Hr]; subst.
  cbn. rewrite IH by assumption. now apply insert_by_timestamp_last.
Qed.

Lemma slice_keeps_last {A : Type} (limit : Z) (l : list A) (m : A) :
  (0 <= limit)%Z -> In m (slice (- limit) (l ++ [m])).
Proof.
  intro Hlimit. unfold slice. rewrite length_app. cbn [List.length].
  set (from := if (- limit <? 0)%Z then _ else _).
  assert (Hfrom : Z.to_nat from <= List.length l).
  { subst from. destruct (Z.ltb_spec (- limit) 0); lia. }
  rewrite skipn_app.
  replace (Z.to_nat from - List.length l) with 0 by lia.
  apply in_or_app. right. now left.
Qed.

Lemma createMessage_conversation_exists (d : MessageData) (now : Z)
    (ai : Categorizer) (s : State) :
  (truthy (md_conversationId d) = true ->
   map_get (or_str (md_conversationId d) "") (conversations s) <> None) ->
  exists conversationId,
    msg_conversationId (fst (createMessage d now ai s)) = Some conversationId
    /\ map_get conversationId (conversations (snd (createMessage d now ai s)))
       <> None.
Proof.
  intro Hexists. destruct (truthy (md_conversationId d)) eqn:Hc.
  - specialize (Hexists eq_refl).
    exists (or_str (md_conversationId d) ""). split.
    + rewrite createMessage_returns. cbv zeta. rewrite Hc.
      cbn [msg_conversationId build_message].
      rewrite normalize_conversationId.
      unfold truthy, or_str in *.
      destruct (md_conversationId d) as [c|]; [|discriminate].
      destruct (String.eqb c ""); [discriminate|reflexivity].
    + unfold createMessage, updateConversation.
      cbn [msg_id build_message msg_conversationId].
      rewrite normalize_conversationId, Hc. cbn [conversations].
      destruct (map_get (or_str (md_conversationId d) "") (conversations s))
        eqn:Hget; [|contradiction].
      cbn [snd with_conversations conversations].
      rewrite map_get_set_same. discriminate.
  - destruct (createMessage_new_conversation d now ai s Hc) as (_ & Hid & Hget).
    exists (conv_id_of (S (conversationCounter s))). split; [assumption|].
    intro Hnone. rewrite Hnone in Hget. discriminate.
Qed.

(** C6 as stated fails.  A payload naming a conversation that is not in
    the conversation table is stored with that conversation id, and the
    listing of that conversation throws instead of returning it. *)
Lemma fetch_after_ingest_can_throw :
  let r := createMessage (Sample.chat_message "wamid.9" 5 (Some "conv_456"))
             10 Sample.fallback_ai initial_state in
  msg_conversationId (fst r) = Some "conv_456"
  /\ map_get "msg_1" (messages (snd r)) = Some (fst r)
  /\ getConversationMessages "conv_456" 50 (snd r)
     = Throw "Conversation not found".
Proof. vm_compute. repeat split. Qed.

Lemma createMessage_listed (d : MessageData) (now : Z) (ai : Categorizer)
    (s : State) (limit : Z) :
  ~ In (msg_id_of (S (messageCounter s))) (map_keys (messages s)) ->
  Forall (fun m => (msg_timestamp m <= now)%Z) (map_values (messages s)) ->
  (0 <= limit)%Z ->
  (truthy (md_conversationId d) = true ->
   map_get (or_str (md_conversationId d) "") (conversations s) <> None) ->
  let r := createMessage d now ai s in
  exists conversationId l,
    msg_conversationId (fst r) = Some conversationId
    /\ getConversationMessages conversationId limit (snd r) = Ok l
    /\ In (fst r) l
    /\ msg_text (fst r) = Some (or_str (md_text d) "")
    /\ msg_attachments (fst r) =
       match md_attachments d with Some a => a | None => [] end.
Proof.
  intros Hfresh Hclock Hlimit Hconv. cbv zeta.
  destruct (createMessage_conversation_exists d now ai s Hconv)
    as (cid & Hcid & Hget).
  assert (Hts : msg_timestamp (fst (createMessage d now ai s)) = now).
  { rewrite createMessage_returns. cbv zeta.
    destruct (truthy (md_conversationId d)); reflexivity. }
  destruct (normalize_keeps d) as (_ & _ & _ & _ & _ & _ & _ & _ & Htext & Hatt).
  exists cid. eexists. split; [exact Hcid|]. split; [|split; [|split]].
  - unfold getConversationMessages.
    destruct (map_get cid (conversations (snd (createMessage d now ai s))));
      [reflexivity|contradiction].
  - rewrite (createMessage_appends d now ai s Hfresh).
    unfold map_values. rewrite map_app, filter_app. cbn [map snd filter].
    unfold in_conversation at 2. rewrite Hcid. cbn [opt_eqb].
    rewrite String.eqb_refl.
    rewrite sort_by_timestamp_last.
    + now apply slice_keeps_last.
    + rewrite Hts. apply Forall_forall. intros x Hx.
      apply filter_In in Hx as [Hx _].
      rewrite Forall_forall in Hclock. now apply Hclock.
  - rewrite createMessage_returns. cbv zeta.
    destruct (truthy (md_conversationId d)); exact Htext.
  - rewrite createMessage_returns. cbv zeta.
    destruct (truthy (md_conversationId d));
      cbn [msg_attachments build_message set_conversationId];
      now rewrite Hatt.
Qed.

Lemma createMessage_unlisted (d : MessageData) (now : Z) (ai : Categorizer)
    (s : State) (limit : Z) :
  truthy (md_conversationId d) = true ->
  map_get (or_str (md_conversationId d) "") (conversations s) = None ->
  let r := createMessage d now ai s in
  msg_conversationId (fst r) = Some (or_str (md_conversationId d) "")
  /\ map_get (msg_id (fst r)) (messages (snd r)) = Some (fst r)
  /\ getConversationMessages (or_str (md_conversationId d) "") limit (snd r)
     = Throw "Conversation not found".
Proof.
  intros Hc Hnone. cbv zeta. split; [|split].
  - rewrite createMessage_returns. cbv zeta. rewrite Hc.
    cbn [msg_conversationId build_message].
    rewrite normalize_conversationId.
    unfold truthy, or_str in *.
    destruct (md_conversationId d) as [c|]; [|discriminate].
    destruct (String.eqb c ""); [discriminate|reflexivity].
  - apply createMessage_get.
  - unfold getConversationMessages, createMessage, updateConversation.
    cbn [msg_id build_message msg_conversationId].
    rewrite normalize_conversationId, Hc. cbn [conversations].
    rewrite Hnone. cbn [snd conversations]. now rewrite Hnone.
Qed.

(** C6, amended: a message has a text and attachments but no sequence
    number.  (1) Let [createMessage] run at a time [now] not earlier than
    the timestamps of the stored messages, on a store in which the next
    id is unused, with a payload that names no conversation or one that
    is in the conversation table.  Then the returned message names a
    conversation, listing that conversation with a limit of zero or more
    succeeds, and the list contains the returned message, whose text and
    attachments are those of the payload (the empty text and the empty
    list when absent).  (2) With a payload that names a conversation
    missing from the table the message is stored under that conversation
    id all the same, and listing the conversation throws. *)
Theorem ingest_then_fetch :
  (forall d now ai s limit,
      ~ In (msg_id_of (S (messageCounter s))) (map_keys (messages s)) ->
      Forall (fun m => (msg_timestamp m <= now)%Z) (map_values (messages s)) ->
      (0 <= limit)%Z ->
      (truthy (md_conversationId d) = true ->
       map_get (or_str (md_conversationId d) "") (conversations s) <> None) ->
      let r := createMessage d now ai s in
      exists conversationId l,
        msg_conversationId (fst r) = Some conversationId
        /\ getConversationMessages conversationId limit (snd r) = Ok l
        /\ In (fst r) l
        /\ msg_text (fst r) = Some (or_str (md_text d) "")
        /\ msg_attachments (fst r) =
           match md_attachments d with Some a => a | None => [] end)
  /\ (forall d now ai s limit,
        truthy (md_conversationId d) = true ->
        map_get (or_str (md_conversationId d) "") (conversations s) = None ->
        let r := createMessage d now ai s in
        msg_conversationId (fst r) = Some (or_str (md_conversationId d) "")
        /\ map_get (msg_id (fst r)) (messages (snd r)) = Some (fst r)
        /\ getConversationMessages (or_str (md_conversationId d) "") limit
             (snd r) = Throw "Conversation not found").
Proof.
  split.
  - intros d now ai s limit. apply createMessage_listed.
  - intros d now ai s limit. apply createMessage_unlisted.
Qed.

Lemma ingest_then_fetch_witness :
  exists conversationId l,
    msg_conversationId
      (fst (createMessage (Sample.chat_message "wamid.2" 7 (Some "conv_1")) 20
              Sample.fallback_ai Sample.one_message)) = Some conversationId
    /\ getConversationMessages conversationId 50
         (snd (createMessage (Sample.chat_message "wamid.2" 7 (Some "conv_1"))
                 20 Sample.fallback_ai Sample.one_message)) = Ok l
    /\ In (fst (createMessage (Sample.chat_message "wamid.2" 7 (Some "conv_1"))
                  20 Sample.fallback_ai Sample.one_message)) l.
Proof.
  destruct (proj1 ingest_then_fetch
              (Sample.chat_message "wamid.2" 7 (Some "conv_1")) 20%Z
              Sample.fallback_ai Sample.one_message 50%Z)
    as (cid & l & H1 & H2 & H3 & _).
  - vm_compute. intros [H|[]]. discriminate H.
  - vm_compute. repeat constructor. discriminate.
  - lia.
  - intros _. vm_compute. discriminate.
  - exists cid, l. auto.
Defined.

(** ** C7: categorization inside message creation *)

Lemma analysis_of_normalized (ai : Categorizer) (d : MessageData) :
  analysis_of ai (normalizeMessageData d) =
  if truthy (md_text d) then
    match ai (or_str (md_text d) "") (md_platform d) with
    | AiReturned a => Some a
    | AiThrew => None
    end
  else None.
Proof.
  unfold analysis_of.
  destruct (normalize_keeps d) as (Hp & _ & _ & _ & _ & _ & _ & _ & Ht & _).
  rewrite Hp, Ht. unfold truthy, or_str.
  destruct (md_text d) as [t|]; [|reflexivity].
  destruct (String.eqb t "") eqn:E; [reflexivity|].
  now rewrite E.
Qed.

Lemma map_keys_set_value {V : Type} (k : string) (v v' : V) (m : jsmap V) :
  map_keys (map_set k v m) = map_keys (map_set k v' m).
Proof.
  induction m as [|[k0 v0] r IH]; [reflexivity|].
  cbn. destruct (String.eqb k k0); cbn; [reflexivity|].
  unfold map_keys in IH. now rewrite IH.
Qed.

(** The conversation table after [createMessage] is computed from the
    payload, the clock and the previous table, whatever the categorizer
    answered. *)
Lemma createMessage_conversations (d : MessageData) (now : Z)
    (ai1 ai2 : Categorizer) (s : State) :
  conversations (snd (createMessage d now ai1 s)) =
  conversations (snd (createMessage d now ai2 s))
  /\ conversationCounter (snd (createMessage d now ai1 s)) =
     conversationCounter (snd (createMessage d now ai2 s)).
Proof.
  unfold createMessage, updateConversation, createConversation.
  cbn [msg_id build_message msg_conversationId].
  destruct (truthy (md_conversationId (normalizeMessageData d))).
  - cbn [conversations messages].
    destruct (map_get _ (conversations s)); split; reflexivity.
  - cbn [conversations messages with_messages].
    rewrite !map_get_set_same. split; reflexivity.
Qed.

(** The categorizer properties of the returned message. *)
Lemma createMessage_ai_fields (d : MessageData) (now : Z) (ai : Categorizer)
    (s : State) :
  ai_fields (fst (createMessage d now ai s)) =
  if truthy (md_text d) then
    match ai (or_str (md_text d) "") (md_platform d) with
    | AiReturned a => ai_copied a
    | AiThrew => ai_defaults
    end
  else ai_defaults.
Proof.
  rewrite createMessage_returns. cbv zeta.
  assert (H : forall m0 c, ai_fields (set_conversationId c m0) = ai_fields m0)
    by reflexivity.
  destruct (truthy (md_conversationId d)); rewrite ?H;
    unfold ai_fields; cbn [build_message msg_priority msg_aiCategory
      msg_aiConfidence msg_aiSentiment msg_aiKeywords
      msg_aiSuggestedReplies msg_aiInsights];
    rewrite analysis_of_normalized;
    destruct (truthy (md_text d)); try reflexivity;
    destruct (ai _ _); reflexivity.
Qed.

(** C7 as stated fails.  The same payload, at the same time, on the same
    service, once with a categorizer that answers "urgent" and once with
    one that gives its fallback answer: the accepted messages differ, the
    first is stored with category "urgent" and priority "high", the
    second with category "general" and priority "normal". *)
Lemma message_carries_categorization :
  let urgent := fst (createMessage (Sample.bare "URGENT: Server is down!") 10
                       (Sample.urgent_ai 10) initial_state) in
  let plain := fst (createMessage (Sample.bare "URGENT: Server is down!") 10
                      Sample.fallback_ai initial_state) in
  (msg_aiCategory urgent, msg_priority urgent, msg_aiSentiment urgent,
   msg_aiKeywords urgent) = ("urgent", "high", "neutral", ["server"])
  /\ (msg_aiCategory plain, msg_priority plain, msg_aiSentiment plain,
      msg_aiKeywords plain) = ("general", "normal", "neutral", [])
  /\ msg_aiCategory urgent <> msg_aiCategory plain.
Proof. vm_compute. repeat split. discriminate. Qed.

(** C7, amended: [createMessage] categorizes.  (1) When the text of the
    payload is not empty the categorizer is called with it, and its
    priority, category, confidence, sentiment, keywords, suggested
    replies and insights are stored in the message; when the text is
    empty or the categorizer fails the defaults are stored.  (2) The
    answer of the categorizer decides nothing else: every other property
    of the message, the conversation table, the keys of the store and
    both counters are the same for any two categorizers, so that a
    failing categorizer does not keep a message from being accepted. *)
Theorem categorizer_output_is_stored :
  (forall d now ai s,
      ai_fields (fst (createMessage d now ai s)) =
      if truthy (md_text d) then
        match ai (or_str (md_text d) "") (md_platform d) with
        | AiReturned a => ai_copied a
        | AiThrew => ai_defaults
        end
      else ai_defaults)
  /\ (forall d now ai1 ai2 s,
        let r1 := createMessage d now ai1 s in
        let r2 := createMessage d now ai2 s in
        non_ai_fields (fst r1) = non_ai_fields (fst r2)
        /\ conversations (snd r1) = conversations (snd r2)
        /\ map_keys (messages (snd r1)) = map_keys (messages (snd r2))
        /\ messageCounter (snd r1) = messageCounter (snd r2)
        /\ conversationCounter (snd r1) = conversationCounter (snd r2)).
Proof.
  split.
  - intros d now ai s. apply createMessage_ai_fields.
  - intros d now ai1 ai2 s. cbv zeta.
    destruct (createMessage_conversations d now ai1 ai2 s) as [Hc Hcc].
    destruct (createMessage_store d now ai1 s) as (_ & Hn1 & Hm1).
    destruct (createMessage_store d now ai2 s) as (_ & Hn2 & Hm2).
    split; [|split; [|split; [|split]]]; try assumption.
    + rewrite !createMessage_returns. cbv zeta.
      destruct (truthy (md_conversationId d)); reflexivity.
    + rewrite Hm1, Hm2. apply map_keys_set_value.
    + now rewrite Hn1, Hn2.
Qed.

(** ** C9: two runs on one payload *)

(** C9 as stated fails.  The payload built by the webhook for the update
    555 is given to [createMessage] twice: besides id and timestamp the
    two records differ in their conversation id, conv_1 and conv_2, and
    in the insights of the categorizer, which carry its processing
    time. *)
Lemma two_runs_differ_beyond_id_and_time :
  let d := Sample.unified555 in
  let r1 := createMessage d 10 (Sample.urgent_ai 10) initial_state in
  let r2 := createMessage d 20 (Sample.urgent_ai 20) (snd r1) in
  telegram_unified Sample.update555 Sample.tg555 = Ok d
  /\ msg_conversationId (fst r1) = Some "conv_1"
  /\ msg_conversationId (fst r2) = Some "conv_2"
  /\ msg_aiInsights (fst r1) = ai_aiInsights (Sample.urgent_analysis 10)
  /\ msg_aiInsights (fst r2) = ai_aiInsights (Sample.urgent_analysis 20)
  /\ msg_conversationId (fst r1) <> msg_conversationId (fst r2)
  /\ msg_aiInsights (fst r1) <> msg_aiInsights (fst r2).
Proof. vm_compute. repeat split; discriminate. Qed.

(** C9, amended: for every payload, two runs of [createMessage], on any
    two states of the service, at any two times and with any two
    categorizers, return records that agree on every property copied
    from the payload (platform, sender, sender id, recipient, recipient
    id, text, subject, status, type, attachments, metadata, thread id,
    native message id, direction).  They agree on the categorizer
    properties as well when the categorizer gives the same answer both
    times, and on the conversation id when the payload names one. *)
Theorem two_runs_agree_on_content :
  (forall d now1 now2 ai1 ai2 s1 s2,
      content_fields (fst (createMessage d now1 ai1 s1)) =
      content_fields (fst (createMessage d now2 ai2 s2)))
  /\ (forall d now1 now2 ai1 ai2 s1 s2,
        ai1 (or_str (md_text d) "") (md_platform d) =
        ai2 (or_str (md_text d) "") (md_platform d) ->
        ai_fields (fst (createMessage d now1 ai1 s1)) =
        ai_fields (fst (createMessage d now2 ai2 s2)))
  /\ (forall d now1 now2 ai1 ai2 s1 s2,
        truthy (md_conversationId d) = true ->
        msg_conversationId (fst (createMessage d now1 ai1 s1)) =
        msg_conversationId (fst (createMessage d now2 ai2 s2))).
Proof.
  split; [|split].
  - intros. now rewrite !createMessage_content.
  - intros d now1 now2 ai1 ai2 s1 s2 Hsame.
    rewrite !createMessage_ai_fields, Hsame. reflexivity.
  - intros d now1 now2 ai1 ai2 s1 s2 Hc.
    rewrite !createMessage_returns. cbv zeta. rewrite Hc. reflexivity.
Qed.

Lemma two_runs_agree_on_content_witness :
  msg_conversationId
    (fst (createMessage (Sample.chat_message "wamid.2" 7 (Some "conv_1")) 20
            Sample.fallback_ai Sample.one_message)) =
  msg_conversationId
    (fst (createMessage (Sample.chat_message "wamid.2" 7 (Some "conv_1")) 30
            (Sample.urgent_ai 30) initial_state))
  /\ ai_fields
       (fst (createMessage (Sample.bare "hi") 10 (Sample.urgent_ai 5)
               initial_state)) =
     ai_fields
       (fst (createMessage (Sample.bare "hi") 20 (Sample.urgent_ai 5)
               Sample.one_message)).
Proof.
  destruct two_runs_agree_on_content as (_ & Hai & Hconv).
  split.
  - apply Hconv. reflexivity.
  - apply Hai. reflexivity.
Defined.

(** ** C10: marking a conversation as read *)

Lemma map_set_middle {V : Type} (k : string) (v v0 : V)
    (pre rest : jsmap V) :
  ~ In k (map_keys pre) ->
  map_set k v (pre ++ (k, v0) :: rest)%list = (pre ++ (k, v) :: rest)%list.
Proof.
  induction pre as [|[k' v'] pre IH]; cbn; intro Hnin.
  - now rewrite String.eqb_refl.
  - destruct (String.eqb_spec k k') as [->|Hne].
    + exfalso. apply Hnin. now left.
    + rewrite IH; [reflexivity|]. intro Hin. apply Hnin. now right.
Qed.

(** The loop, started on the entries that remain after [pre], leaves
    [pre] alone and rewrites the remaining entries one by one. *)
Lemma mark_loop_spec (conversationId : string) (clock : nat -> Z)
    (entries pre : list (string * Message)) (n : nat) :
  NoDup (map_keys (pre ++ entries)%list) ->
  mark_loop conversationId clock entries (pre ++ entries)%list n =
  ((pre ++ marked_entries conversationId clock entries n)%list,
   n + List.length (filter (unread_in conversationId) (map_values entries))).
Proof.
  revert pre n. induction entries as [|[k m] rest IH]; intros pre n Hnd.
  - cbn. now rewrite Nat.add_0_r.
  - cbn [mark_loop marked_entries map_values map snd filter].
    assert (Hk : ~ In k (map_keys pre)).
    { unfold map_keys in *. rewrite map_app in Hnd. cbn in Hnd.
      apply NoDup_remove_2 in Hnd. intro Hin. apply Hnd.
      apply in_or_app. now left. }
    destruct (unread_in conversationId m) eqn:Hu.
    + rewrite (map_set_middle k _ m pre rest Hk).
      specialize (IH (pre ++ [(k, mark_read (clock n) m)])%list (S n)).
      rewrite <- !app_assoc in IH. cbn [app] in IH.
      rewrite IH.
      * cbn [List.length]. f_equal. unfold map_values. lia.
      * unfold map_keys in *. rewrite map_app in *. exact Hnd.
    + specialize (IH (pre ++ [(k, m)])%list n).
      rewrite <- !app_assoc in IH. cbn [app] in IH.
      rewrite IH; [reflexivity|exact Hnd].
Qed.

(** Entry by entry, what the loop did. *)
Lemma marked_entries_frame (conversationId : string) (clock : nat -> Z)
    (entries : list (string * Message)) (n : nat) :
  Forall2
    (fun old new =>
       fst new = fst old
       /\ if unread_in conversationId (snd old)
          then msg_status (snd new) = "read"
               /\ (exists k, msg_readAt (snd new) = Some (clock k))
               /\ fields_but_status_readAt (snd new) =
                  fields_but_status_readAt (snd old)
          else snd new = snd old)
    entries (marked_entries conversationId clock entries n).
Proof.
  revert n. induction entries as [|[k m] rest IH]; intro n;
    cbn [marked_entries]; [constructor|].
  destruct (unread_in conversationId m) eqn:Hu; constructor;
    try apply IH; cbn [fst snd]; rewrite Hu.
  - split; [reflexivity|]. split; [reflexivity|].
    split; [eexists; reflexivity|reflexivity].
  - split; reflexivity.
Qed.

(** C10, confirmed: for a conversation that is in the conversation
    table, [markConversationAsRead] returns the number of stored
    messages that belong to the conversation and are unread; afterwards
    the store has the same keys in the same order, each of those
    messages has status "read" and a [readAt] read from the clock, with
    every other property as before, every other message is as before,
    and the conversation table and both counters are unchanged. *)
Theorem markConversationAsRead_frame (conversationId : string)
    (clock : nat -> Z) (s : State) :
  NoDup (map_keys (messages s)) ->
  map_get conversationId (conversations s) <> None ->
  exists s',
    markConversationAsRead conversationId clock s =
    Ok (List.length (filter (unread_in conversationId)
                            (map_values (messages s))), s')
    /\ conversations s' = conversations s
    /\ messageCounter s' = messageCounter s
    /\ conversationCounter s' = conversationCounter s
    /\ Forall2
         (fun old new =>
            fst new = fst old
            /\ if unread_in conversationId (snd old)
               then msg_status (snd new) = "read"
                    /\ (exists k, msg_readAt (snd new) = Some (clock k))
                    /\ fields_but_status_readAt (snd new) =
                       fields_but_status_readAt (snd old)
               else snd new = snd old)
         (messages s) (messages s').
Proof.
  intros Hnd Hconv. unfold markConversationAsRead.
  destruct (map_get conversationId (conversations s)); [|contradiction].
  pose proof (mark_loop_spec conversationId clock (messages s) [] 0 Hnd)
    as Hloop.
  cbn [app Nat.add] in Hloop. rewrite Hloop.
  eexists. split; [reflexivity|].
  cbn [with_messages conversations messageCounter conversationCounter
       messages].
  repeat split. apply marked_entries_frame.
Qed.

Lemma markConversationAsRead_frame_witness :
  exists s',
    markConversationAsRead "conv_1" (fun k => 100 + Z.of_nat k)%Z
      Sample.one_message = Ok (1, s')
    /\ conversations s' = conversations Sample.one_message.
Proof.
  destruct (markConversationAsRead_frame "conv_1"
              (fun k => 100 + Z.of_nat k)%Z Sample.one_message)
    as (s' & H & Hc & _).
  - vm_compute. repeat constructor. intros [].
  - vm_compute. discriminate.
  - exists s'. split; [exact H|exact Hc].
Defined.

(** * Further properties of the message service *)

(** ** Lookups, deletions and the store invariant *)

Lemma map_get_In {V : Type} (k : string) (v : V) (m : jsmap V) :
  map_get k m = Some v -> In (k, v) m.
Proof.
  induction m as [|[k' v'] r IH]; cbn; [discriminate|].
  destruct (String.eqb_spec k k') as [->|Hne]; intro H.
  - injection H as ->. now left.
  - right. now apply IH.
Qed.

Lemma map_get_notin {V : Type} (k : string) (m : jsmap V) :
  ~ In k (map_keys m) -> map_get k m = None.
Proof.
  induction m as [|[k' v'] r IH]; cbn; intro Hnin; [reflexivity|].
  destruct (String.eqb_spec k k') as [->|Hne].
  - exfalso. apply Hnin. now left.
  - apply IH. intro Hin. apply Hnin. now right.
Qed.

Lemma map_keys_set_present {V : Type} (k : string) (v v0 : V) (m : jsmap V) :
  map_get k m = Some v0 -> map_keys (map_set k v m) = map_keys m.
Proof.
  induction m as [|[k' v'] r IH]; cbn; [discriminate|].
  destruct (String.eqb k k'); cbn; intro H; [reflexivity|].
  unfold map_keys in IH. now rewrite IH.
Qed.

Lemma map_set_Forall {V : Type} (P : string * V -> Prop) (k : string) (v : V)
    (m : jsmap V) :
  Forall P m -> P (k, v) -> Forall P (map_set k v m).
Proof.
  intros Hall Hkv. induction m as [|[k' v'] r IH]; cbn.
  - now constructor.
  - inversion Hall as [|? ? Hhd Htl]; subst.
    destruct (String.eqb_spec k k') as [->|Hne]; constructor; auto.
Qed.

Lemma map_delete_incl {V : Type} (k : string) (m : jsmap V) :
  incl (map_delete k m) m.
Proof.
  induction m as [|[k' v'] r IH]; cbn; [apply incl_refl|].
  destruct (String.eqb k k'); [apply incl_tl, incl_refl|].
  intros e [<-|He]; [now left|right; now apply IH].
Qed.

Lemma map_delete_NoDup {V : Type} (k : string) (m : jsmap V) :
  NoDup (map_keys m) -> NoDup (map_keys (map_delete k m)).
Proof.
  induction m as [|[k' v'] r IH]; cbn; intro Hnd; [assumption|].
  inversion Hnd as [|? ? Hnot Hnd']; subst.
  destruct (String.eqb k k'); [assumption|].
  cbn. constructor; [|now apply IH].
  intro Hin. apply Hnot. apply in_map_iff in Hin as [[k0 v0] [Hk Hin]].
  apply in_map_iff. exists (k0, v0). split; [assumption|].
  now apply (map_delete_incl k r).
Qed.

Lemma map_get_delete_same {V : Type} (k : string) (m : jsmap V) :
  NoDup (map_keys m) -> map_get k (map_delete k m) = None.
Proof.
  induction m as [|[k' v'] r IH]; cbn; intro Hnd; [reflexivity|].
  inversion Hnd as [|? ? Hnot Hnd']; subst.
  destruct (String.eqb_spec k k') as [->|Hne].
  - now apply map_get_notin.
  - cbn. apply String.eqb_neq in Hne. rewrite Hne. now apply IH.
Qed.

Lemma map_get_delete_other {V : Type} (k k' : string) (m : jsmap V) :
  k' <> k -> map_get k' (map_delete k m) = map_get k' m.
Proof.
  intro Hne. induction m as [|[k0 v0] r IH]; cbn; [reflexivity|].
  destruct (String.eqb_spec k k0) as [->|Hne0].
  - apply String.eqb_neq in Hne. now rewrite Hne.
  - cbn. now rewrite IH.
Qed.

Lemma map_keys_set_any {V : Type} (k : string) (v : V) (m : jsmap V) :
  map_get k m <> None -> map_keys (map_set k v m) = map_keys m.
Proof.
  destruct (map_get k m) as [v0|] eqn:E; [|contradiction].
  intros _. now apply (map_keys_set_present k v v0).
Qed.

(** X1.  [markMessageAsRead] on an unknown id throws.  On a stored id it
    returns the message with status "read" and [readAt] set to the time
    of the call, every other property as before; afterwards that message
    is what the id looks up, every other id looks up what it did, the
    order of the store, the conversation table and the counters are as
    before. *)
Theorem markMessageAsRead_frame (messageId : string) (now : Z) (s : State) :
  match map_get messageId (messages s) with
  | None => markMessageAsRead messageId now s = Throw "Message not found"
  | Some old =>
      exists m s',
        markMessageAsRead messageId now s = Ok (m, s')
        /\ msg_status m = "read" /\ msg_readAt m = Some now
        /\ fields_but_status_readAt m = fields_but_status_readAt old
        /\ getMessageById messageId s' = Ok m
        /\ (forall k, k <> messageId ->
                      map_get k (messages s') = map_get k (messages s))
        /\ map_keys (messages s') = map_keys (messages s)
        /\ conversations s' = conversations s
        /\ messageCounter s' = messageCounter s
        /\ conversationCounter s' = conversationCounter s
  end.
Proof.
  unfold markMessageAsRead.
  destruct (map_get messageId (messages s)) as [old|] eqn:Hget;
    [|reflexivity].
  eexists. eexists. split; [reflexivity|].
  split; [reflexivity|]. split; [reflexivity|]. split; [reflexivity|].
  unfold getMessageById, with_messages.
  cbn [messages conversations messageCounter conversationCounter].
  split; [|split; [|split; [|repeat split]]].
  - now rewrite map_get_set_same.
  - intros k Hne. now apply map_get_set_other.
  - now apply (map_keys_set_present messageId _ old).
Qed.

Lemma deleteMessage_messages (messageId : string) (s s' : State) :
  deleteMessage messageId s = Ok s' ->
  messages s' = map_delete messageId (messages s)
  /\ messageCounter s' = messageCounter s
  /\ conversationCounter s' = conversationCounter s
  /\ map_keys (conversations s') = map_keys (conversations s).
Proof.
  unfold deleteMessage.
  destruct (map_get messageId (messages s)) as [m|]; [|discriminate].
  destruct (truthy (msg_conversationId m)).
  - cbn [with_messages conversations].
    destruct (map_get _ (conversations s)) as [c|] eqn:Hc;
      intro H; injection H as <-; cbn; repeat split.
    now apply (map_keys_set_present _ _ c).
  - intro H. injection H as <-. cbn. repeat split.
Qed.

(** X2.  [deleteMessage] on an unknown id throws.  On a stored id (the
    keys of the store being distinct) it succeeds; afterwards the id
    looks up nothing, every other id looks up what it did, neither
    counter has moved, no conversation has left the table, and the
    conversation of the message, when it is in the table, counts one
    message less, but never less than zero. *)
Theorem deleteMessage_frame :
  (forall messageId s,
      map_get messageId (messages s) = None ->
      deleteMessage messageId s = Throw "Message not found")
  /\ (forall messageId s m,
        NoDup (map_keys (messages s)) ->
        map_get messageId (messages s) = Some m ->
        exists s',
          deleteMessage messageId s = Ok s'
          /\ getMessageById messageId s' = Throw "Message not found"
          /\ (forall k, k <> messageId ->
                        map_get k (messages s') = map_get k (messages s))
          /\ messageCounter s' = messageCounter s
          /\ conversationCounter s' = conversationCounter s
          /\ map_keys (conversations s') = map_keys (conversations s)
          /\ (forall c,
                 truthy (msg_conversationId m) = true ->
                 map_get (or_str (msg_conversationId m) "") (conversations s)
                 = Some c ->
                 option_map conv_messageCount
                   (map_get (or_str (msg_conversationId m) "")
                            (conversations s'))
                 = Some (conv_messageCount c - 1))).
Proof.
  split.
  - intros messageId s Hnone. unfold deleteMessage. now rewrite Hnone.
  - intros messageId s m Hnd Hget.
    assert (Hok : exists s', deleteMessage messageId s = Ok s').
    { unfold deleteMessage. rewrite Hget.
      destruct (truthy (msg_conversationId m)); [|eauto].
      cbn [with_messages conversations].
      destruct (map_get _ (conversations s)); eauto. }
    destruct Hok as [s' Hs']. exists s'.
    destruct (deleteMessage_messages messageId s s' Hs')
      as (Hm & Hc & Hcc & Hk).
    split; [exact Hs'|]. split; [|split; [|repeat split; try assumption]].
    + unfold getMessageById. rewrite Hm.
      now rewrite map_get_delete_same.
    + intros k Hne. rewrite Hm. now apply map_get_delete_other.
    + intros c Htruthy Hconv. unfold deleteMessage in Hs'.
      rewrite Hget, Htruthy in Hs'. cbn [with_messages conversations] in Hs'.
      rewrite Hconv in Hs'. injection Hs' as <-.
      cbn [with_conversations conversations].
      rewrite map_get_set_same. reflexivity.
Qed.

Lemma deleteMessage_frame_witness :
  exists s',
    deleteMessage "msg_1" Sample.one_message = Ok s'
    /\ getMessageById "msg_1" s' = Throw "Message not found".
Proof.
  destruct (proj2 deleteMessage_frame "msg_1" Sample.one_message
              (fst (createMessage (Sample.chat_message "wamid.1" 5 None) 10
                      Sample.fallback_ai initial_state)))
    as (s' & H1 & H2 & _).
  - vm_compute. repeat constructor. intros [].
  - vm_compute. reflexivity.
  - exists s'. split; assumption.
Defined.

(** ** The store invariant under every operation *)

Lemma store_ok_initial : store_ok initial_state.
Proof. split; constructor. Qed.

Lemma store_ok_fresh (s : State) :
  store_ok s ->
  ~ In (msg_id_of (S (messageCounter s))) (map_keys (messages s)).
Proof.
  intros [_ Hall] Hin. apply in_map_iff in Hin as [e [Hk Hin]].
  rewrite Forall_forall in Hall. destruct (Hall e Hin) as (_ & n & Hn & He).
  rewrite He in Hk. apply msg_id_of_inj in Hk. lia.
Qed.

Lemma store_ok_create (d : MessageData) (now : Z) (ai : Categorizer)
    (s : State) :
  store_ok s -> store_ok (snd (createMessage d now ai s)).
Proof.
  intro Hok. pose proof (store_ok_fresh s Hok) as Hfresh.
  destruct Hok as [Hnd Hall].
  destruct (createMessage_store d now ai s) as (Hid & Hc & _).
  unfold store_ok. rewrite (createMessage_appends d now ai s Hfresh), Hc.
  split.
  - unfold map_keys in *. rewrite map_app. cbn [map fst].
    apply (Permutation_NoDup (l := msg_id_of (S (messageCounter s))
                                     :: map fst (messages s))).
    + apply Permutation_cons_append.
    + now constructor.
  - apply Forall_app. split.
    + eapply Forall_impl; [|exact Hall].
      intros e (He & n & Hn & Hk). split; [assumption|].
      exists n. split; [lia|assumption].
    + constructor; [|constructor]. cbn [fst snd]. split; [assumption|].
      exists (S (messageCounter s)). split; [lia|reflexivity].
Qed.

Lemma store_ok_markMessageAsRead (messageId : string) (now : Z)
    (s s' : State) (m : Message) :
  markMessageAsRead messageId now s = Ok (m, s') ->
  store_ok s -> store_ok s'.
Proof.
  unfold markMessageAsRead.
  destruct (map_get messageId (messages s)) as [old|] eqn:Hget;
    [|discriminate].
  intros H [Hnd Hall]. injection H as <- <-.
  unfold store_ok, with_messages. cbn [messages messageCounter]. split.
  - now rewrite (map_keys_set_present messageId _ old).
  - apply map_set_Forall; [assumption|].
    apply map_get_In in Hget. rewrite Forall_forall in Hall.
    exact (Hall _ Hget).
Qed.

Lemma marked_entries_keys (conversationId : string) (clock : nat -> Z)
    (entries : list (string * Message)) (n : nat) :
  map_keys (marked_entries conversationId clock entries n) = map_keys entries.
Proof.
  revert n. induction entries as [|[k m] rest IH]; intro n; [reflexivity|].
  cbn [marked_entries]. unfold map_keys in *.
  destruct (unread_in conversationId m); cbn; now rewrite IH.
Qed.

Lemma marked_entries_ids (P : string -> string -> Prop)
    (conversationId : string) (clock : nat -> Z)
    (entries : list (string * Message)) (n : nat) :
  Forall (fun e => P (fst e) (msg_id (snd e))) entries ->
  Forall (fun e => P (fst e) (msg_id (snd e)))
         (marked_entries conversationId clock entries n).
Proof.
  revert n. induction entries as [|[k m] rest IH]; intros n Hall;
    [constructor|].
  inversion Hall as [|? ? Hhd Htl]; subst.
  cbn [marked_entries].
  destruct (unread_in conversationId m); constructor; auto.
Qed.

Lemma markConversationAsRead_messages (conversationId : string)
    (clock : nat -> Z) (s s' : State) (n : nat) :
  NoDup (map_keys (messages s)) ->
  markConversationAsRead conversationId clock s = Ok (n, s') ->
  messages s' = marked_entries conversationId clock (messages s) 0
  /\ n = List.length (filter (unread_in conversationId)
                             (map_values (messages s)))
  /\ conversations s' = conversations s
  /\ messageCounter s' = messageCounter s
  /\ conversationCounter s' = conversationCounter s.
Proof.
  intros Hnd. unfold markConversationAsRead.
  destruct (map_get conversationId (conversations s)); [|discriminate].
  pose proof (mark_loop_spec conversationId clock (messages s) [] 0 Hnd)
    as Hloop.
  cbn [app Nat.add] in Hloop. rewrite Hloop.
  intro H. injection H as <- <-. repeat split.
Qed.

Lemma store_ok_markConversationAsRead (conversationId : string)
    (clock : nat -> Z) (s s' : State) (n : nat) :
  markConversationAsRead conversationId clock s = Ok (n, s') ->
  store_ok s -> store_ok s'.
Proof.
  intros H [Hnd Hall].
  destruct (markConversationAsRead_messages conversationId clock s s' n
              Hnd H) as (Hm & _ & _ & Hc & _).
  unfold store_ok. rewrite Hm, Hc, marked_entries_keys.
  split; [assumption|].
  apply (marked_entries_ids
           (fun k id => id = k
                        /\ exists j, 1 <= j <= messageCounter s
                                     /\ k = msg_id_of j)).
  exact Hall.
Qed.

Lemma store_ok_deleteMessage (messageId : string) (s s' : State) :
  deleteMessage messageId s = Ok s' -> store_ok s -> store_ok s'.
Proof.
  intros H [Hnd Hall].
  destruct (deleteMessage_messages messageId s s' H) as (Hm & Hc & _).
  unfold store_ok. rewrite Hm, Hc. split.
  - now apply map_delete_NoDup.
  - rewrite Forall_forall in *. intros e He.
    apply Hall. now apply (map_delete_incl messageId).
Qed.

Lemma store_ok_perform (op : Operation) (s : State) :
  store_ok s -> store_ok (perform op s).
Proof.
  intro Hok. destruct op as [e|messageId now|conversationId clock|messageId];
    cbn [perform].
  - now apply store_ok_create.
  - destruct (markMessageAsRead messageId now s) as [[m s']|] eqn:E;
      [|assumption].
    now apply (store_ok_markMessageAsRead messageId now s s' m).
  - destruct (markConversationAsRead conversationId clock s) as [[n s']|]
      eqn:E; [|assumption].
    now apply (store_ok_markConversationAsRead conversationId clock s s' n).
  - destruct (deleteMessage messageId s) as [s'|] eqn:E; [|assumption].
    now apply (store_ok_deleteMessage messageId s s').
Qed.

Lemma store_ok_perform_all (ops : list Operation) (s : State) :
  store_ok s -> store_ok (perform_all ops s).
Proof.
  revert s. induction ops as [|op ops IH]; intros s Hok; [assumption|].
  cbn [perform_all]. apply IH. now apply store_ok_perform.
Qed.

(** X3.  Whatever sequence of creations, deletions and mark-as-read
    calls a fresh service has gone through, its store has no key twice,
    every message is stored under its own id, and every id is one the
    counter has handed out; the counter is never handed back, so the
    next [createMessage] adds one entry at the end of the store and
    overwrites nothing, also after deletions. *)
Theorem ids_are_never_reused (ops : list Operation) (d : MessageData)
    (now : Z) (ai : Categorizer) :
  let s := perform_all ops initial_state in
  let r := createMessage d now ai s in
  store_ok s
  /\ ~ In (msg_id (fst r)) (map_keys (messages s))
  /\ messages (snd r) = (messages s ++ [(msg_id (fst r), fst r)])%list.
Proof.
  cbv zeta.
  pose proof (store_ok_perform_all ops initial_state store_ok_initial) as Hok.
  pose proof (store_ok_fresh _ Hok) as Hfresh.
  destruct (createMessage_store d now ai (perform_all ops initial_state))
    as (Hid & _ & _).
  rewrite Hid. repeat split; try assumption; try apply Hok.
  now apply createMessage_appends.
Qed.

(** ** Marking twice, and deleting what was created *)

Lemma unread_in_mark_read (conversationId : string) (t : Z) (m : Message) :
  unread_in conversationId (mark_read t m) = false.
Proof. unfold unread_in. cbn. apply andb_false_r. Qed.

Lemma marked_entries_settled (conversationId : string) (clock : nat -> Z)
    (entries : list (string * Message)) (n : nat) :
  filter (unread_in conversationId)
         (map_values (marked_entries conversationId clock entries n)) = [].
Proof.
  revert n. induction entries as [|[k m] rest IH]; intro n; [reflexivity|].
  cbn [marked_entries].
  destruct (unread_in conversationId m) eqn:Hu; cbn [map_values map snd filter].
  - rewrite unread_in_mark_read. apply IH.
  - rewrite Hu. apply IH.
Qed.

Lemma marked_entries_nothing (conversationId : string) (clock : nat -> Z)
    (entries : list (string * Message)) (n : nat) :
  filter (unread_in conversationId) (map_values entries) = [] ->
  marked_entries conversationId clock entries n = entries.
Proof.
  induction entries as [|[k m] rest IH]; intro Hnone; [reflexivity|].
  cbn [map_values map snd filter] in Hnone. cbn [marked_entries].
  destruct (unread_in conversationId m); [discriminate|].
  f_equal. now apply IH.
Qed.

(** X4.  Marking a conversation as read twice: the second call finds
    nothing to update, returns the count 0 and leaves the service exactly
    as the first call left it (no [readAt] is stamped again). *)
Theorem markConversationAsRead_twice (conversationId : string)
    (clock1 clock2 : nat -> Z) (s : State) :
  NoDup (map_keys (messages s)) ->
  map_get conversationId (conversations s) <> None ->
  exists n s',
    markConversationAsRead conversationId clock1 s = Ok (n, s')
    /\ markConversationAsRead conversationId clock2 s' = Ok (0, s').
Proof.
  intros Hnd Hconv.
  destruct (markConversationAsRead conversationId clock1 s)
    as [[n s']|e] eqn:E1.
  2:{ unfold markConversationAsRead in E1.
      destruct (map_get conversationId (conversations s));
        [|contradiction].
      destruct (mark_loop _ _ _ _ _). discriminate. }
  exists n, s'. split; [reflexivity|].
  destruct (markConversationAsRead_messages conversationId clock1 s s' n
              Hnd E1) as (Hm & _ & Hc & _).
  unfold markConversationAsRead. rewrite Hc.
  destruct (map_get conversationId (conversations s)); [|contradiction].
  assert (Hnd' : NoDup (map_keys (messages s')))
    by now rewrite Hm, marked_entries_keys.
  pose proof (mark_loop_spec conversationId clock2 (messages s') [] 0 Hnd')
    as Hloop.
  cbn [app Nat.add] in Hloop. rewrite Hloop.
  assert (Hnone : filter (unread_in conversationId)
                         (map_values (messages s')) = [])
    by (rewrite Hm; apply marked_entries_settled).
  rewrite Hnone, (marked_entries_nothing _ _ _ _ Hnone). cbn [List.length].
  destruct s'; reflexivity.
Qed.

Lemma markConversationAsRead_twice_witness :
  exists n s',
    markConversationAsRead "conv_1" (fun k => 100 + Z.of_nat k)%Z
      Sample.one_message = Ok (n, s')
    /\ markConversationAsRead "conv_1" (fun k => 200 + Z.of_nat k)%Z s'
       = Ok (0, s').
Proof.
  apply markConversationAsRead_twice.
  - vm_compute. repeat constructor. intros [].
  - vm_compute. discriminate.
Defined.

Lemma map_delete_last {V : Type} (k : string) (v : V) (m : jsmap V) :
  ~ In k (map_keys m) -> map_delete k (m ++ [(k, v)])%list = m.
Proof.
  induction m as [|[k' v'] r IH]; cbn; intro Hnin.
  - now rewrite String.eqb_refl.
  - destruct (String.eqb_spec k k') as [->|Hne].
    + exfalso. apply Hnin. now left.
    + f_equal. apply IH. intro Hin. apply Hnin. now right.
Qed.

Lemma deleteMessage_found (messageId : string) (s : State) (m : Message) :
  map_get messageId (messages s) = Some m ->
  deleteMessage messageId s =
  Ok (let s1 := with_messages (map_delete messageId (messages s)) s in
      if truthy (msg_conversationId m) then
        match map_get (or_str (msg_conversationId m) "") (conversations s)
        with
        | Some conversation =>
            with_conversations
              (map_set (or_str (msg_conversationId m) "")
                       (uncount_message conversation) (conversations s))
              s1
        | None => s1
        end
      else s1).
Proof.
  intro Hget. unfold deleteMessage. rewrite Hget.
  destruct (truthy (msg_conversationId m)); [|reflexivity].
  cbn [with_messages conversations].
  destruct (map_get _ (conversations s)); reflexivity.
Qed.

Lemma conv_id_of_truthy (n : nat) :
  truthy (Some (conv_id_of n)) = true
  /\ or_str (Some (conv_id_of n)) "" = conv_id_of n.
Proof. split; reflexivity. Qed.

(** X5.  Deleting the message that [createMessage] has just returned
    gives the store back as it was before the creation, but undoes
    nothing else: the message counter stays one higher, and when the
    payload named no conversation the conversation created for the
    message stays in the table, with a message count of 1. *)
Theorem delete_after_create (d : MessageData) (now : Z) (ai : Categorizer)
    (s : State) :
  ~ In (msg_id_of (S (messageCounter s))) (map_keys (messages s)) ->
  let r := createMessage d now ai s in
  exists s'',
    deleteMessage (msg_id (fst r)) (snd r) = Ok s''
    /\ messages s'' = messages s
    /\ messageCounter s'' = S (messageCounter s)
    /\ (truthy (md_conversationId d) = false ->
        conversationCounter s'' = S (conversationCounter s)
        /\ option_map conv_messageCount
             (map_get (conv_id_of (S (conversationCounter s)))
                      (conversations s'')) = Some 1).
Proof.
  intro Hfresh. cbv zeta.
  destruct (createMessage_store d now ai s) as (Hid & Hc & _).
  pose proof (createMessage_get d now ai s) as Hget. cbv zeta in Hget.
  pose proof (createMessage_appends d now ai s Hfresh) as Happ.
  pose proof (createMessage_new_conversation d now ai s) as Hnew.
  cbv zeta in Hnew.
  set (r := createMessage d now ai s) in *. clearbody r.
  destruct (deleteMessage (msg_id (fst r)) (snd r)) as [s''|e] eqn:Hdel.
  2:{ rewrite (deleteMessage_found _ _ _ Hget) in Hdel. discriminate. }
  exists s''.
  destruct (deleteMessage_messages _ _ _ Hdel) as (Hm & Hmc & Hcc & _).
  split; [reflexivity|]. split; [|split].
  - rewrite Hm, Happ, Hid. now apply map_delete_last.
  - now rewrite Hmc, Hc.
  - intro Hfalsy. destruct (Hnew Hfalsy) as (Hcc' & Hcid & Hcount).
    split; [now rewrite Hcc, Hcc'|].
    rewrite (deleteMessage_found _ _ _ Hget) in Hdel.
    rewrite Hcid in Hdel.
    destruct (conv_id_of_truthy (S (conversationCounter s))) as [Ht Ho].
    rewrite Ht, Ho in Hdel.
    destruct (map_get (conv_id_of (S (conversationCounter s)))
                      (conversations (snd r))) as [c|]; [|discriminate].
    injection Hdel as <-. unfold with_conversations. cbn [conversations].
    rewrite map_get_set_same.
    cbn [option_map] in Hcount. injection Hcount as Hcount.
    cbn [option_map uncount_message conv_messageCount]. now rewrite Hcount.
Qed.

Lemma delete_after_create_witness :
  exists s'',
    deleteMessage "msg_1"
      (snd (createMessage (Sample.chat_message "wamid.1" 5 None) 10
              Sample.fallback_ai initial_state)) = Ok s''
    /\ messages s'' = []
    /\ messageCounter s'' = 1.
Proof.
  destruct (delete_after_create (Sample.chat_message "wamid.1" 5 None) 10
              Sample.fallback_ai initial_state)
    as (s'' & H1 & H2 & H3 & _).
  - intros [].
  - exists s''. repeat split; assumption.
Defined.

(** ** Listings: by category and by page *)

Lemma insert_newest_first_sorted (m : Message) (l : list Message) :
  StronglySorted (fun a b => timestamp_le b a) l ->
  StronglySorted (fun a b => timestamp_le b a) (insert_newest_first m l).
Proof.
  induction l as [|x r IH]; intro Hs; cbn.
  - repeat constructor.
  - apply StronglySorted_inv in Hs as [Hr Hall].
    destruct (Z.leb_spec (msg_timestamp x) (msg_timestamp m)) as [Hle|Hgt].
    + constructor; [now constructor|].
      constructor; [exact Hle|].
      rewrite Forall_forall in *. intros y Hy.
      unfold timestamp_le in *. specialize (Hall y Hy). lia.
    + constructor; [now apply IH|].
      assert (Hin : forall y, In y (insert_newest_first m r) ->
                              y = m \/ In y r).
      { clear. induction r as [|z r IH]; cbn; intros y Hy.
        - destruct Hy as [<-|[]]. now left.
        - destruct (msg_timestamp z <=? msg_timestamp m)%Z.
          + destruct Hy as [<-|Hy]; [now left|now right].
          + destruct Hy as [<-|Hy]; [right; now left|].
            destruct (IH y Hy); [now left|right; now right]. }
      rewrite Forall_forall in *. intros y Hy.
      destruct (Hin y Hy) as [->|Hy'].
      * unfold timestamp_le. lia.
      * now apply Hall.
Qed.

Lemma sort_newest_first_sorted (l : list Message) :
  StronglySorted (fun a b => timestamp_le b a) (sort_newest_first l).
Proof.
  induction l as [|m r IH]; cbn; [constructor|].
  now apply insert_newest_first_sorted.
Qed.

Lemma insert_newest_first_perm (m : Message) (l : list Message) :
  Permutation (insert_newest_first m l) (m :: l).
Proof.
  induction l as [|x r IH]; cbn; [reflexivity|].
  destruct (msg_timestamp x <=? msg_timestamp m)%Z; [reflexivity|].
  rewrite IH. apply perm_swap.
Qed.

Lemma sort_newest_first_perm (l : list Message) :
  Permutation (sort_newest_first l) l.
Proof.
  induction l as [|m r IH]; cbn; [reflexivity|].
  rewrite insert_newest_first_perm. now constructor.
Qed.

Lemma firstn_In {A : Type} (n : nat) (l : list A) (x : A) :
  In x (firstn n l) -> In x l.
Proof.
  intro H. rewrite <- (firstn_skipn n l). apply in_or_app. now left.
Qed.

Lemma skipn_In {A : Type} (n : nat) (l : list A) (x : A) :
  In x (skipn n l) -> In x l.
Proof.
  intro H. rewrite <- (firstn_skipn n l). apply in_or_app. now right.
Qed.

Lemma firstn_strongly_sorted {A : Type} (R : A -> A -> Prop) (n : nat)
    (l : list A) :
  StronglySorted R l -> StronglySorted R (firstn n l).
Proof.
  revert l. induction n as [|n IH]; intros l Hs; [constructor|].
  destruct l as [|x r]; [constructor|].
  apply StronglySorted_inv in Hs as [Hr Hall].
  cbn. constructor; [now apply IH|].
  rewrite Forall_forall in *. intros y Hy. apply Hall.
  now apply firstn_In in Hy.
Qed.

Lemma slice_range_In {A : Type} (start stop : Z) (l : list A) (x : A) :
  In x (slice_range start stop l) -> In x l.
Proof.
  unfold slice_range. intro H. apply firstn_In in H. now apply skipn_In in H.
Qed.

Lemma slice_range_sorted {A : Type} (R : A -> A -> Prop) (start stop : Z)
    (l : list A) :
  StronglySorted R l -> StronglySorted R (slice_range start stop l).
Proof.
  intro Hs. unfold slice_range.
  now apply firstn_strongly_sorted, skipn_strongly_sorted.
Qed.

Lemma firstn_min_length {A : Type} (n : nat) (l : list A) :
  firstn (Nat.min n (List.length l)) l = firstn n l.
Proof.
  destruct (Nat.le_ge_cases n (List.length l)) as [Hle|Hge].
  - now rewrite Nat.min_l.
  - rewrite Nat.min_r by assumption.
    now rewrite firstn_all, firstn_all2.
Qed.

(** [slice] between two indexes that are not negative. *)
Lemma slice_range_nat {A : Type} (a b : nat) (l : list A) :
  slice_range (Z.of_nat a) (Z.of_nat b) l = firstn (b - a) (skipn a l).
Proof.
  unfold slice_range, relative_index.
  destruct (Z.ltb_spec (Z.of_nat a) 0) as [Ha|_]; [lia|].
  destruct (Z.ltb_spec (Z.of_nat b) 0) as [Hb|_]; [lia|].
  rewrite <- !Nat2Z.inj_min, !Nat2Z.id.
  destruct (Nat.le_ge_cases (List.length l) a) as [Hshort|Hlong].
  - rewrite (skipn_all2 l Hshort).
    rewrite (Nat.min_r a (List.length l)) by assumption.
    rewrite skipn_all. now rewrite !firstn_nil.
  - rewrite (Nat.min_l a (List.length l)) by assumption.
    rewrite <- (firstn_min_length (b - a)).
    rewrite <- (firstn_min_length (Nat.min b (List.length l) - a)).
    rewrite length_skipn. f_equal. lia.
Qed.

Lemma firstn_add {A : Type} (a b : nat) (l : list A) :
  firstn (a + b) l = (firstn a l ++ firstn b (skipn a l))%list.
Proof.
  revert l. induction a as [|a IH]; intro l; [reflexivity|].
  destruct l as [|x r]; cbn; [now rewrite firstn_nil|].
  now rewrite IH.
Qed.

(** X6.  [getMessagesByCategory] returns stored messages of the asked
    category only, newest first; with a limit that is not negative it
    returns at most that many, and all of the category when they are no
    more than the limit.  [getUrgentMessages] is the same listing for
    the category "urgent". *)
Theorem getMessagesByCategory_sound (category : string) (limit : Z)
    (s : State) :
  let all := filter (fun msg => String.eqb (msg_aiCategory msg) category)
                    (map_values (messages s)) in
  let l := getMessagesByCategory category limit s in
  Forall (fun m => msg_aiCategory m = category
                   /\ In m (map_values (messages s))) l
  /\ StronglySorted (fun a b => timestamp_le b a) l
  /\ ((0 <= limit)%Z -> (Z.of_nat (List.length l) <= limit)%Z)
  /\ ((Z.of_nat (List.length all) <= limit)%Z -> Permutation l all)
  /\ Forall (fun m => msg_aiCategory m = "urgent")
            (getUrgentMessages limit s).
Proof.
  cbv zeta.
  assert (Hsound : forall c lim,
             Forall (fun m => msg_aiCategory m = c
                              /\ In m (map_values (messages s)))
                    (getMessagesByCategory c lim s)).
  { intros c lim. apply Forall_forall. intros m Hm.
    unfold getMessagesByCategory in Hm. apply slice_range_In in Hm.
    apply (Permutation_in _ (sort_newest_first_perm _)) in Hm.
    apply filter_In in Hm as [Hin Hc].
    split; [now apply String.eqb_eq|assumption]. }
  split; [apply Hsound|]. split; [|split; [|split]].
  - unfold getMessagesByCategory.
    apply slice_range_sorted, sort_newest_first_sorted.
  - intro Hlimit. unfold getMessagesByCategory.
    rewrite <- (Z2Nat.id limit Hlimit).
    rewrite (slice_range_nat 0 (Z.to_nat limit)).
    rewrite length_firstn. lia.
  - intro Hall. unfold getMessagesByCategory.
    set (sorted := sort_newest_first _).
    assert (Hlen : List.length sorted
                   = List.length
                       (filter (fun msg => String.eqb (msg_aiCategory msg)
                                                     category)
                               (map_values (messages s))))
      by (apply Permutation_length, sort_newest_first_perm).
    assert (Hlimit : (0 <= limit)%Z) by lia.
    rewrite <- (Z2Nat.id limit Hlimit).
    rewrite (slice_range_nat 0 (Z.to_nat limit)).
    cbn [skipn]. rewrite firstn_all2 by lia.
    apply sort_newest_first_perm.
  - unfold getUrgentMessages. eapply Forall_impl; [|apply Hsound].
    intros m [H _]. exact H.
Qed.

Lemma ceil_div_covers (total limit : Z) :
  (0 < limit)%Z -> (0 <= total)%Z ->
  (0 <= ceil_div total limit)%Z /\ (total <= ceil_div total limit * limit)%Z.
Proof.
  intros Hl Ht. unfold ceil_div.
  pose proof (Z.mul_div_le (- total) limit Hl) as Hle.
  pose proof (Z.div_le_upper_bound (- total) limit 0 Hl) as Hup.
  split; [|lia].
  assert ((- total) / limit <= 0)%Z by (apply Hup; lia). lia.
Qed.

(** The page number [p], of [limit] messages, of the listing [all]. *)
Lemma getMessages_page (toLowerCase : string -> string) (filters : Filters)
    (limit : Z) (s : State) (p : nat) :
  (0 < limit)%Z -> 1 <= p ->
  let all := sort_newest_first
               (filter (message_passes toLowerCase filters)
                       (map_values (messages s))) in
  getMessages toLowerCase filters
    {| pr_page := Some (Z.of_nat p); pr_limit := Some limit |} s =
  (firstn (Z.to_nat limit) (skipn ((p - 1) * Z.to_nat limit) all),
   {| pg_page := Z.of_nat p;
      pg_limit := limit;
      pg_total := Z.of_nat (List.length all);
      pg_totalPages := ceil_div (Z.of_nat (List.length all)) limit;
      pg_hasNext := (Z.of_nat p * limit <? Z.of_nat (List.length all))%Z;
      pg_hasPrev := (1 <? Z.of_nat p)%Z |}).
Proof.
  intros Hlimit Hp. cbv zeta. unfold getMessages. cbn [pr_page pr_limit or_num].
  destruct (Z.eqb_spec (Z.of_nat p) 0) as [H0|_]; [lia|].
  destruct (Z.eqb_spec limit 0) as [H0|_]; [lia|].
  set (all := sort_newest_first _).
  replace ((Z.of_nat p - 1) * limit)%Z
    with (Z.of_nat ((p - 1) * Z.to_nat limit)) by nia.
  replace (Z.of_nat ((p - 1) * Z.to_nat limit) + limit)%Z
    with (Z.of_nat ((p - 1) * Z.to_nat limit + Z.to_nat limit)) by nia.
  rewrite slice_range_nat.
  replace ((p - 1) * Z.to_nat limit + Z.to_nat limit
           - (p - 1) * Z.to_nat limit) with (Z.to_nat limit) by lia.
  f_equal. f_equal. f_equal. nia.
Qed.

(** X7.  [getMessages] with a positive page size cuts one listing into
    pages: the listing is the stored messages that pass the filters,
    newest first; pages 1 to n, put end to end, are its first n times
    [limit] messages, and pages 1 to [totalPages] are the whole of it, so
    that no message is skipped or shown twice.  Every page reports the
    length of the listing as [total], and [hasNext] exactly when
    messages remain after the page. *)
Theorem getMessages_pages (toLowerCase : string -> string)
    (filters : Filters) (limit : Z) (s : State) :
  (0 < limit)%Z ->
  let all := sort_newest_first
               (filter (message_passes toLowerCase filters)
                       (map_values (messages s))) in
  let page p := getMessages toLowerCase filters
                  {| pr_page := Some (Z.of_nat p); pr_limit := Some limit |}
                  s in
  Forall (fun m => message_passes toLowerCase filters m = true
                   /\ In m (map_values (messages s))) all
  /\ StronglySorted (fun a b => timestamp_le b a) all
  /\ (forall n, List.concat (map (fun p => fst (page p)) (seq 1 n)) =
                firstn (n * Z.to_nat limit) all)
  /\ List.concat (map (fun p => fst (page p))
                 (seq 1 (Z.to_nat (pg_totalPages (snd (page 1)))))) = all
  /\ (forall p, 1 <= p ->
        pg_total (snd (page p)) = Z.of_nat (List.length all)
        /\ (pg_hasNext (snd (page p)) = true <->
            p * Z.to_nat limit < List.length all)).
Proof.
  intro Hlimit. cbv zeta.
  set (all := sort_newest_first _).
  assert (Hpages : forall n,
             List.concat (map (fun p =>
                            fst (getMessages toLowerCase filters
                                   {| pr_page := Some (Z.of_nat p);
                                      pr_limit := Some limit |} s))
                         (seq 1 n)) =
             firstn (n * Z.to_nat limit) all).
  { induction n as [|n IH]; [reflexivity|].
    rewrite seq_S, map_app, List.concat_app, IH. cbn [map List.concat Nat.add].
    rewrite (getMessages_page toLowerCase filters limit s (S n) Hlimit)
      by lia.
    cbn [fst]. fold all. rewrite app_nil_r.
    replace (S n - 1) with n by lia.
    replace (S n * Z.to_nat limit) with (n * Z.to_nat limit + Z.to_nat limit)
      by lia.
    now rewrite firstn_add. }
  split; [|split; [|split; [|split]]].
  - apply Forall_forall. intros m Hm.
    apply (Permutation_in _ (sort_newest_first_perm _)) in Hm.
    now apply filter_In in Hm as [Hin Hpass].
  - apply sort_newest_first_sorted.
  - exact Hpages.
  - rewrite Hpages.
    rewrite (getMessages_page toLowerCase filters limit s 1 Hlimit)
      by lia.
    cbn [snd pg_totalPages]. fold all.
    destruct (ceil_div_covers (Z.of_nat (List.length all)) limit Hlimit)
      as [H0 Hcover]; [lia|].
    apply firstn_all2. nia.
  - intros p Hp.
    rewrite (getMessages_page toLowerCase filters limit s p Hlimit Hp).
    cbn [snd pg_total pg_hasNext]. fold all. split; [reflexivity|].
    rewrite Z.ltb_lt. nia.
Qed.

Lemma getMessages_pages_witness :
  List.concat
    (map (fun p => fst (getMessages (fun t => t) Sample.no_filters
                          {| pr_page := Some (Z.of_nat p);
                             pr_limit := Some 2%Z |}
                          Sample.three_messages))
         (seq 1 2)) =
  sort_newest_first (map_values (messages Sample.three_messages)).
Proof.
  destruct (getMessages_pages (fun t => t) Sample.no_filters 2
              Sample.three_messages) as (_ & _ & _ & H & _).
  - lia.
  - exact H.
Defined.

(** ** Sending *)

Lemma normalize_outgoing (d : MessageData) :
  md_isIncoming d = Some false ->
  md_isIncoming (normalizeMessageData d) = Some false.
Proof.
  intro H. unfold normalizeMessageData. rewrite platform_specific_rule.
  destruct (platform_rule (md_platform d)) as [[ty [|]]|];
    cbn; unfold isIncoming_not_false; now rewrite H.
Qed.

(** X8.  When [sendMessage] succeeds, the platform is one of the five
    supported ones and was configured, and the record it creates is
    stored under its id as an outgoing message of that platform with the
    first non-empty id of the platform's answer as native id; its status
    is "unread", not the "sent" that [sendMessage] passes, and its
    timestamp is the clock of [createMessage], not the one read by
    [sendMessage].  When the platform is not configured, not supported,
    or its send fails, the call throws. *)
Theorem sendMessage_records_outgoing (platform : string)
    (messageData : MessageData) (port : PlatformPort) (clock : nat -> Z)
    (ai : Categorizer) (s : State) :
  match sendMessage platform messageData port clock ai s with
  | Ok (m, platformResult, s') =>
      port_configured port = true
      /\ supported_platform platform = true
      /\ port_send port = Ok platformResult
      /\ map_get (msg_id m) (messages s') = Some m
      /\ msg_platform m = Some platform
      /\ msg_isIncoming m = false
      /\ msg_status m = "unread"
      /\ msg_timestamp m = clock 1
      /\ msg_platformMessageId m =
         or_opt (res_id platformResult)
           (or_opt (res_message_id platformResult)
                   (res_messageId platformResult))
  | Throw _ =>
      port_configured port = false \/ supported_platform platform = false
      \/ exists e, port_send port = Throw e
  end.
Proof.
  unfold sendMessage.
  destruct (port_configured port); cbn [negb]; [|now left].
  destruct (supported_platform platform); cbn [negb]; [|right; now left].
  destruct (port_send port) as [platformResult|e]; cbn [bind];
    [|right; right; now exists e].
  set (d := outgoing_data platform (clock 0) platformResult messageData).
  pose proof (createMessage_get d (clock 1) ai s) as Hget.
  cbv zeta in Hget.
  pose proof (createMessage_returns d (clock 1) ai s) as Hret.
  cbv zeta in Hret.
  destruct (normalize_keeps d) as (Hp & _ & _ & _ & _ & _ & _ & Hn & _).
  pose proof (normalize_outgoing d eq_refl) as Hout.
  destruct (createMessage d (clock 1) ai s) as [m s'].
  cbn [fst snd] in *. subst m.
  split; [reflexivity|]. split; [reflexivity|]. split; [reflexivity|].
  split; [exact Hget|].
  destruct (truthy (md_conversationId d));
    cbn [msg_platform msg_isIncoming msg_status msg_timestamp
         msg_platformMessageId set_conversationId build_message];
    rewrite Hp, Hn, Hout; repeat split.
Qed.

(** ** The WhatsApp webhook on a batch *)

Lemma for_of_app {A : Type} (body : A -> Progress -> Progress)
    (l1 l2 : list A) (p : Progress) :
  pr_thrown p = false ->
  for_of body (l1 ++ l2)%list p =
  let p' := for_of body l1 p in
  if pr_thrown p' then p' else for_of body l2 p'.
Proof.
  revert p. induction l1 as [|x r IH]; intros p Hp; cbn.
  - now rewrite Hp.
  - destruct (pr_thrown (body x p)) eqn:Hx.
    + now rewrite Hx.
    + now apply IH.
Qed.

Lemma for_of_map {A B : Type} (body : B -> Progress -> Progress)
    (g : A -> B) (l : list A) (p : Progress) :
  for_of body (map g l) p = for_of (fun x => body (g x)) l p.
Proof.
  revert p. induction l as [|x r IH]; intro p; [reflexivity|].
  cbn. destruct (pr_thrown (body (g x) p)); [reflexivity|apply IH].
Qed.

Lemma whatsapp_change_flat (clock : nat -> Z) (ai : nat -> Categorizer)
    (io : option Emitter) (change : WaChange) (p : Progress) :
  whatsapp_change clock ai io change p =
  for_of (fun vm => whatsapp_message clock ai io (fst vm) (snd vm))
         (change_messages change) p.
Proof.
  unfold whatsapp_change, change_messages.
  destruct (wc_value change) as [value|]; [|reflexivity].
  destruct (wv_messages value) as [msgs|]; [|reflexivity].
  now rewrite for_of_map.
Qed.

Lemma whatsapp_changes_flat (clock : nat -> Z) (ai : nat -> Categorizer)
    (io : option Emitter) (changes : list WaChange) (p : Progress) :
  pr_thrown p = false ->
  for_of (whatsapp_change clock ai io) changes p =
  for_of (fun vm => whatsapp_message clock ai io (fst vm) (snd vm))
         (flat_map change_messages changes) p.
Proof.
  revert p. induction changes as [|c r IH]; intros p Hp; [reflexivity|].
  cbn [for_of flat_map]. rewrite for_of_app by assumption. cbv zeta.
  rewrite whatsapp_change_flat.
  destruct (pr_thrown (for_of _ (change_messages c) p)) eqn:Hc;
    [reflexivity|].
  now apply IH.
Qed.

(** The nested loops are one loop over the messages of the body. *)
Lemma whatsapp_entries_flat (clock : nat -> Z) (ai : nat -> Categorizer)
    (io : option Emitter) (entry : list WaEntry)
    (l : list (WaValue * WaMessage)) (p : Progress) :
  entry_messages entry = Some l ->
  pr_thrown p = false ->
  for_of (whatsapp_entry clock ai io) entry p =
  for_of (fun vm => whatsapp_message clock ai io (fst vm) (snd vm)) l p.
Proof.
  revert l p. induction entry as [|e r IH]; intros l p Hl Hp.
  - injection Hl as <-. reflexivity.
  - cbn [entry_messages] in Hl.
    destruct (we_changes e) as [changes|] eqn:Hch; [|discriminate].
    destruct (entry_messages r) as [rest|]; [|discriminate].
    injection Hl as <-.
    assert (He : whatsapp_entry clock ai io e p =
                 for_of (whatsapp_change clock ai io) changes p)
      by (unfold whatsapp_entry; now rewrite Hch).
    cbn [for_of]. rewrite He.
    rewrite for_of_app by assumption. cbv zeta.
    rewrite whatsapp_changes_flat by assumption.
    destruct (pr_thrown (for_of _ (flat_map change_messages changes) p))
      eqn:Hc; [reflexivity|].
    apply IH; [reflexivity|assumption].
Qed.

Lemma whatsapp_unified_readable (value : WaValue) (message : WaMessage) :
  wv_metadata value <> None ->
  exists d, whatsapp_unified value message = Ok d
            /\ md_conversationId d = None
            /\ md_platformMessageId d = wa_id message.
Proof.
  intro Hmeta. unfold whatsapp_unified, bind, deref.
  destruct (wv_metadata value); [|contradiction].
  eexists. repeat split.
Qed.

(** One readable message with a working emit. *)
Lemma whatsapp_message_ok (clock : nat -> Z) (ai : nat -> Categorizer)
    (emit : Emitter) (value : WaValue) (message : WaMessage) (p : Progress) :
  wv_metadata value <> None ->
  (forall room event m, emit room event m = Ok tt) ->
  let p' := whatsapp_message clock ai (Some emit) value message p in
  pr_thrown p' = false
  /\ pr_count p' = S (pr_count p)
  /\ messageCounter (pr_state p') = S (messageCounter (pr_state p))
  /\ conversationCounter (pr_state p') = S (conversationCounter (pr_state p)).
Proof.
  intros Hmeta Hemit. cbv zeta.
  destruct (whatsapp_unified_readable value message Hmeta)
    as (d & Hd & Hconv & _).
  unfold whatsapp_message. rewrite Hd.
  destruct (createMessage_store d (clock (pr_count p)) (ai (pr_count p))
              (pr_state p)) as (_ & Hc & _).
  assert (Hfalsy : truthy (md_conversationId d) = false)
    by now rewrite Hconv.
  destruct (createMessage_new_conversation d (clock (pr_count p))
              (ai (pr_count p)) (pr_state p) Hfalsy) as (Hcc & _).
  destruct (createMessage d (clock (pr_count p)) (ai (pr_count p))
              (pr_state p)) as [saved s'].
  cbn [fst snd] in *. cbn [pr_thrown pr_count pr_state fan_out deref bind].
  rewrite Hemit. auto.
Qed.

(** A conversation of the table stays in the table. *)
Lemma createMessage_conversation_kept (d : MessageData) (now : Z)
    (ai : Categorizer) (s : State) (conversationId : string) :
  map_get conversationId (conversations s) <> None ->
  map_get conversationId (conversations (snd (createMessage d now ai s)))
  <> None.
Proof.
  intro Hin. unfold createMessage, updateConversation, createConversation.
  cbn [msg_id build_message msg_conversationId].
  rewrite normalize_conversationId.
  destruct (truthy (md_conversationId d)).
  - cbn [conversations].
    destruct (map_get (or_str (md_conversationId d) "") (conversations s));
      cbn [snd with_conversations conversations]; [|assumption].
    destruct (String.eqb_spec conversationId (or_str (md_conversationId d) ""))
      as [->|Hne].
    + rewrite map_get_set_same. discriminate.
    + now rewrite map_get_set_other.
  - cbn [conversations messages with_messages conversationCounter].
    rewrite map_get_set_same.
    cbn [snd with_conversations conversations].
    destruct (String.eqb_spec conversationId
                (conv_id_of (S (conversationCounter s)))) as [->|Hne].
    + rewrite map_get_set_same. discriminate.
    + now rewrite !map_get_set_other.
Qed.

Lemma or_str_twice (a : option string) :
  or_str (Some (or_str a "")) "" = or_str a "".
Proof.
  unfold or_str. destruct a as [t|]; [|reflexivity].
  destruct (String.eqb t "") eqn:E; [reflexivity|]. now rewrite E.
Qed.

(** What [createMessage] makes of the payload of a WhatsApp message. *)
Lemma whatsapp_unified_record (value : WaValue) (message : WaMessage)
    (d : MessageData) (now : Z) (ai : Categorizer) (s : State) :
  whatsapp_unified value message = Ok d ->
  whatsapp_record value message (fst (createMessage d now ai s)).
Proof.
  intro Hd.
  pose proof (createMessage_content d now ai s) as Hc.
  destruct (normalize_keeps d)
    as (Hp & Hs & Hsi & _ & Hri & _ & _ & Hpm & Ht & Ha).
  unfold content_fields in Hc. cbn [build_message msg_platform msg_sender
    msg_senderId msg_recipient msg_recipientId msg_text msg_subject
    msg_status msg_type msg_attachments msg_metadata msg_threadId
    msg_platformMessageId msg_isIncoming] in Hc.
  rewrite Hp, Hs, Hsi, Hri, Hpm, Ht, Ha in Hc.
  set (saved := fst (createMessage d now ai s)) in *. clearbody saved.
  unfold whatsapp_record. unfold whatsapp_unified, bind, deref in Hd.
  destruct (wv_metadata value) as [metadata|]; [|discriminate].
  injection Hd as <-.
  cbn [md_platform md_sender md_senderId md_recipientId md_text
       md_attachments md_platformMessageId] in Hc.
  rewrite or_str_twice in Hc.
  injection Hc as Hc1 Hc2 Hc3 Hc4 Hc5 Hc6 Hc7 Hc8 Hc9 Hc10 Hc11 Hc12 Hc13 Hc14.
  unfold whatsapp_record. repeat split; assumption.
Qed.

(** One readable message with a working emit, in full. *)
Lemma whatsapp_message_stored (clock : nat -> Z) (ai : nat -> Categorizer)
    (emit : Emitter) (value : WaValue) (message : WaMessage) (p : Progress) :
  wv_metadata value <> None ->
  (forall room event m, emit room event m = Ok tt) ->
  let p' := whatsapp_message clock ai (Some emit) value message p in
  exists d,
    whatsapp_unified value message = Ok d
    /\ pr_state p' = snd (createMessage d (clock (pr_count p))
                                        (ai (pr_count p)) (pr_state p))
    /\ pr_count p' = S (pr_count p)
    /\ pr_thrown p' = false
    /\ msg_conversationId
         (fst (createMessage d (clock (pr_count p)) (ai (pr_count p))
                             (pr_state p)))
       = Some (conv_id_of (S (conversationCounter (pr_state p))))
    /\ map_get (conv_id_of (S (conversationCounter (pr_state p))))
               (conversations (pr_state p')) <> None.
Proof.
  intros Hmeta Hemit. cbv zeta.
  destruct (whatsapp_unified_readable value message Hmeta)
    as (d & Hd & Hconv & _).
  exists d. split; [assumption|].
  unfold whatsapp_message. rewrite Hd.
  assert (Hfalsy : truthy (md_conversationId d) = false)
    by now rewrite Hconv.
  destruct (createMessage_new_conversation d (clock (pr_count p))
              (ai (pr_count p)) (pr_state p) Hfalsy) as (_ & Hid & Hget).
  destruct (createMessage d (clock (pr_count p)) (ai (pr_count p))
              (pr_state p)) as [saved s'].
  cbn [fst snd] in *. cbn [pr_thrown pr_count pr_state fan_out deref bind].
  rewrite Hemit. repeat split; try assumption.
  intro Hnone. rewrite Hnone in Hget. discriminate.
Qed.

Lemma whatsapp_batch_ok (clock : nat -> Z) (ai : nat -> Categorizer)
    (emit : Emitter) (l : list (WaValue * WaMessage)) (p : Progress) :
  Forall (fun vm => wv_metadata (fst vm) <> None) l ->
  (forall room event m, emit room event m = Ok tt) ->
  pr_thrown p = false ->
  let p' := for_of (fun vm => whatsapp_message clock ai (Some emit)
                                (fst vm) (snd vm)) l p in
  pr_thrown p' = false
  /\ messageCounter (pr_state p')
     = messageCounter (pr_state p) + List.length l
  /\ conversationCounter (pr_state p')
     = conversationCounter (pr_state p) + List.length l.
Proof.
  intros Hall Hemit. revert p.
  induction Hall as [|[v m] r Hv Hr IH]; intros p Hp; cbv zeta.
  - cbn. repeat split; [assumption|lia|lia].
  - cbn [for_of fst snd].
    destruct (whatsapp_message_ok clock ai emit v m p Hv Hemit)
      as (Ht & _ & Hc & Hcc).
    rewrite Ht.
    destruct (IH _ Ht) as (Ht' & Hc' & Hcc').
    split; [assumption|]. cbn [List.length]. split; lia.
Qed.

(** The state after the loops is that of the [createMessage] calls for
    the payloads of the messages, one after another. *)
Lemma whatsapp_batch_run (clock : nat -> Z) (ai : nat -> Categorizer)
    (emit : Emitter) (l : list (WaValue * WaMessage)) (p : Progress) :
  Forall (fun vm => wv_metadata (fst vm) <> None) l ->
  (forall room event m, emit room event m = Ok tt) ->
  let p' := for_of (fun vm => whatsapp_message clock ai (Some emit)
                                (fst vm) (snd vm)) l p in
  exists ds,
    Forall2 (fun vm d => whatsapp_unified (fst vm) (snd vm) = Ok d) l ds
    /\ pr_state p' = run (ingests clock ai (pr_count p) ds) (pr_state p).
Proof.
  intros Hall Hemit. revert p.
  induction Hall as [|[v m] r Hv Hr IH]; intro p; cbv zeta.
  - exists []. split; [constructor|reflexivity].
  - cbn [for_of fst snd].
    destruct (whatsapp_message_stored clock ai emit v m p Hv Hemit)
      as (d & Hd & Hs & Hk & Ht & _).
    rewrite Ht.
    destruct (IH (whatsapp_message clock ai (Some emit) v m p))
      as (ds & Hds & Hrun).
    exists (d :: ds). split; [now constructor|].
    rewrite Hrun, Hk, Hs. reflexivity.
Qed.

(** The records and the conversations that the loops leave behind. *)
Lemma whatsapp_batch_records (clock : nat -> Z) (ai : nat -> Categorizer)
    (emit : Emitter) (l : list (WaValue * WaMessage)) (p : Progress) :
  Forall (fun vm => wv_metadata (fst vm) <> None) l ->
  (forall room event m, emit room event m = Ok tt) ->
  store_ok (pr_state p) ->
  let p' := for_of (fun vm => whatsapp_message clock ai (Some emit)
                                (fst vm) (snd vm)) l p in
  exists news,
    messages (pr_state p') = (messages (pr_state p) ++ news)%list
    /\ map fst news
       = map msg_id_of (seq (S (messageCounter (pr_state p))) (List.length l))
    /\ Forall2 (fun vm e => msg_id (snd e) = fst e
                            /\ whatsapp_record (fst vm) (snd vm) (snd e))
               l news
    /\ map (fun e => msg_conversationId (snd e)) news
       = map (fun k => Some (conv_id_of k))
             (seq (S (conversationCounter (pr_state p))) (List.length l))
    /\ Forall (fun k => map_get (conv_id_of k) (conversations (pr_state p'))
                        <> None)
              (seq (S (conversationCounter (pr_state p))) (List.length l))
    /\ forall conversationId,
         map_get conversationId (conversations (pr_state p)) <> None ->
         map_get conversationId (conversations (pr_state p')) <> None.
Proof.
  intros Hall Hemit. revert p.
  induction Hall as [|[v m] r Hv Hr IH]; intros p Hok; cbv zeta.
  - exists []. cbn. rewrite app_nil_r. repeat split; auto; constructor.
  - cbn [for_of fst snd].
    destruct (whatsapp_message_stored clock ai emit v m p Hv Hemit)
      as (d & Hd & Hs & Hk & Ht & Hconv & Hget).
    rewrite Ht.
    set (p1 := whatsapp_message clock ai (Some emit) v m p) in *.
    pose proof (createMessage_appends d (clock (pr_count p)) (ai (pr_count p))
                  (pr_state p) (store_ok_fresh _ Hok)) as Happ.
    destruct (createMessage_store d (clock (pr_count p)) (ai (pr_count p))
                (pr_state p)) as (Hid & Hmc & _).
    assert (Hfalsy : truthy (md_conversationId d) = false).
    { destruct (whatsapp_unified_readable v m Hv) as (d' & Hd' & Hc' & _).
      rewrite Hd in Hd'. injection Hd' as <-. now rewrite Hc'. }
    destruct (createMessage_new_conversation d (clock (pr_count p))
                (ai (pr_count p)) (pr_state p) Hfalsy) as (Hcc & _ & _).
    pose proof (whatsapp_unified_record v m d (clock (pr_count p))
                  (ai (pr_count p)) (pr_state p) Hd) as Hrec.
    pose proof (store_ok_create d (clock (pr_count p)) (ai (pr_count p))
                  (pr_state p) Hok) as Hok1.
    rewrite <- Hs in Happ, Hmc, Hcc, Hok1.
    set (saved := fst (createMessage d (clock (pr_count p))
                                     (ai (pr_count p)) (pr_state p))) in *.
    clearbody saved. clear Hs.
    destruct (IH p1 Hok1) as (news & Hm & Hkeys & Hrecs & Hconvs & Hin & Hkept).
    exists ((msg_id_of (S (messageCounter (pr_state p))), saved) :: news).
    cbn [List.length seq map fst snd].
    split; [rewrite Hm, Happ, <- app_assoc; reflexivity|].
    split; [now rewrite Hkeys, Hmc|].
    split; [constructor; [split; assumption|assumption]|].
    split; [now rewrite Hconvs, Hcc, Hconv|].
    split.
    + constructor; [now apply Hkept|]. now rewrite <- Hcc.
    + intros cid Hcid. apply Hkept. subst p1.
      unfold whatsapp_message. rewrite Hd.
      pose proof (createMessage_conversation_kept d (clock (pr_count p))
                    (ai (pr_count p)) (pr_state p) cid Hcid) as Hk1.
      destruct (createMessage d (clock (pr_count p)) (ai (pr_count p))
                  (pr_state p)) as [sv s1].
      exact Hk1.
Qed.

(** X9.  A WhatsApp body of objects whose entries and changes can be
    walked and whose messages all come with the metadata of their change,
    delivered while the socket server accepts every emit.  The answer is
    200, and the service is left as by one [createMessage] call for the
    payload of each message of the body, in the order of the body.  Both
    counters have grown by the number of messages.  On a store whose keys
    are the ids that the counter has handed out, the store has one new
    entry for each message, appended in the order of the body under the
    next ids, which holds the platform, the native id, the sender, the
    recipient id, the text and the attachments of its message; each of
    these records names a conversation of its own, numbered from the
    conversation counter on, and that conversation is in the table; the
    entries and the conversations that were there before are still
    there. *)
Theorem whatsapp_batch_is_stored (body : WaBody) (entry : list WaEntry)
    (l : list (WaValue * WaMessage)) (clock : nat -> Z)
    (ai : nat -> Categorizer) (emit : Emitter) (s : State) :
  wb_object body = Some "whatsapp_business_account" ->
  wb_entry body = Some entry ->
  entry_messages entry = Some l ->
  Forall (fun vm => wv_metadata (fst vm) <> None) l ->
  (forall room event m, emit room event m = Ok tt) ->
  let r := whatsapp_webhook body clock ai (Some emit) s in
  fst r = WaOk
  /\ messageCounter (snd r) = messageCounter s + List.length l
  /\ conversationCounter (snd r) = conversationCounter s + List.length l
  /\ (exists ds,
        Forall2 (fun vm d => whatsapp_unified (fst vm) (snd vm) = Ok d) l ds
        /\ snd r = run (ingests clock ai 0 ds) s)
  /\ (store_ok s ->
      exists news,
        messages (snd r) = (messages s ++ news)%list
        /\ map fst news
           = map msg_id_of (seq (S (messageCounter s)) (List.length l))
        /\ Forall2 (fun vm e => msg_id (snd e) = fst e
                                /\ whatsapp_record (fst vm) (snd vm) (snd e))
                   l news
        /\ map (fun e => msg_conversationId (snd e)) news
           = map (fun k => Some (conv_id_of k))
                 (seq (S (conversationCounter s)) (List.length l))
        /\ Forall (fun k => map_get (conv_id_of k) (conversations (snd r))
                            <> None)
                  (seq (S (conversationCounter s)) (List.length l))
        /\ forall conversationId,
             map_get conversationId (conversations s) <> None ->
             map_get conversationId (conversations (snd r)) <> None).
Proof.
  intros Hobj Hentry Hl Hall Hemit. cbv zeta.
  unfold whatsapp_webhook. rewrite Hobj, Hentry.
  cbn [opt_eqb]. rewrite String.eqb_refl. cbn [negb].
  rewrite (whatsapp_entries_flat clock ai (Some emit) entry l
             {| pr_state := s; pr_count := 0; pr_thrown := false |}
             Hl eq_refl).
  destruct (whatsapp_batch_ok clock ai emit l
              {| pr_state := s; pr_count := 0; pr_thrown := false |}
              Hall Hemit eq_refl) as (Ht & Hc & Hcc).
  cbn [fst snd]. rewrite Ht.
  split; [reflexivity|]. split; [exact Hc|]. split; [exact Hcc|]. split.
  - exact (whatsapp_batch_run clock ai emit l
             {| pr_state := s; pr_count := 0; pr_thrown := false |}
             Hall Hemit).
  - intro Hok.
    exact (whatsapp_batch_records clock ai emit l
             {| pr_state := s; pr_count := 0; pr_thrown := false |}
             Hall Hemit Hok).
Qed.

Lemma whatsapp_batch_is_stored_witness :
  let r := whatsapp_webhook Sample.wa_body (fun k => 10 + Z.of_nat k)%Z
             (fun _ => Sample.fallback_ai) (Some Sample.emit_ok)
             initial_state in
  fst r = WaOk
  /\ messageCounter (snd r) = 2
  /\ map (fun e => (fst e, msg_platformMessageId (snd e),
                    msg_conversationId (snd e), msg_text (snd e)))
         (messages (snd r))
     = [("msg_1", Some "wamid.A", Some "conv_1", Some "first");
        ("msg_2", Some "wamid.B", Some "conv_2", Some "second")]
  /\ exists news, messages (snd r) = news
                  /\ map fst news = ["msg_1"; "msg_2"].
Proof.
  cbv zeta.
  destruct (whatsapp_batch_is_stored Sample.wa_body
              [ {| we_changes :=
                     Some [ {| wc_value := Some Sample.wa_value |} ] |} ]
              [(Sample.wa_value, Sample.wa_text_message "wamid.A" "first");
               (Sample.wa_value, Sample.wa_text_message "wamid.B" "second")]
              (fun k => 10 + Z.of_nat k)%Z (fun _ => Sample.fallback_ai)
              Sample.emit_ok initial_state) as (H1 & H2 & _ & _ & H5).
  - reflexivity.
  - reflexivity.
  - reflexivity.
  - repeat constructor; discriminate.
  - reflexivity.
  - split; [exact H1|]. split; [exact H2|]. split; [reflexivity|].
    destruct (H5 store_ok_initial) as (news & Hm & Hkeys & _).
    exists news. split; [exact Hm|exact Hkeys].
Defined.

(** X10.  A body that is not a WhatsApp event is answered 200 and
    changes nothing.  When the fan-out of the first message of a WhatsApp
    body fails (no socket server on the application, or an emit that
    throws), the answer is 500 and the run ends there: the first message
    is stored, as [createMessage] stores it, and no later message of the
    body is. *)
Theorem whatsapp_stops_at_failed_emit :
  (forall body clock ai io s,
      wb_object body <> Some "whatsapp_business_account" ->
      whatsapp_webhook body clock ai io s = (NotWhatsApp, s))
  /\ (forall body entry value message rest clock ai io s,
        wb_object body = Some "whatsapp_business_account" ->
        wb_entry body = Some entry ->
        entry_messages entry = Some ((value, message) :: rest) ->
        wv_metadata value <> None ->
        (forall m, exists e, fan_out io "platform:whatsapp" m = Throw e) ->
        exists d,
          whatsapp_unified value message = Ok d
          /\ whatsapp_webhook body clock ai io s =
             (WaError, snd (createMessage d (clock 0) (ai 0) s))).
Proof.
  split.
  - intros body clock ai io s Hobj. unfold whatsapp_webhook.
    destruct (wb_object body) as [o|]; cbn [opt_eqb negb]; [|reflexivity].
    destruct (String.eqb_spec o "whatsapp_business_account") as [->|Hne];
      [now contradiction Hobj|reflexivity].
  - intros body entry value message rest clock ai io s
           Hobj Hentry Hl Hmeta Hfail.
    destruct (whatsapp_unified_readable value message Hmeta)
      as (d & Hd & _).
    exists d. split; [assumption|].
    unfold whatsapp_webhook. rewrite Hobj, Hentry.
    cbn [opt_eqb]. rewrite String.eqb_refl. cbn [negb].
    rewrite (whatsapp_entries_flat clock ai io entry _
               {| pr_state := s; pr_count := 0; pr_thrown := false |}
               Hl eq_refl).
    assert (Hstep :
              whatsapp_message clock ai io value message
                {| pr_state := s; pr_count := 0; pr_thrown := false |} =
              {| pr_state := snd (createMessage d (clock 0) (ai 0) s);
                 pr_count := 1; pr_thrown := true |}).
    { unfold whatsapp_message. rewrite Hd. cbn [pr_state pr_count].
      destruct (createMessage d (clock 0) (ai 0) s) as [saved s'].
      destruct (Hfail saved) as [e He]. now rewrite He. }
    cbn [for_of fst snd]. rewrite Hstep. reflexivity.
Qed.

Lemma whatsapp_stops_at_failed_emit_witness :
  messageCounter
    (snd (whatsapp_webhook Sample.wa_body (fun k => 10 + Z.of_nat k)%Z
            (fun _ => Sample.fallback_ai) None initial_state)) = 1.
Proof.
  destruct (proj2 whatsapp_stops_at_failed_emit Sample.wa_body
              [ {| we_changes :=
                     Some [ {| wc_value := Some Sample.wa_value |} ] |} ]
              Sample.wa_value (Sample.wa_text_message "wamid.A" "first")
              [(Sample.wa_value, Sample.wa_text_message "wamid.B" "second")]
              (fun k => 10 + Z.of_nat k)%Z (fun _ => Sample.fallback_ai)
              None initial_state) as (d & Hd & H).
  - reflexivity.
  - reflexivity.
  - reflexivity.
  - discriminate.
  - intro m. eexists. reflexivity.
  - rewrite H. cbn [snd].
    destruct (createMessage_store d 10 Sample.fallback_ai initial_state)
      as (_ & Hc & _).
    exact Hc.
Defined.

(** ** The mock routes: send, get, delete *)

Lemma remove_first_get (id : string) (db : list RouteMessage) :
  match remove_first id db with
  | None => get_message_route id db = None
  | Some db' =>
      exists m,
        get_message_route id db = Some m
        /\ List.length db = S (List.length db')
        /\ forall id', id' <> id ->
                       get_message_route id' db' = get_message_route id' db
  end.
Proof.
  unfold get_message_route.
  induction db as [|msg r IH]; cbn [remove_first find]; [reflexivity|].
  destruct (String.eqb_spec (rm_id msg) id) as [Heq|Hne].
  - exists msg. repeat split. intros id' Hne'. cbn [find].
    destruct (String.eqb_spec (rm_id msg) id') as [Heq'|_];
      [congruence|reflexivity].
  - destruct (remove_first id r) as [db'|]; cbn [option_map].
    + destruct IH as (m & Hm & Hlen & Hother).
      exists m. split; [assumption|]. split; [cbn; now rewrite Hlen|].
      intros id' Hne'. cbn [find].
      destruct (String.eqb (rm_id msg) id'); [reflexivity|now apply Hother].
    + exact IH.
Qed.

(** X11.  A send with platform, recipient and text is answered 201 with
    an id under which the new message is then found, also when an older
    message has the same id (the new one is put in front); deleting that
    id removes the new message and gives the array back as it was. *)
Theorem send_then_get_then_delete (body : SendBody) (clock : nat -> Z)
    (db : list RouteMessage) :
  truthy (sb_platform body) = true ->
  truthy (sb_recipient body) = true ->
  truthy (sb_text body) = true ->
  let r := send_message_route body clock db in
  exists m,
    fst r = Sent (rm_id m)
    /\ rm_id m = string_of_Z (clock 0)
    /\ rm_status m = "sent"
    /\ get_message_route (rm_id m) (snd r) = Some m
    /\ delete_message_route (rm_id m) (snd r) = Some db.
Proof.
  intros Hp Hr Ht. cbv zeta. unfold send_message_route.
  rewrite Hp, Hr, Ht. cbn [negb orb fst snd].
  eexists. split; [reflexivity|]. split; [reflexivity|].
  split; [reflexivity|].
  unfold get_message_route, delete_message_route.
  cbn [find remove_first rm_id]. rewrite String.eqb_refl. split; reflexivity.
Qed.

Lemma send_then_get_then_delete_witness :
  exists m,
    get_message_route (rm_id m)
      (snd (send_message_route
              {| sb_platform := Some "gmail"; sb_recipient := Some "bob";
                 sb_text := Some "hello"; sb_subject := None;
                 sb_type := None; sb_attachments := None |}
              (fun k => 1705314600000 + Z.of_nat k)%Z
              [Sample.route_message "1"])) = Some m
    /\ delete_message_route (rm_id m)
         (snd (send_message_route
                 {| sb_platform := Some "gmail"; sb_recipient := Some "bob";
                    sb_text := Some "hello"; sb_subject := None;
                    sb_type := None; sb_attachments := None |}
                 (fun k => 1705314600000 + Z.of_nat k)%Z
                 [Sample.route_message "1"]))
       = Some [Sample.route_message "1"].
Proof.
  destruct (send_then_get_then_delete
              {| sb_platform := Some "gmail"; sb_recipient := Some "bob";
                 sb_text := Some "hello"; sb_subject := None;
                 sb_type := None; sb_attachments := None |}
              (fun k => 1705314600000 + Z.of_nat k)%Z
              [Sample.route_message "1"])
    as (m & _ & _ & _ & Hget & Hdel); try reflexivity.
  exists m. split; assumption.
Defined.

(** Where [remove_first] cuts: at the first message with the id. *)
Lemma remove_first_split (id : string) (db : list RouteMessage) :
  match remove_first id db with
  | None => Forall (fun msg => rm_id msg <> id) db
  | Some db' =>
      exists before m after,
        db = (before ++ m :: after)%list
        /\ db' = (before ++ after)%list
        /\ rm_id m = id
        /\ Forall (fun msg => rm_id msg <> id) before
  end.
Proof.
  induction db as [|msg r IH]; cbn [remove_first]; [constructor|].
  destruct (String.eqb_spec (rm_id msg) id) as [Heq|Hne].
  - exists [], msg, r. repeat split; [assumption|constructor].
  - destruct (remove_first id r) as [db'|]; cbn [option_map].
    + destruct IH as (before & m & after & -> & -> & Hm & Hb).
      exists (msg :: before), m, after. repeat split; [assumption|].
      now constructor.
    + now constructor.
Qed.

(** X12.  The delete route answers 404, leaving the array as it is,
    exactly when no message has the id.  Otherwise it removes one
    message, the first with that id, which is the one the get route
    finds: the messages before it and after it stay as they are and in
    their order, so the array is one shorter and every other id finds
    what it found before. *)
Theorem delete_message_route_frame (id : string) (db : list RouteMessage) :
  match delete_message_route id db with
  | None =>
      get_message_route id db = None
      /\ Forall (fun msg => rm_id msg <> id) db
  | Some db' =>
      exists before m after,
        db = (before ++ m :: after)%list
        /\ db' = (before ++ after)%list
        /\ rm_id m = id
        /\ Forall (fun msg => rm_id msg <> id) before
        /\ get_message_route id db = Some m
        /\ List.length db = S (List.length db')
        /\ forall id', id' <> id ->
                       get_message_route id' db' = get_message_route id' db
  end.
Proof.
  unfold delete_message_route.
  pose proof (remove_first_get id db) as Hget.
  pose proof (remove_first_split id db) as Hsplit.
  destruct (remove_first id db) as [db'|]; [|now split].
  destruct Hsplit as (before & m & after & Hdb & Hdb' & Hm & Hb).
  destruct Hget as (m' & Hfound & Hlen & Hother).
  exists before, m, after. repeat split; try assumption.
  rewrite Hfound. f_equal.
  rewrite Hdb in Hfound. unfold get_message_route in Hfound.
  clear - Hfound Hm Hb.
  induction Hb as [|x before Hx Hb IH]; cbn [app find] in Hfound.
  - rewrite (proj2 (String.eqb_eq _ _) Hm) in Hfound. congruence.
  - rewrite (proj2 (String.eqb_neq _ _) Hx) in Hfound. now apply IH.
Qed.

(** ** Media of a Telegram message *)

Lemma last_map_Some {A : Type} (l : list A) :
  l <> [] -> exists x, last (map Some l) None = Some x.
Proof.
  induction l as [|a r IH]; intro Hne; [contradiction|].
  destruct r as [|b r]; [now exists a|].
  destruct IH as [x Hx]; [discriminate|].
  exists x. exact Hx.
Qed.

(** X13.  The attachment block of the Telegram handler can throw only
    when the message has a [photo]: video and document are read only
    where they are present, audio and voice are not read at all.  It does
    throw on an empty [photo] array, and the request is then answered 500
    with nothing stored.  Without photo, video, document, audio and voice
    the payload gets no attachment list.  When the block returns with
    one, the list has at most three attachments, of the types image,
    video and document; audio and voice are never recorded, so a message
    that has only those gets the empty list. *)
Theorem telegram_media :
  (forall msg,
      match telegram_attachments msg with
      | Throw _ => tg_photo msg <> None
      | Ok None => has_media msg = false
      | Ok (Some l) =>
          has_media msg = true
          /\ List.length l <= 3
          /\ Forall (fun a => att_type a = Some "image"
                              \/ att_type a = Some "video"
                              \/ att_type a = Some "document") l
          /\ (l = [] <-> tg_photo msg = None /\ tg_video msg = None
                         /\ tg_document msg = None)
      end)
  /\ (forall msg,
        tg_photo msg = Some [] -> exists e, telegram_attachments msg = Throw e)
  /\ (forall body msg now ai io s,
        update_msg body = Some msg ->
        tg_photo msg = Some [] ->
        telegram_webhook body now ai io s = (InternalServerError, s)).
Proof.
  split; [|split].
  2:{ intros msg Hphoto. unfold telegram_attachments, has_media.
      rewrite Hphoto. cbn. eauto. }
  - intro msg. unfold telegram_attachments.
    destruct (has_media msg) eqn:Hmedia; [|reflexivity].
    destruct (tg_photo msg) as [photo|] eqn:Hphoto.
    + destruct photo as [|f fs]; [discriminate|].
      destruct (last_map_Some (f :: fs)) as [biggest Hlast];
        [discriminate|].
      rewrite Hlast. cbn [deref bind].
      * split; [reflexivity|].
        destruct (tg_video msg), (tg_document msg); cbn;
          repeat split; auto; intros; try discriminate;
          try lia; repeat constructor; auto;
          match goal with
          | H : _ /\ _ |- _ => destruct H as [H _]; discriminate H
          end.
    + cbn [bind]. split; [reflexivity|].
      destruct (tg_video msg), (tg_document msg); cbn;
        repeat split; auto; intros; try discriminate;
        try lia; repeat constructor; auto;
        match goal with
        | H : _ /\ _ /\ _ |- _ =>
            destruct H as (_ & H1 & H2); discriminate H1 || discriminate H2
        end.
  - intros body msg now ai io s Hmsg Hphoto.
    unfold telegram_webhook. rewrite Hmsg.
    assert (Hthrow : exists e, telegram_unified body msg = Throw e).
    { unfold telegram_unified, bind, deref.
      destruct (tg_from msg) as [from|]; [|eauto].
      destruct (user_id from); [|eauto].
      destruct (tg_chat msg) as [chat|]; [|eauto].
      destruct (chat_id chat); [|eauto].
      destruct (tg_message_id msg); [|eauto].
      unfold telegram_attachments, has_media. rewrite Hphoto.
      cbn. eauto. }
    destruct Hthrow as [e ->]. reflexivity.
Qed.

Lemma telegram_media_witness :
  telegram_webhook Sample.update_empty_photo 10 Sample.fallback_ai
    (Some Sample.emit_ok) initial_state = (InternalServerError, initial_state).
Proof.
  apply (proj2 (proj2 telegram_media) Sample.update_empty_photo
           {| tg_from := Some Sample.alice; tg_chat := Some Sample.team_chat;
              tg_text := None; tg_caption := Some "look";
              tg_date := Some 1700000000%Z; tg_message_id := Some 557%Z;
              tg_photo := Some []; tg_video := None; tg_document := None;
              tg_audio := None; tg_voice := None |}).
  - reflexivity.
  - reflexivity.
Defined.

(** ** What [createMessage] does to the conversation table *)

Lemma opt_eqb_eq (a b : option string) : opt_eqb a b = true -> a = b.
Proof.
  destruct a as [x|], b as [y|]; cbn; try discriminate; try reflexivity.
  intro H. apply String.eqb_eq in H. now subst.
Qed.

Lemma push_participant_incl (id : option string) (l : list string) :
  incl l (push_participant id l).
Proof.
  unfold push_participant.
  destruct (truthy id && negb (includes (or_str id "") l));
    [apply incl_appl|]; apply incl_refl.
Qed.

Lemma push_participant_In (id : option string) (l : list string) :
  truthy id = true -> In (or_str id "") (push_participant id l).
Proof.
  intro Ht. unfold push_participant. rewrite Ht. cbn [andb].
  destruct (includes (or_str id "") l) eqn:Hinc; cbn [negb].
  - unfold includes in Hinc. apply existsb_exists in Hinc as [x [Hx Heq]].
    apply String.eqb_eq in Heq. now subst.
  - apply in_or_app. right. now left.
Qed.

Lemma set_add_In (p : option string) (l : list (option string)) :
  In p (set_add p l).
Proof.
  unfold set_add. destruct (existsb (opt_eqb p) l) eqn:Hex.
  - apply existsb_exists in Hex as [x [Hx Heq]].
    apply opt_eqb_eq in Heq. now subst.
  - apply in_or_app. right. now left.
Qed.

Lemma truthy_or_str (a : option string) :
  truthy a = true -> a = Some (or_str a "").
Proof.
  unfold truthy, or_str. destruct a as [t|]; [|discriminate].
  destruct (String.eqb t ""); [discriminate|reflexivity].
Qed.

(** X14.  [createMessage] touches one conversation at most.  Every
    conversation other than the one the returned message names is looked
    up as before.  When the payload names a conversation that is in the
    table, no conversation is created, and that conversation counts one
    message more, has the text and the time of the new message as its
    last message, keeps its id, title and creation time, keeps all its
    participants and has the sender and the recipient among them, and
    has the platform of the message among its platforms. *)
Theorem createMessage_conversation_frame :
  (forall d now ai s conversationId,
      msg_conversationId (fst (createMessage d now ai s))
      <> Some conversationId ->
      map_get conversationId (conversations (snd (createMessage d now ai s)))
      = map_get conversationId (conversations s))
  /\ (forall d now ai s c,
        truthy (md_conversationId d) = true ->
        map_get (or_str (md_conversationId d) "") (conversations s) = Some c ->
        let s' := snd (createMessage d now ai s) in
        exists c',
          map_get (or_str (md_conversationId d) "") (conversations s')
          = Some c'
          /\ conversationCounter s' = conversationCounter s
          /\ map_keys (conversations s') = map_keys (conversations s)
          /\ conv_messageCount c' = S (conv_messageCount c)
          /\ conv_lastMessage c' = Some (or_str (md_text d) "")
          /\ conv_lastMessageTime c' = now
          /\ conv_id c' = conv_id c /\ conv_title c' = conv_title c
          /\ conv_createdAt c' = conv_createdAt c
          /\ incl (conv_participants c) (conv_participants c')
          /\ (truthy (md_senderId d) = true ->
              In (or_str (md_senderId d) "") (conv_participants c'))
          /\ (truthy (md_recipientId d) = true ->
              In (or_str (md_recipientId d) "") (conv_participants c'))
          /\ In (md_platform d) (conv_platforms c')).
Proof.
  split.
  - intros d now ai s conversationId Hother.
    rewrite createMessage_returns in Hother. cbv zeta in Hother.
    unfold createMessage, updateConversation, createConversation.
    cbn [msg_id build_message msg_conversationId].
    rewrite normalize_conversationId.
    destruct (truthy (md_conversationId d)) eqn:Hc.
    + cbn [build_message msg_conversationId] in Hother.
      rewrite normalize_conversationId in Hother.
      rewrite (truthy_or_str _ Hc) in Hother.
      cbn [conversations].
      destruct (map_get (or_str (md_conversationId d) "") (conversations s));
        [|reflexivity].
      cbn [snd with_conversations conversations].
      apply map_get_set_other. congruence.
    + cbn [set_conversationId msg_conversationId] in Hother.
      cbn [conversations messages with_messages conversationCounter].
      rewrite map_get_set_same.
      cbn [snd with_conversations conversations].
      rewrite !map_get_set_other by congruence. reflexivity.
  - intros d now ai s c Hc Hget. cbv zeta.
    destruct (normalize_keeps d)
      as (Hp & _ & Hsid & _ & Hrid & _ & _ & _ & Htext & _).
    unfold createMessage, updateConversation.
    cbn [msg_id build_message msg_conversationId].
    rewrite normalize_conversationId, Hc. cbn [conversations].
    rewrite Hget. cbn [snd with_conversations conversations
                       conversationCounter].
    rewrite map_get_set_same. eexists. split; [reflexivity|].
    cbn [touch_conversation conv_messageCount conv_lastMessage
         conv_lastMessageTime conv_id conv_title conv_createdAt
         conv_participants conv_platforms build_message msg_text
         msg_timestamp msg_senderId msg_recipientId msg_platform].
    rewrite Hp, Hsid, Hrid, Htext.
    split; [reflexivity|].
    split; [now apply (map_keys_set_present _ _ c)|].
    repeat (split; [reflexivity|]).
    split; [|split; [|split]].
    + eapply incl_tran; apply push_participant_incl.
    + intro Ht. apply push_participant_incl. now apply push_participant_In.
    + intro Ht. now apply push_participant_In.
    + apply set_add_In.
Qed.

Lemma createMessage_conversation_frame_witness :
  exists c',
    map_get "conv_1"
      (conversations
         (snd (createMessage (Sample.chat_message "wamid.2" 7 (Some "conv_1"))
                 20 Sample.fallback_ai Sample.one_message))) = Some c'
    /\ conv_messageCount c' = 3.
Proof.
  destruct (map_get "conv_1" (conversations Sample.one_message))
    as [c|] eqn:E; [|vm_compute in E; discriminate].
  destruct (proj2 createMessage_conversation_frame
              (Sample.chat_message "wamid.2" 7 (Some "conv_1")) 20%Z
              Sample.fallback_ai Sample.one_message c eq_refl E)
    as (c' & Hget & _ & _ & Hcount & _).
  exists c'. split; [exact Hget|]. rewrite Hcount.
  vm_compute in E. injection E as <-. reflexivity.
Defined.

(** ** Listing a conversation: the limit, and read messages *)

(** X15.  [getConversationMessages] on a conversation of the table: with
    a positive limit it returns the last [limit] messages of the sorted
    conversation, all of them when they are fewer; with the limit 0 it
    returns the whole conversation, not the empty list.  Every message
    returned belongs to the conversation. *)
Theorem getConversationMessages_limit (conversationId : string) (limit : Z)
    (s : State) :
  let all := sort_by_timestamp
               (filter (in_conversation conversationId)
                       (map_values (messages s))) in
  match getConversationMessages conversationId limit s with
  | Throw _ => map_get conversationId (conversations s) = None
  | Ok l =>
      Forall (fun m => msg_conversationId m = Some conversationId) l
      /\ (limit = 0%Z -> l = all)
      /\ ((0 < limit)%Z ->
          l = skipn (List.length all - Z.to_nat limit) all
          /\ List.length l = Nat.min (Z.to_nat limit) (List.length all))
  end.
Proof.
  cbv zeta. unfold getConversationMessages.
  destruct (map_get conversationId (conversations s)); [|reflexivity].
  set (all := sort_by_timestamp _). split; [|split].
  - apply Forall_forall. intros m Hm. unfold slice in Hm.
    apply skipn_In in Hm.
    apply (Permutation_in _ (sort_by_timestamp_perm _)) in Hm.
    apply filter_In in Hm as [_ Hc]. now apply opt_eqb_eq in Hc.
  - intros ->. unfold slice. cbn [Z.opp Z.ltb Z.compare].
    rewrite Z.min_l by lia. reflexivity.
  - intro Hpos. unfold slice.
    destruct (Z.ltb_spec (- limit) 0) as [_|Hge]; [|lia].
    replace (Z.to_nat (Z.max (Z.of_nat (List.length all) + - limit) 0))
      with (List.length all - Z.to_nat limit) by lia.
    split; [reflexivity|]. rewrite length_skipn. lia.
Qed.

(** X16.  After [markConversationAsRead] on a conversation, a
    [getMessages] for the unread messages of that conversation finds
    none, on any page: the list is empty and [total] is 0. *)
Theorem no_unread_after_markConversationAsRead
    (toLowerCase : string -> string) (conversationId : string)
    (clock : nat -> Z) (pagination : PageRequest) (s s' : State) (n : nat) :
  NoDup (map_keys (messages s)) ->
  String.eqb conversationId "" = false ->
  markConversationAsRead conversationId clock s = Ok (n, s') ->
  getMessages toLowerCase
    {| f_platform := None; f_status := Some "unread"; f_search := None;
       f_conversationId := Some conversationId; f_dateFrom := None;
       f_dateTo := None; f_type := None; f_isIncoming := None |}
    pagination s' =
  ([], {| pg_page := or_num (pr_page pagination) 1;
          pg_limit := or_num (pr_limit pagination) 20;
          pg_total := 0;
          pg_totalPages := ceil_div 0 (or_num (pr_limit pagination) 20);
          pg_hasNext :=
            ((or_num (pr_page pagination) 1 - 1)
             * or_num (pr_limit pagination) 20
             + or_num (pr_limit pagination) 20 <? 0)%Z;
          pg_hasPrev := (1 <? or_num (pr_page pagination) 1)%Z |}).
Proof.
  intros Hnd Hcid Hmark.
  destruct (markConversationAsRead_messages conversationId clock s s' n
              Hnd Hmark) as (Hm & _).
  assert (Hnone :
            filter (message_passes toLowerCase
                      {| f_platform := None; f_status := Some "unread";
                         f_search := None;
                         f_conversationId := Some conversationId;
                         f_dateFrom := None; f_dateTo := None;
                         f_type := None; f_isIncoming := None |})
                   (map_values (messages s')) = []).
  { rewrite <- (marked_entries_settled conversationId clock (messages s) 0),
            <- Hm.
    apply filter_ext. intro m.
    unfold message_passes, unread_in, in_conversation.
    cbn [f_platform f_status f_search f_conversationId f_dateFrom f_dateTo
         f_type f_isIncoming truthy opt_eqb andb].
    rewrite Hcid. cbn [negb andb].
    destruct (String.eqb (msg_status m) "unread"),
      (opt_eqb (msg_conversationId m) (Some conversationId)); reflexivity. }
  unfold getMessages. rewrite Hnone. cbn [sort_newest_first List.length].
  unfold slice_range. cbn [List.length skipn].
  rewrite skipn_nil, firstn_nil. reflexivity.
Qed.

Lemma no_unread_after_markConversationAsRead_witness :
  fst (getMessages (fun t => t)
         {| f_platform := None; f_status := Some "unread"; f_search := None;
            f_conversationId := Some "conv_1"; f_dateFrom := None;
            f_dateTo := None; f_type := None; f_isIncoming := None |}
         {| pr_page := None; pr_limit := None |}
         (match markConversationAsRead "conv_1" (fun k => Z.of_nat k)
                  Sample.three_messages with
          | Ok (_, s') => s'
          | Throw _ => initial_state
          end)) = [].
Proof.
  destruct (markConversationAsRead "conv_1" (fun k => Z.of_nat k)
              Sample.three_messages) as [[n s']|e] eqn:E.
  - rewrite (no_unread_after_markConversationAsRead (fun t => t) "conv_1"
               (fun k => Z.of_nat k) {| pr_page := None; pr_limit := None |}
               Sample.three_messages s' n).
    + reflexivity.
    + vm_compute. repeat constructor; intros H;
        repeat (destruct H as [H|H]; try discriminate H); exact H.
    + reflexivity.
    + exact E.
  - vm_compute in E. discriminate.
Defined.
